(** * ESP32-S3 weather station: acquisition, history, queries, navigation

    A shallow embedding of the firmware sketch
    [working_weather_Station_nokia_display_BME688_web_Server_v4.ino]:
    the global variables become one record, every handler becomes a command
    of a small state monad that also records the calls made to the device
    drivers, and the values the drivers hand back (the clock, the sensor, the
    button pin, the request arguments) are arguments of the handlers.  The
    diagnostic lines printed on [Serial] and on the WebSocket console and the
    drawing of the LCD pages are left out: no handler reads them back. *)

From Stdlib Require Import ZArith QArith Lia Bool List String Ascii.
From stdpp Require Import base tactics option list strings gmap.
Import ListNotations.

#[local] Open Scope Z_scope.

(** ** Machine integers *)

(** [unsigned long] and [uint32_t] are 32 bits wide on the ESP32-S3, [int] and
    [long] are 32-bit two's complement, [uint8_t] is 8 bits.  A conversion to
    a narrower type keeps the low bits. *)
Definition to_uint32 (z : Z) : Z := z mod 2 ^ 32.
Definition to_uint8 (z : Z) : Z := z mod 2 ^ 8.
Definition to_int32 (z : Z) : Z := (z + 2 ^ 31) mod 2 ^ 32 - 2 ^ 31.

(** [a - b] on two [unsigned long] operands. *)
Definition usub (a b : Z) : Z := to_uint32 (a - b).

(** The Arduino macro
    [constrain(amt,low,high) ((amt)<(low)?(low):((amt)>(high)?(high):(amt)))]. *)
Definition constrain (amt low high : Z) : Z :=
  if amt <? low then low else if high <? amt then high else amt.

(** ** Constants of the sketch *)

Definition CHUNK_SIZE : Z := 200.
Definition NUM_PAGES : Z := 7.
Definition GAS_READ_INTERVAL : Z := 3600000.
Definition COOL_DOWN_PERIOD : Z := 300000.
Definition debounceDelay : Z := 50.
Definition HIGH : Z := 1.
Definition LOW : Z := 0.

Inductive RgbSelectState := SELECT_R | SELECT_G | SELECT_B.
Inductive SensorState := NORMAL_READING | GAS_MEASUREMENT | COOLING_DOWN.
Inductive WStype_t := WStype_ERROR | WStype_DISCONNECTED | WStype_CONNECTED | WStype_TEXT | WStype_BIN.

(** [==] on two values of [enum SensorState]. *)
Definition SensorState_eqb (a b : SensorState) : bool :=
  match a, b with
  | NORMAL_READING, NORMAL_READING => true
  | GAS_MEASUREMENT, GAS_MEASUREMENT => true
  | COOLING_DOWN, COOLING_DOWN => true
  | _, _ => false
  end.

(** ** What the sketch is built against

    [HISTORY_SIZE] is [const int HISTORY_SIZE = 2000] in the sketch; it is a
    field here so that the ring buffer can also be run at small capacities.
    Single-precision values are opaque: the sketch only stores and copies
    them, except for the literal [0] of the start-up fill and the divisions
    [bme.pressure / 100.0f] and [bme.gas_resistance / 1000.0f]. *)
Class Config := {
  HISTORY_SIZE : Z;
  float : Type;
  float_0 : float;
  div_100f : Z -> float;
  div_1000f : Z -> float }.

(** [String::toInt] of the Arduino core. *)
Class ArduinoCore := { toInt : string -> Z }.

Section Firmware.
Context {cfg : Config} {core : ArduinoCore}.

(** ** Global variables *)

Record SensorReading := mkReading { timestamp : Z; value : float }.

(** The fields [Adafruit_BME680] exposes after a finished reading. *)
Record BmeData := mkBme {
  temperature : float; humidity : float; pressure : Z; gas_resistance : Z }.

Record History := mkHistory {
  tempHistory : list SensorReading;
  humiHistory : list SensorReading;
  presHistory : list SensorReading;
  historyIndex : Z }.

Record Sensor := mkSensor {
  currentSensorState : SensorState;
  sensorReadingEndTime : Z;
  lastGasReadTime : Z;
  coolingStartTime : Z;
  lastValidGasReading : float;
  lastGasReadTimestamp : Z }.

Record Menu := mkMenu {
  currentPage : Z;
  needsRedraw : bool;
  oldEncoderPosition : Z;
  lcdBrightness : Z;
  brightnessEditMode : bool;
  redVal : Z;
  greenVal : Z;
  blueVal : Z;
  currentRgbSelectState : RgbSelectState;
  rgbEditMode : bool }.

Record Button := mkButton {
  buttonState : Z;
  lastButtonState : Z;
  lastDebounceTime : Z }.

(** [encoderCount] is the counter inside the [rotaryEncoder] object: the
    hardware moves it, [setCount] overwrites it, [getCount] reads it. *)
Record Globals := mkGlobals {
  history : History;
  sensor : Sensor;
  menu : Menu;
  button : Button;
  encoderCount : Z }.

(** ** Driver calls *)

(** One [{x, y}] object of the JSON arrays; [x] is [timestamp * 1000]. *)
Record Point := mkPoint { pt_x : Z; pt_y : float }.

Inductive Body :=
| Text (s : string)
| DataJson (temp humi pres : list Point)
| LatestJson (temp humi pres gas : float) (gas_updated : Z).

Inductive Call :=
| bme_setGasHeater (heaterTemp heaterTime : Z)
| bme_beginReading
| bme_endReading
| pixels_setPixelColor (n r g b : Z)
| pixels_show
| ledc_set_duty (duty : Z)
| ledc_update_duty
| preferences_begin (name : string) (readOnly : bool)
| preferences_putInt (key : string) (v : Z)
| preferences_putUChar (key : string) (v : Z)
| preferences_end
| server_send (code : Z) (content_type : string) (body : Body).

(** ** The command monad: global state, call trace, memory faults *)

Inductive Outcome (A : Type) :=
| Fault
| OutOfFuel
| Done (a : A) (g : Globals) (calls : list Call).
Arguments Fault {A}.
Arguments OutOfFuel {A}.
Arguments Done {A} a g calls.

Definition M (A : Type) : Type := Globals -> Outcome A.

Definition ret {A} (a : A) : M A := fun g => Done a g [].

Definition bind {A B} (k : A -> M B) (m : M A) : M B := fun g =>
  match m g with
  | Fault => Fault
  | OutOfFuel => OutOfFuel
  | Done a g1 c1 =>
      match k a g1 with
      | Fault => Fault
      | OutOfFuel => OutOfFuel
      | Done b g2 c2 => Done b g2 (c1 ++ c2)
      end
  end.

#[global] Instance M_ret : MRet M := @ret.
#[global] Instance M_bind : MBind M := @bind.

Definition get : M Globals := fun g => Done g g [].
Definition modify (f : Globals -> Globals) : M unit := fun g => Done tt (f g) [].
Definition call (c : Call) : M unit := fun g => Done tt g [c].
Definition fault {A} : M A := fun _ => Fault.
Definition out_of_fuel {A} : M A := fun _ => OutOfFuel.
Definition when (b : bool) (m : M unit) : M unit := if b then m else ret tt.


(** ** Assignments to the global variables *)
Definition with_history v (g : Globals) : Globals :=
  mkGlobals v (sensor g) (menu g) (button g) (encoderCount g).
Definition with_sensor v (g : Globals) : Globals :=
  mkGlobals (history g) v (menu g) (button g) (encoderCount g).
Definition with_menu v (g : Globals) : Globals :=
  mkGlobals (history g) (sensor g) v (button g) (encoderCount g).
Definition with_button v (g : Globals) : Globals :=
  mkGlobals (history g) (sensor g) (menu g) v (encoderCount g).
Definition with_encoderCount v (g : Globals) : Globals :=
  mkGlobals (history g) (sensor g) (menu g) (button g) v.
Definition with_tempHistory v (r : History) : History :=
  mkHistory v (humiHistory r) (presHistory r) (historyIndex r).
Definition with_humiHistory v (r : History) : History :=
  mkHistory (tempHistory r) v (presHistory r) (historyIndex r).
Definition with_presHistory v (r : History) : History :=
  mkHistory (tempHistory r) (humiHistory r) v (historyIndex r).
Definition with_historyIndex v (r : History) : History :=
  mkHistory (tempHistory r) (humiHistory r) (presHistory r) v.
Definition with_currentSensorState v (r : Sensor) : Sensor :=
  mkSensor v (sensorReadingEndTime r) (lastGasReadTime r) (coolingStartTime r) (lastValidGasReading r) (lastGasReadTimestamp r).
Definition with_sensorReadingEndTime v (r : Sensor) : Sensor :=
  mkSensor (currentSensorState r) v (lastGasReadTime r) (coolingStartTime r) (lastValidGasReading r) (lastGasReadTimestamp r).
Definition with_lastGasReadTime v (r : Sensor) : Sensor :=
  mkSensor (currentSensorState r) (sensorReadingEndTime r) v (coolingStartTime r) (lastValidGasReading r) (lastGasReadTimestamp r).
Definition with_coolingStartTime v (r : Sensor) : Sensor :=
  mkSensor (currentSensorState r) (sensorReadingEndTime r) (lastGasReadTime r) v (lastValidGasReading r) (lastGasReadTimestamp r).
Definition with_lastValidGasReading v (r : Sensor) : Sensor :=
  mkSensor (currentSensorState r) (sensorReadingEndTime r) (lastGasReadTime r) (coolingStartTime r) v (lastGasReadTimestamp r).
Definition with_lastGasReadTimestamp v (r : Sensor) : Sensor :=
  mkSensor (currentSensorState r) (sensorReadingEndTime r) (lastGasReadTime r) (coolingStartTime r) (lastValidGasReading r) v.
Definition with_currentPage v (r : Menu) : Menu :=
  mkMenu v (needsRedraw r) (oldEncoderPosition r) (lcdBrightness r) (brightnessEditMode r) (redVal r) (greenVal r) (blueVal r) (currentRgbSelectState r) (rgbEditMode r).
Definition with_needsRedraw v (r : Menu) : Menu :=
  mkMenu (currentPage r) v (oldEncoderPosition r) (lcdBrightness r) (brightnessEditMode r) (redVal r) (greenVal r) (blueVal r) (currentRgbSelectState r) (rgbEditMode r).
Definition with_oldEncoderPosition v (r : Menu) : Menu :=
  mkMenu (currentPage r) (needsRedraw r) v (lcdBrightness r) (brightnessEditMode r) (redVal r) (greenVal r) (blueVal r) (currentRgbSelectState r) (rgbEditMode r).
Definition with_lcdBrightness v (r : Menu) : Menu :=
  mkMenu (currentPage r) (needsRedraw r) (oldEncoderPosition r) v (brightnessEditMode r) (redVal r) (greenVal r) (blueVal r) (currentRgbSelectState r) (rgbEditMode r).
Definition with_brightnessEditMode v (r : Menu) : Menu :=
  mkMenu (currentPage r) (needsRedraw r) (oldEncoderPosition r) (lcdBrightness r) v (redVal r) (greenVal r) (blueVal r) (currentRgbSelectState r) (rgbEditMode r).
Definition with_redVal v (r : Menu) : Menu :=
  mkMenu (currentPage r) (needsRedraw r) (oldEncoderPosition r) (lcdBrightness r) (brightnessEditMode r) v (greenVal r) (blueVal r) (currentRgbSelectState r) (rgbEditMode r).
Definition with_greenVal v (r : Menu) : Menu :=
  mkMenu (currentPage r) (needsRedraw r) (oldEncoderPosition r) (lcdBrightness r) (brightnessEditMode r) (redVal r) v (blueVal r) (currentRgbSelectState r) (rgbEditMode r).
Definition with_blueVal v (r : Menu) : Menu :=
  mkMenu (currentPage r) (needsRedraw r) (oldEncoderPosition r) (lcdBrightness r) (brightnessEditMode r) (redVal r) (greenVal r) v (currentRgbSelectState r) (rgbEditMode r).
Definition with_currentRgbSelectState v (r : Menu) : Menu :=
  mkMenu (currentPage r) (needsRedraw r) (oldEncoderPosition r) (lcdBrightness r) (brightnessEditMode r) (redVal r) (greenVal r) (blueVal r) v (rgbEditMode r).
Definition with_rgbEditMode v (r : Menu) : Menu :=
  mkMenu (currentPage r) (needsRedraw r) (oldEncoderPosition r) (lcdBrightness r) (brightnessEditMode r) (redVal r) (greenVal r) (blueVal r) (currentRgbSelectState r) v.
Definition with_buttonState v (r : Button) : Button :=
  mkButton v (lastButtonState r) (lastDebounceTime r).
Definition with_lastButtonState v (r : Button) : Button :=
  mkButton (buttonState r) v (lastDebounceTime r).
Definition with_lastDebounceTime v (r : Button) : Button :=
  mkButton (buttonState r) (lastButtonState r) v.
Definition set_tempHistory v : M unit :=
  modify (fun g => with_history (with_tempHistory v (history g)) g).
Definition set_humiHistory v : M unit :=
  modify (fun g => with_history (with_humiHistory v (history g)) g).
Definition set_presHistory v : M unit :=
  modify (fun g => with_history (with_presHistory v (history g)) g).
Definition set_historyIndex v : M unit :=
  modify (fun g => with_history (with_historyIndex v (history g)) g).
Definition set_currentSensorState v : M unit :=
  modify (fun g => with_sensor (with_currentSensorState v (sensor g)) g).
Definition set_sensorReadingEndTime v : M unit :=
  modify (fun g => with_sensor (with_sensorReadingEndTime v (sensor g)) g).
Definition set_lastGasReadTime v : M unit :=
  modify (fun g => with_sensor (with_lastGasReadTime v (sensor g)) g).
Definition set_coolingStartTime v : M unit :=
  modify (fun g => with_sensor (with_coolingStartTime v (sensor g)) g).
Definition set_lastValidGasReading v : M unit :=
  modify (fun g => with_sensor (with_lastValidGasReading v (sensor g)) g).
Definition set_lastGasReadTimestamp v : M unit :=
  modify (fun g => with_sensor (with_lastGasReadTimestamp v (sensor g)) g).
Definition set_currentPage v : M unit :=
  modify (fun g => with_menu (with_currentPage v (menu g)) g).
Definition set_needsRedraw v : M unit :=
  modify (fun g => with_menu (with_needsRedraw v (menu g)) g).
Definition set_oldEncoderPosition v : M unit :=
  modify (fun g => with_menu (with_oldEncoderPosition v (menu g)) g).
Definition set_lcdBrightness v : M unit :=
  modify (fun g => with_menu (with_lcdBrightness v (menu g)) g).
Definition set_brightnessEditMode v : M unit :=
  modify (fun g => with_menu (with_brightnessEditMode v (menu g)) g).
Definition set_redVal v : M unit :=
  modify (fun g => with_menu (with_redVal v (menu g)) g).
Definition set_greenVal v : M unit :=
  modify (fun g => with_menu (with_greenVal v (menu g)) g).
Definition set_blueVal v : M unit :=
  modify (fun g => with_menu (with_blueVal v (menu g)) g).
Definition set_currentRgbSelectState v : M unit :=
  modify (fun g => with_menu (with_currentRgbSelectState v (menu g)) g).
Definition set_rgbEditMode v : M unit :=
  modify (fun g => with_menu (with_rgbEditMode v (menu g)) g).
Definition set_buttonState v : M unit :=
  modify (fun g => with_button (with_buttonState v (button g)) g).
Definition set_lastButtonState v : M unit :=
  modify (fun g => with_button (with_lastButtonState v (button g)) g).
Definition set_lastDebounceTime v : M unit :=
  modify (fun g => with_button (with_lastDebounceTime v (button g)) g).
Definition set_encoderCount v : M unit := modify (with_encoderCount v).

(** ** Array accesses

    The three history arrays are [ps_malloc]ed with [HISTORY_SIZE] elements;
    an access outside the allocated block is a [Fault]. *)

Definition in_bounds {A} (arr : list A) (i : Z) : bool :=
  (0 <=? i) && (i <? Z.of_nat (length arr)).

Definition load {A} (arr : list A) (i : Z) : M A :=
  if in_bounds arr i then
    match arr !! Z.to_nat i with
    | Some v => mret v
    | None => fault
    end
  else fault.

Definition store (arr : list SensorReading) (i : Z) (v : SensorReading)
    (assign : list SensorReading -> M unit) : M unit :=
  if in_bounds arr i then assign (<[Z.to_nat i := v]> arr) else fault.

(** ** Sensor logic: [handleSensorReadings]

    [now] is [millis()], [begin_result] is what [bme.beginReading()] returns
    if it is called, [end_result] is what [bme.endReading()] delivers if it
    is called ([None] when it returns false, the sensor fields when it
    returns true), [currentTime] is [time(nullptr)]. *)

(** The body of [if (bme.endReading()) { ... }]: the three history writes,
    the gas branch, the advance of [historyIndex]. *)
Definition recordReading (now currentTime : Z) (bme : BmeData) : M unit :=
  g ← get;
  store (tempHistory (history g)) (historyIndex (history g))
    (mkReading currentTime (temperature bme)) set_tempHistory;;
  store (humiHistory (history g)) (historyIndex (history g))
    (mkReading currentTime (humidity bme)) set_humiHistory;;
  store (presHistory (history g)) (historyIndex (history g))
    (mkReading currentTime (div_100f (pressure bme))) set_presHistory;;
  when (SensorState_eqb (currentSensorState (sensor g)) GAS_MEASUREMENT)
    (when (0 <? gas_resistance bme)
       (set_lastValidGasReading (div_1000f (gas_resistance bme));;
        set_lastGasReadTimestamp currentTime);;
     call (bme_setGasHeater 0 0);;
     set_currentSensorState COOLING_DOWN;;
     set_coolingStartTime now;;
     set_lastGasReadTime now);;
  set_historyIndex (Z.rem (historyIndex (history g) + 1) HISTORY_SIZE);;
  set_needsRedraw true.

Definition handleSensorReadings (now begin_result : Z)
    (end_result : option BmeData) (currentTime : Z) : M unit :=
  (* State transitions *)
  g ← get;
  (if SensorState_eqb (currentSensorState (sensor g)) COOLING_DOWN
      && (COOL_DOWN_PERIOD <? usub now (coolingStartTime (sensor g))) then
     set_currentSensorState NORMAL_READING
   else if SensorState_eqb (currentSensorState (sensor g)) NORMAL_READING
      && (GAS_READ_INTERVAL <? usub now (lastGasReadTime (sensor g))) then
     call (bme_setGasHeater 320 150);;
     set_currentSensorState GAS_MEASUREMENT;;
     set_sensorReadingEndTime 0
   else mret tt);;
  (* Non-blocking read logic *)
  g ← get;
  if (sensorReadingEndTime (sensor g) =? 0)
     && negb (SensorState_eqb (currentSensorState (sensor g)) COOLING_DOWN) then
    call bme_beginReading;;
    set_sensorReadingEndTime begin_result
  else if (0 <? sensorReadingEndTime (sensor g))
     && (sensorReadingEndTime (sensor g) <=? now) then
    call bme_endReading;;
    match end_result with
    | Some bme => recordReading now currentTime bme
    | None => mret tt
    end;;
    set_sensorReadingEndTime 0
  else mret tt.

(** What one pass of [loop()] feeds to [handleSensorReadings]. *)
Record Tick := mkTick {
  tick_now : Z;
  tick_begin : Z;
  tick_end : option BmeData;
  tick_time : Z }.

Definition tick (t : Tick) : M unit :=
  handleSensorReadings (tick_now t) (tick_begin t) (tick_end t) (tick_time t).

Fixpoint ticks (ts : list Tick) : M unit :=
  match ts with
  | [] => mret tt
  | t :: ts' => tick t;; ticks ts'
  end.

(** One finished reading as [recordReading] receives it. *)
Record Sample := mkSample { sample_now : Z; sample_time : Z; sample_bme : BmeData }.

Fixpoint recordReadings (samples : list Sample) : M unit :=
  match samples with
  | [] => mret tt
  | sm :: samples' =>
      recordReading (sample_now sm) (sample_time sm) (sample_bme sm);;
      recordReadings samples'
  end.

(** The globals as [setup()] leaves them: the initialisers of the sketch, the
    settings [loadSettings()] read, the arrays filled with [{now, 0}]. *)
Definition setup_globals (now brightness r gr b : Z) : Globals :=
  let fill := replicate (Z.to_nat HISTORY_SIZE) (mkReading now float_0) in
  mkGlobals
    (mkHistory fill fill fill 0)
    (mkSensor GAS_MEASUREMENT 0 0 0 float_0 0)
    (mkMenu 0 true 0 brightness false r gr b SELECT_R false)
    (mkButton HIGH HIGH 0)
    0.

(** ** History reads *)

(** [int currentIndex = (historyIndex == 0) ? HISTORY_SIZE - 1 : historyIndex - 1;]
    of [handleLatestData], [drawMainPage] and [drawPlotPage]. *)
Definition currentIndex (g : Globals) : Z :=
  if historyIndex (history g) =? 0 then HISTORY_SIZE - 1
  else historyIndex (history g) - 1.

(** [(historyIndex - 1 - i + HISTORY_SIZE) % HISTORY_SIZE] of [drawPlotPage]:
    the slot [i] readings before the newest one. *)
Definition plotIndex (g : Globals) (i : Z) : Z :=
  Z.rem (historyIndex (history g) - 1 - i + HISTORY_SIZE) HISTORY_SIZE.

Definition handleLatestData : M unit :=
  g ← get;
  t ← load (tempHistory (history g)) (currentIndex g);
  h ← load (humiHistory (history g)) (currentIndex g);
  p ← load (presHistory (history g)) (currentIndex g);
  call (server_send 200 "application/json"
          (LatestJson (value t) (value h) (value p)
             (lastValidGasReading (sensor g)) (lastGasReadTimestamp (sensor g)))).

(** ** Web server handlers *)

(** [server.hasArg(name)] and [server.arg(name)] over the arguments of the
    request being served. *)
Definition hasArg (args : gmap string string) (name : string) : bool :=
  bool_decide (is_Some (args !! name)).
Definition arg (args : gmap string string) (name : string) : string :=
  default "" (args !! name).

(** [while (start < 0) { start += HISTORY_SIZE; }] *)
Fixpoint while_negative (fuel : nat) (start : Z) : option Z :=
  if start <? 0 then
    match fuel with
    | O => None
    | S fuel' => while_negative fuel' (start + HISTORY_SIZE)
    end
  else Some start.

(** The clamped [offset] of [handleData]. *)
Definition requested_offset (args : gmap string string) : Z :=
  let offset := if hasArg args "offset" then toInt (arg args "offset") else 0 in
  constrain offset 0 (HISTORY_SIZE - 1).

(** [start] as [handleData] has it when it enters its [for] loop. *)
Definition chunk_start (fuel : nat) (g : Globals) (offset : Z) : option Z :=
  let start := historyIndex (history g) - CHUNK_SIZE - offset in
  start ← while_negative fuel start;
  Some (Z.rem start HISTORY_SIZE).

(** [int index = (start + i) % HISTORY_SIZE;] *)
Definition chunk_index (start i : Z) : Z := Z.rem (start + i) HISTORY_SIZE.

Definition json_point (r : SensorReading) : Point :=
  mkPoint (timestamp r * 1000) (value r).

Fixpoint for_each {A B} (body : A -> M B) (l : list A) : M (list B) :=
  match l with
  | [] => mret []
  | i :: l' => b ← body i; bs ← for_each body l'; mret (b :: bs)
  end.

(** The body of the [for] loop of [handleData]: the [{x, y}] objects of the
    three channels for point [i]. *)
Definition chunk_point (start i : Z) : M (Point * Point * Point) :=
  let index := chunk_index start i in
  g ← get;
  t ← load (tempHistory (history g)) index;
  h ← load (humiHistory (history g)) index;
  p ← load (presHistory (history g)) index;
  mret (json_point t, json_point h, json_point p).

Definition handleData (fuel : nat) (args : gmap string string) : M unit :=
  let offset := requested_offset args in
  g ← get;
  match chunk_start fuel g offset with
  | None => out_of_fuel
  | Some start =>
      points ← for_each (chunk_point start) (seqZ 0 CHUNK_SIZE);
      call (server_send 200 "application/json"
              (DataJson ((fun pt => pt.1.1) <$> points)
                        ((fun pt => pt.1.2) <$> points)
                        ((fun pt => pt.2) <$> points)))
  end.

Definition saveBrightness : M unit :=
  g ← get;
  call (preferences_begin "weather-stn" false);;
  call (preferences_putInt "brightness" (lcdBrightness (menu g)));;
  call preferences_end.

Definition saveRgbColor : M unit :=
  g ← get;
  call (preferences_begin "weather-stn" false);;
  call (preferences_putUChar "led_r" (redVal (menu g)));;
  call (preferences_putUChar "led_g" (greenVal (menu g)));;
  call (preferences_putUChar "led_b" (blueVal (menu g)));;
  call preferences_end.

(** [pixels.setPixelColor(0, pixels.Color(redVal, greenVal, blueVal)); pixels.show();] *)
Definition showRgb : M unit :=
  g ← get;
  call (pixels_setPixelColor 0 (redVal (menu g)) (greenVal (menu g)) (blueVal (menu g)));;
  call pixels_show.

Definition handleRgbSet (args : gmap string string) : M unit :=
  if hasArg args "r" && hasArg args "g" && hasArg args "b" then
    set_redVal (to_uint8 (toInt (arg args "r")));;
    set_greenVal (to_uint8 (toInt (arg args "g")));;
    set_blueVal (to_uint8 (toInt (arg args "b")));;
    showRgb;;
    g ← get;
    set_needsRedraw (currentPage (menu g) =? 6);;
    call (server_send 200 "text/plain" (Text "OK"))
  else
    call (server_send 400 "text/plain" (Text "Bad Request")).

Definition handleRgbSave : M unit :=
  saveRgbColor;;
  call (server_send 200 "text/plain" (Text "Saved")).

(** ** Remote console *)

Definition char_code (c : ascii) : Z := Z.of_nat (nat_of_ascii c).

(** The [WStype_TEXT] case reads [payload[0]] when [length > 0]. *)
Definition webSocketEvent (type : WStype_t) (payload : string) : M unit :=
  match type with
  | WStype_TEXT =>
      match payload with
      | String input _ =>
          when ((char_code "0" <=? char_code input)
                && (char_code input <? char_code "0" + NUM_PAGES))
            (let newPage := char_code input - char_code "0" in
             g ← get;
             when (negb (newPage =? currentPage (menu g)))
               (set_currentPage newPage;;
                g ← get;
                set_encoderCount (currentPage (menu g) * 4);;
                set_oldEncoderPosition (currentPage (menu g));;
                set_needsRedraw true))
      | EmptyString => mret tt
      end
  | _ => mret tt
  end.

(** [rx] is what the serial receive buffer holds when the handler runs; the
    handler reads the first byte and drains the rest. *)
Definition handleSerialInput (rx : string) : M unit :=
  match rx with
  | String input _ =>
      when ((char_code "0" <=? char_code input)
            && (char_code input <? char_code "0" + NUM_PAGES))
        (let newPage := char_code input - char_code "0" in
         g ← get;
         when (negb (newPage =? currentPage (menu g)))
           (set_currentPage newPage;;
            g ← get;
            set_encoderCount (currentPage (menu g) * 4);;
            set_oldEncoderPosition (currentPage (menu g));;
            set_needsRedraw true))
  | EmptyString => mret tt
  end.

(** ** Local navigation: [handleEncoder]

    [reading] is [digitalRead(ROTARY_ENCODER_BUTTON_PIN)]; [millis1] and
    [millis2] are the two [millis()] calls of the debounce code. *)

(** The debounce prefix of [handleEncoder]; it returns [buttonClicked]. *)
Definition debounce (reading millis1 millis2 : Z) : M bool :=
  g ← get;
  when (negb (reading =? lastButtonState (button g)))
    (set_lastDebounceTime millis1);;
  g ← get;
  buttonClicked ←
    (if debounceDelay <? usub millis2 (lastDebounceTime (button g)) then
       if negb (reading =? buttonState (button g)) then
         set_buttonState reading;;
         mret (reading =? LOW)
       else mret false
     else mret false);
  set_lastButtonState reading;;
  mret buttonClicked.

(** The rest of [handleEncoder], from [long newEncoderPosition = ...] on. *)
Definition navigate (buttonClicked : bool) : M unit :=
  g ← get;
  let newEncoderPosition := to_int32 (Z.quot (encoderCount g) 4) in
  let encoderRotated := negb (newEncoderPosition =? oldEncoderPosition (menu g)) in
  if negb buttonClicked && negb encoderRotated then mret tt
  else
    let previousPage := currentPage (menu g) in
    when (encoderRotated
          && negb (brightnessEditMode (menu g) && (currentPage (menu g) =? 5))
          && negb (rgbEditMode (menu g) && (currentPage (menu g) =? 6)))
      (set_currentPage
         (constrain
            (to_int32 (currentPage (menu g)
                       + (newEncoderPosition - oldEncoderPosition (menu g))))
            0 (NUM_PAGES - 1)));;
    g ← get;
    (if currentPage (menu g) =? 5 then
       when buttonClicked
         (set_brightnessEditMode (negb (brightnessEditMode (menu g)));;
          g ← get;
          if brightnessEditMode (menu g) then
            set_encoderCount (to_int32 (lcdBrightness (menu g) * 4))
          else saveBrightness);;
       g ← get;
       when (encoderRotated && brightnessEditMode (menu g))
         (set_lcdBrightness (constrain newEncoderPosition 0 255);;
          g ← get;
          call (ledc_set_duty (to_uint32 (256 - lcdBrightness (menu g))));;
          call ledc_update_duty)
     else if currentPage (menu g) =? 6 then
       when buttonClicked
         (if negb (rgbEditMode (menu g)) then
            set_rgbEditMode true;;
            set_currentRgbSelectState SELECT_R;;
            set_encoderCount (redVal (menu g) * 4)
          else
            match currentRgbSelectState (menu g) with
            | SELECT_R =>
                set_currentRgbSelectState SELECT_G;;
                set_encoderCount (greenVal (menu g) * 4)
            | SELECT_G =>
                set_currentRgbSelectState SELECT_B;;
                set_encoderCount (blueVal (menu g) * 4)
            | SELECT_B =>
                set_rgbEditMode false;;
                saveRgbColor
            end);;
       g ← get;
       when (encoderRotated && rgbEditMode (menu g))
         (let val := constrain newEncoderPosition 0 255 in
          match currentRgbSelectState (menu g) with
          | SELECT_R => set_redVal (to_uint8 val)
          | SELECT_G => set_greenVal (to_uint8 val)
          | SELECT_B => set_blueVal (to_uint8 val)
          end;;
          showRgb)
     else mret tt);;
    g ← get;
    when (negb (currentPage (menu g) =? previousPage))
      (set_brightnessEditMode false;;
       set_rgbEditMode false);;
    set_oldEncoderPosition newEncoderPosition;;
    set_needsRedraw true.

Definition handleEncoder (reading millis1 millis2 : Z) : M unit :=
  buttonClicked ← debounce reading millis1 millis2;
  navigate buttonClicked.

(** [buttonClicked] as one poll computes it. *)
Definition clicked (g : Globals) (reading millis1 millis2 : Z) : bool :=
  match debounce reading millis1 millis2 g with
  | Done b _ _ => b
  | _ => false
  end.

(** ** Predicates used by the properties *)

(** The arrays have [HISTORY_SIZE] slots and the write cursor is inside. *)
Definition history_ok (h : History) : Prop :=
  Z.of_nat (length (tempHistory h)) = HISTORY_SIZE /\
  Z.of_nat (length (humiHistory h)) = HISTORY_SIZE /\
  Z.of_nat (length (presHistory h)) = HISTORY_SIZE /\
  0 <= historyIndex h < HISTORY_SIZE.

(** No read is in flight while the sensor cools down. *)
Definition sensor_ok (sn : Sensor) : Prop :=
  currentSensorState sn = COOLING_DOWN -> sensorReadingEndTime sn = 0.

(** Closed form of a successful [recordReading]: the globals it leaves and
    the driver calls it makes ([recordReading_run] below). *)
Definition recorded_sensor (now currentTime : Z) (bme : BmeData) (sn : Sensor) : Sensor :=
  match currentSensorState sn with
  | GAS_MEASUREMENT =>
      mkSensor COOLING_DOWN (sensorReadingEndTime sn) now now
        (if 0 <? gas_resistance bme then div_1000f (gas_resistance bme)
         else lastValidGasReading sn)
        (if 0 <? gas_resistance bme then currentTime else lastGasReadTimestamp sn)
  | _ => sn
  end.

Definition recorded (now currentTime : Z) (bme : BmeData) (g : Globals) : Globals :=
  let i := Z.to_nat (historyIndex (history g)) in
  mkGlobals
    (mkHistory
       (<[i := mkReading currentTime (temperature bme)]> (tempHistory (history g)))
       (<[i := mkReading currentTime (humidity bme)]> (humiHistory (history g)))
       (<[i := mkReading currentTime (div_100f (pressure bme))]> (presHistory (history g)))
       (Z.rem (historyIndex (history g) + 1) HISTORY_SIZE))
    (recorded_sensor now currentTime bme (sensor g))
    (with_needsRedraw true (menu g))
    (button g)
    (encoderCount g).

Definition recorded_calls (g : Globals) : list Call :=
  match currentSensorState (sensor g) with
  | GAS_MEASUREMENT => [bme_setGasHeater 0 0]
  | _ => []
  end.

(** The three measured channels, to state a property once for all of them. *)
Inductive Channel := Temp | Humi | Pres.

Definition channel_array (ch : Channel) (h : History) : list SensorReading :=
  match ch with
  | Temp => tempHistory h
  | Humi => humiHistory h
  | Pres => presHistory h
  end.

(** What [recordReading] stores for a channel. *)
Definition channel_value (ch : Channel) (bme : BmeData) : float :=
  match ch with
  | Temp => temperature bme
  | Humi => humidity bme
  | Pres => div_100f (pressure bme)
  end.

Definition sample_reading (ch : Channel) (sm : Sample) : SensorReading :=
  mkReading (sample_time sm) (channel_value ch (sample_bme sm)).

(** The three [{x, y}] objects slot [p] yields, when [p] is inside the arrays. *)
Definition slot_point (g : Globals) (p : Z) : option (Point * Point * Point) :=
  t ← tempHistory (history g) !! Z.to_nat p;
  h ← humiHistory (history g) !! Z.to_nat p;
  pr ← presHistory (history g) !! Z.to_nat p;
  Some (json_point t, json_point h, json_point pr).

(** The indices [handleData] reads, in the order it reads them. *)
Definition chunk_indices (start : Z) : list Z :=
  chunk_index start <$> seqZ 0 CHUNK_SIZE.

(** A walk over slots steps across the write cursor when it goes from the
    newest slot straight to the slot [historyIndex] points at, which holds
    the oldest reading. *)
Definition crosses_head (g : Globals) (indices : list Z) : Prop :=
  exists i : nat,
    indices !! i = Some (currentIndex g) /\
    indices !! S i = Some (historyIndex (history g)).

(** The calls that write to the key-value store. *)
Definition is_persist (c : Call) : bool :=
  match c with
  | preferences_putInt _ _ | preferences_putUChar _ _ => true
  | _ => false
  end.

(** The temperature points of the response a handler has sent. *)
Definition sent_temp (o : Outcome unit) : list Point :=
  match o with
  | Done _ _ [server_send _ _ (DataJson temp _ _)] => temp
  | _ => []
  end.

(** ** Settings in the [Preferences] store

    The namespace "weather-stn" is a map from key to stored integer:
    [putInt] and [putUChar] write under their key, [getInt] and [getUChar]
    return the stored value or the default given with the call. *)

Definition loadSettings (nvs : gmap string Z) : M unit :=
  call (preferences_begin "weather-stn" true);;
  set_lcdBrightness (to_int32 (default 128 (nvs !! "brightness")));;
  set_redVal (to_uint8 (default 10 (nvs !! "led_r")));;
  set_greenVal (to_uint8 (default 0 (nvs !! "led_g")));;
  set_blueVal (to_uint8 (default 10 (nvs !! "led_b")));;
  call preferences_end.

(** The store after one driver call, and after a trace of them. *)
Definition nvs_call (nvs : gmap string Z) (c : Call) : gmap string Z :=
  match c with
  | preferences_putInt key v | preferences_putUChar key v => <[key := v]> nvs
  | _ => nvs
  end.

Definition nvs_after (calls : list Call) (nvs : gmap string Z) : gmap string Z :=
  foldl nvs_call nvs calls.

(** The driver calls a command makes from [g]. *)
Definition calls_of {A} (m : M A) (g : Globals) : list Call :=
  match m g with
  | Done _ _ calls => calls
  | _ => []
  end.

(** ** What the LCD pages read

    The drawing itself is left out; the array reads of the page functions
    are kept, in the order of the source, and what they read is returned. *)

(** [drawMainPage]: the newest slot of each channel. *)
Definition drawMainPage_reads : M (SensorReading * SensorReading * SensorReading) :=
  g ← get;
  t ← load (tempHistory (history g)) (currentIndex g);
  h ← load (humiHistory (history g)) (currentIndex g);
  p ← load (presHistory (history g)) (currentIndex g);
  mret (t, h, p).

(** [drawPlotPage]: the newest slot for the title, the 82 slots scanned for
    the minimum and maximum ([i = 0 .. 81]), and the 82 slots plotted at
    columns [x = 1 .. 82]. *)
Definition drawPlotPage_reads (data : list SensorReading)
    : M (SensorReading * list SensorReading * list SensorReading) :=
  g ← get;
  newest ← load data (currentIndex g);
  scanned ← for_each (fun i => load data (plotIndex g i)) (seqZ 0 82);
  plotted ← for_each (fun x => load data (plotIndex g (82 - x))) (seqZ 1 82);
  mret (newest, scanned, plotted).

(** What a redraw shows: the page number and the readings it used. *)
Inductive Drawn :=
| MainPage (t h p : SensorReading)
| PlotPage (page : Z) (newest : SensorReading) (plotted : list SensorReading)
| OtherPage (page : Z).

(** The [if (needsRedraw) { ... }] block of [loop()]. *)
Definition redraw : M (option Drawn) :=
  g ← get;
  if needsRedraw (menu g) then
    shown ←
      (if currentPage (menu g) =? 0 then
         '(t, h, p) ← drawMainPage_reads; mret (MainPage t h p)
       else if currentPage (menu g) =? 1 then
         '(newest, _, plotted) ← drawPlotPage_reads (tempHistory (history g));
         mret (PlotPage 1 newest plotted)
       else if currentPage (menu g) =? 2 then
         '(newest, _, plotted) ← drawPlotPage_reads (humiHistory (history g));
         mret (PlotPage 2 newest plotted)
       else if currentPage (menu g) =? 3 then
         '(newest, _, plotted) ← drawPlotPage_reads (presHistory (history g));
         mret (PlotPage 3 newest plotted)
       else mret (OtherPage (currentPage (menu g))));
    set_needsRedraw false;;
    mret (Some shown)
  else mret None.

(** ** One pass of [loop()]

    [ArduinoOTA.handle()] and the periodic [syncTimeWithNTP()] touch none of
    the globals above and are left out.  The routes are those registered in
    [setup()] with [server.on]; the two HTML pages are left out. *)
Inductive Request :=
| GetData (fuel : nat) (args : gmap string string)
| GetLatest
| GetRgbSet (args : gmap string string)
| GetRgbSave.

Definition serve (r : Request) : M unit :=
  match r with
  | GetData fuel args => handleData fuel args
  | GetLatest => handleLatestData
  | GetRgbSet args => handleRgbSet args
  | GetRgbSave => handleRgbSave
  end.

(** What the outside world hands to one pass: the request
    [server.handleClient()] serves, the events [webSocket.loop()] delivers,
    the inputs of the three handlers, and the counts the encoder has
    registered since the sketch last read or set its count, which is what
    [getCount()] in [handleEncoder] finds added (the 64-bit count is taken
    not to overflow). *)
Record Inputs := mkInputs {
  in_counts : Z;
  in_request : option Request;
  in_ws : list (WStype_t * string);
  in_tick : Tick;
  in_reading : Z;
  in_millis1 : Z;
  in_millis2 : Z;
  in_rx : string }.

Fixpoint webSocket_loop (events : list (WStype_t * string)) : M unit :=
  match events with
  | [] => mret tt
  | (type, payload) :: events' =>
      webSocketEvent type payload;; webSocket_loop events'
  end.

Definition loop (i : Inputs) : M (option Drawn) :=
  match in_request i with
  | Some r => serve r
  | None => mret tt
  end;;
  webSocket_loop (in_ws i);;
  tick (in_tick i);;
  g ← get;
  set_encoderCount (encoderCount g + in_counts i);;
  handleEncoder (in_reading i) (in_millis1 i) (in_millis2 i);;
  handleSerialInput (in_rx i);;
  redraw.

Fixpoint loops (inputs : list Inputs) : M unit :=
  match inputs with
  | [] => mret tt
  | i :: inputs' => loop i;; loops inputs'
  end.

(** Page, brightness and colour within the ranges of their types. *)
Definition menu_ok (m : Menu) : Prop :=
  0 <= currentPage m <= NUM_PAGES - 1 /\
  0 <= lcdBrightness m <= 255 /\
  0 <= redVal m <= 255 /\ 0 <= greenVal m <= 255 /\ 0 <= blueVal m <= 255.

(** The knob is at rest: a poll would not see a rotation. *)
Definition at_rest (g : Globals) : Prop :=
  to_int32 (Z.quot (encoderCount g) 4) = oldEncoderPosition (menu g).

(** The selected value after a registered turn in an edit mode. *)
Definition turned (g : Globals) : Menu :=
  let val := constrain (to_int32 (Z.quot (encoderCount g) 4)) 0 255 in
  with_needsRedraw true
    (with_oldEncoderPosition (to_int32 (Z.quot (encoderCount g) 4))
       (if brightnessEditMode (menu g) && (currentPage (menu g) =? 5) then
          with_lcdBrightness val (menu g)
        else
          match currentRgbSelectState (menu g) with
          | SELECT_R => with_redVal val (menu g)
          | SELECT_G => with_greenVal val (menu g)
          | SELECT_B => with_blueVal val (menu g)
          end)).

(** The value a turn of the knob edits. *)
Definition selected_value (m : Menu) : Z :=
  if brightnessEditMode m && (currentPage m =? 5) then lcdBrightness m
  else
    match currentRgbSelectState m with
    | SELECT_R => redVal m
    | SELECT_G => greenVal m
    | SELECT_B => blueVal m
    end.

(** Every value in the store is a byte. *)
Definition nvs_ok (nvs : gmap string Z) : Prop :=
  forall key v, nvs !! key = Some v -> 0 <= v <= 255.

(** A driver call with its arguments in range: colour components and stored
    bytes in [0, 255], the backlight duty [256 - lcdBrightness] in [1, 256]. *)
Definition call_in_range (c : Call) : Prop :=
  match c with
  | pixels_setPixelColor _ r g b => 0 <= r <= 255 /\ 0 <= g <= 255 /\ 0 <= b <= 255
  | ledc_set_duty duty => 1 <= duty <= 256
  | preferences_putInt _ v | preferences_putUChar _ v => 0 <= v <= 255
  | _ => True
  end.

Definition globals_ok (g : Globals) : Prop :=
  history_ok (history g) /\ sensor_ok (sensor g) /\ menu_ok (menu g).

(** [m] runs to completion from well-formed globals and leaves them well
    formed, with the readings and the sensor state untouched and a pending
    redraw still pending; its driver calls are in range. *)
Definition safe {A} (m : M A) : Prop :=
  forall g, globals_ok g ->
    exists a g' calls,
      m g = Done a g' calls /\ globals_ok g' /\ Forall call_in_range calls /\
      history g' = history g /\ sensor g' = sensor g /\
      (needsRedraw (menu g) = true -> needsRedraw (menu g') = true).

(** The [while] of [handleData] is given the two rounds it can need. *)
Definition inputs_ok (i : Inputs) : Prop :=
  match in_request i with
  | Some (GetData fuel _) => (2 <= fuel)%nat
  | _ => True
  end.

End Firmware.

Arguments Fault {cfg A}.
Arguments OutOfFuel {cfg A}.
Arguments Done {cfg A} a g calls.
Arguments recordReading : simpl never.
Arguments recorded : simpl never.

(** ** Concrete configurations for evaluation

    [atol] stands for [String::toInt]: leading white space, an optional sign,
    then decimal digits up to the first other character, saturating at the
    range of [long]. *)

Definition is_space (c : ascii) : bool :=
  let n := nat_of_ascii c in
  (n =? 32)%nat || ((9 <=? n)%nat && (n <=? 13)%nat).

Definition is_digit (c : ascii) : bool :=
  let n := nat_of_ascii c in (48 <=? n)%nat && (n <=? 57)%nat.

Fixpoint skip_spaces (s : string) : string :=
  match s with
  | String c r => if is_space c then skip_spaces r else s
  | EmptyString => s
  end.

Fixpoint digits (acc : Z) (s : string) : Z :=
  match s with
  | String c r => if is_digit c then digits (acc * 10 + (char_code c - 48)) r else acc
  | EmptyString => acc
  end.

Definition atol (s : string) : Z :=
  let v :=
    match skip_spaces s with
    | String "-" r => - digits 0 r
    | String "+" r => digits 0 r
    | r => digits 0 r
    end in
  constrain v (- 2 ^ 31) (2 ^ 31 - 1).

(** Single-precision values are replaced by exact rationals. *)
Definition sketch (capacity : Z) : Config := {|
  HISTORY_SIZE := capacity;
  float := Q;
  float_0 := 0%Q;
  div_100f := fun z => Qmake z 100;
  div_1000f := fun z => Qmake z 1000 |}.

Definition newlib : ArduinoCore := {| toInt := atol |}.

(** The capacity-5 scenario: seven readings with temperatures 10 to 16,
    recorded from the start-up state. *)
Definition scenario_samples : list (Sample (cfg := sketch 5)) :=
  (fun t => mkSample t t (mkBme (cfg := sketch 5) (inject_Z t) 0%Q 0 0))
    <$> [10; 11; 12; 13; 14; 15; 16].

Definition scenario_start : Globals (cfg := sketch 5) := setup_globals 0 128 10 0 10.

Definition scenario_end : Globals (cfg := sketch 5) :=
  match recordReadings scenario_samples scenario_start with
  | Done _ g _ => g
  | _ => scenario_start
  end.

(** The sketch at its own capacity. *)
Definition firmware : Config := sketch 2000.

(** The globals as [setup()] leaves them with the default
    settings, and after the first pass of [loop()] has begun a read that the
    sensor promised for [millis() = 150]. *)
Definition boot : Globals (cfg := firmware) := setup_globals 0 128 10 0 10.

Definition reading_in_flight : Globals (cfg := firmware) :=
  with_sensor (with_sensorReadingEndTime 150 (sensor boot)) boot.

Definition bme_valid : BmeData (cfg := firmware) :=
  mkBme (cfg := firmware) (43 # 2)%Q 40%Q 101325 52000.

Definition bme_invalid : BmeData (cfg := firmware) :=
  mkBme (cfg := firmware) (43 # 2)%Q 40%Q 101325 0.

(** The state a handler leaves, or [g] itself when it faults. *)
Definition after {cfg : Config} (m : M unit) (g : Globals) : Globals :=
  match m g with
  | Done _ g' _ => g'
  | _ => g
  end.

(** The first gas reading is in at [millis() = 200]; the cool-down is found
    over at 300300. *)
Definition cooling : Globals (cfg := firmware) :=
  after (handleSensorReadings 200 0 (Some bme_valid) 1700000000) reading_in_flight.

Definition normal : Globals (cfg := firmware) :=
  after (handleSensorReadings 300300 300450 None 1700000300) cooling.

(** The arrays after 2000 readings taken at times 1 to 2000: slot [i] holds
    the reading of time [i + 1] and the write cursor is back at 0. *)
Definition full_samples : list (Sample (cfg := firmware)) :=
  (fun t => mkSample t t (mkBme (cfg := firmware) (inject_Z t) 0%Q 0 0))
    <$> seqZ 1 2000.

Definition full_globals : Globals (cfg := firmware) :=
  after (recordReadings full_samples) boot.

Definition args_offset_400 : gmap string string := {["offset" := "400"]}.
Definition args_offset_1999 : gmap string string := {["offset" := "1999"]}.

(** [GET /rgb/set?r=300&g=0&b=-1] and a request without [b]. *)
Definition args_rgb_300 : gmap string string :=
  <["r" := "300"]> (<["g" := "0"]> {["b" := "-1"]}).
Definition args_rgb_no_b : gmap string string :=
  <["r" := "5"]> {["g" := "6"]}.

(** Brightness edit mode on the settings page, the encoder rebased to the
    brightness. *)
Definition editing_brightness : Globals (cfg := firmware) :=
  with_encoderCount 512
    (with_menu
       (with_oldEncoderPosition 128
          (with_brightnessEditMode true (with_currentPage 5 (menu boot)))) boot).

(** The remote console selects page 4 while brightness is being edited; then
    the knob is turned one detent clockwise. *)
Definition stale_edit : Globals (cfg := firmware) :=
  after (handleSerialInput "4") editing_brightness.

Definition knob_turned : Globals (cfg := firmware) :=
  with_encoderCount 20 stale_edit.

(** The cool-down began 296 ms before [millis()] wraps to 0. *)
Definition cooling_near_wrap : Globals (cfg := firmware) :=
  with_sensor (with_coolingStartTime 4294967000 (sensor cooling)) cooling.

(** The raw button reading has been LOW since [millis() = 1000]; the
    debounced state is still HIGH. *)
Definition button_down : Button := mkButton HIGH LOW 1000.

(** The knob is turned one detent and the button goes down, after the
    console has selected page 4 during a brightness edit. *)
Definition stale_edit_pressed : Globals (cfg := firmware) :=
  with_button button_down knob_turned.

(** Two runs from [normal], whose last gas read finished at [millis() = 200].
    Both arm the heater at 3600201 and begin a read due at 3600351.  In the
    first the read finishes when due.  In the second [endReading] fails once,
    the read is begun again at 3600352 and finishes at 3600502.  Both are
    polled at 4000000, after the cool-down, and then at 7200352. *)
Definition prompt_read : list (Tick (cfg := firmware)) :=
  [mkTick (cfg := firmware) 3600201 3600351 None 1700003600;
   mkTick (cfg := firmware) 3600351 0 (Some bme_valid) 1700003600;
   mkTick (cfg := firmware) 4000000 4000150 None 1700004000].

Definition delayed_read : list (Tick (cfg := firmware)) :=
  [mkTick (cfg := firmware) 3600201 3600351 None 1700003600;
   mkTick (cfg := firmware) 3600351 0 None 1700003600;
   mkTick (cfg := firmware) 3600352 3600502 None 1700003600;
   mkTick (cfg := firmware) 3600502 0 (Some bme_valid) 1700003600;
   mkTick (cfg := firmware) 4000000 4000150 None 1700004000].

Definition late_poll : Tick (cfg := firmware) :=
  mkTick (cfg := firmware) 7200352 7200502 (Some bme_valid) 1700007200.

(** The button goes down while brightness is being edited. *)
Definition exit_brightness : Globals (cfg := firmware) :=
  with_button button_down editing_brightness.

(** The knob is turned two detents while brightness is being edited. *)
Definition brightness_turned : Globals (cfg := firmware) :=
  with_encoderCount 520 editing_brightness.

(** The settings page, selected from the console, and the button going down
    on it; then the poll that registers the click. *)
Definition settings_page : Globals (cfg := firmware) :=
  with_button button_down (after (handleSerialInput "5") boot).

Definition edit_entered : Globals (cfg := firmware) :=
  after (handleEncoder LOW 1060 1060) settings_page.

(** Two passes of [loop()]: the first serves [GET /data?offset=400], gets
    the digit 1 on the WebSocket console and begins a read; the second, with
    the knob turned one detent, serves [GET /data/latest] and finishes the
    read. *)
Definition first_pass : Inputs (cfg := firmware) :=
  mkInputs 0 (Some (GetData 2 args_offset_400)) [(WStype_TEXT, "1")]
    (mkTick (cfg := firmware) 0 150 None 0) HIGH 0 0 "".

Definition second_pass : Inputs (cfg := firmware) :=
  mkInputs 4 (Some GetLatest) []
    (mkTick (cfg := firmware) 200 0 (Some bme_valid) 1700000000) HIGH 200 200 "".

(** A store holding a saved brightness. *)
Definition nvs_brightness_200 : gmap string Z := {["brightness" := 200]}.

(** * Properties *)

(** Running a command: unfold the monad and the assignments down to [Done]
    or [Fault]. *)
Ltac run :=
  cbv beta delta
    [mbind mret M_bind M_ret bind ret get modify call when fault out_of_fuel
     set_tempHistory set_humiHistory set_presHistory set_historyIndex
     set_currentSensorState set_sensorReadingEndTime set_lastGasReadTime
     set_coolingStartTime set_lastValidGasReading set_lastGasReadTimestamp
     set_currentPage set_needsRedraw set_oldEncoderPosition set_lcdBrightness
     set_brightnessEditMode set_redVal set_greenVal set_blueVal
     set_currentRgbSelectState set_rgbEditMode set_buttonState
     set_lastButtonState set_lastDebounceTime set_encoderCount
     saveBrightness saveRgbColor showRgb];
  cbn.

(** Case analysis on the next integer test a command branches on. *)
Ltac split_test :=
  match goal with
  | |- context [Z.eqb ?a ?b] => destruct (Z.eqb_spec a b)
  | |- context [Z.ltb ?a ?b] => destruct (Z.ltb_spec a b)
  | |- context [Z.leb ?a ?b] => destruct (Z.leb_spec a b)
  end.

Section Properties.
Context {cfg : Config} {core : ArduinoCore}.

(** ** Machine arithmetic *)

Lemma usub_no_wrap (a b : Z) :
  0 <= b <= a -> a < 2 ^ 32 -> usub a b = a - b.
Proof.
  intros Hb Ha. unfold usub, to_uint32. apply Z.mod_small. lia.
Qed.

Lemma to_uint8_range (z : Z) : 0 <= to_uint8 z < 256.
Proof. unfold to_uint8. apply Z.mod_pos_bound. lia. Qed.

Lemma constrain_range (amt low high : Z) :
  low <= high -> low <= constrain amt low high <= high.
Proof.
  intros Hlh. unfold constrain.
  destruct (Z.ltb_spec amt low); [lia|].
  destruct (Z.ltb_spec high amt); lia.
Qed.

Lemma rem_nonneg (a b : Z) : 0 <= a -> 0 < b -> Z.rem a b = a mod b.
Proof. intros Ha Hb. apply Z.rem_mod_nonneg; lia. Qed.

(** ** Recording a finished reading *)

Lemma in_bounds_ok {A} (arr : list A) (i : Z) :
  0 <= i < Z.of_nat (length arr) -> in_bounds arr i = true.
Proof.
  intros [H1 H2]. unfold in_bounds.
  apply andb_true_intro; split; [apply Z.leb_le|apply Z.ltb_lt]; assumption.
Qed.

Lemma recordReading_run (now currentTime : Z) (bme : BmeData) (g : Globals) :
  history_ok (history g) ->
  recordReading now currentTime bme g =
  Done tt (recorded now currentTime bme g) (recorded_calls g).
Proof.
  intros (Ht & Hh & Hp & Hi).
  destruct g as [[th hh ph idx] [st dl lg cs gv gt] mn bt ec]. cbn in *.
  unfold recordReading, store, recorded, recorded_calls, recorded_sensor. run.
  rewrite !in_bounds_ok by lia. run.
  destruct st; run; [reflexivity| |reflexivity].
  destruct (0 <? gas_resistance bme); reflexivity.
Qed.

Lemma history_ok_recorded (now currentTime : Z) (bme : BmeData) (g : Globals) :
  history_ok (history g) -> history_ok (history (recorded now currentTime bme g)).
Proof.
  intros (Ht & Hh & Hp & Hi). unfold history_ok, recorded. cbn.
  rewrite !length_insert. repeat split; try assumption.
  - apply Z.rem_nonneg; lia.
  - rewrite rem_nonneg by lia. apply Z.mod_pos_bound. lia.
Qed.

(** ** The ring buffer *)

Lemma mod_shift_neq (a k n : Z) : 0 < k < n -> (a + k) mod n <> a mod n.
Proof.
  intros Hk Heq.
  assert (Hz : (a + k - a) mod n = 0).
  { rewrite Zminus_mod, Heq, Z.sub_diag. apply Z.mod_0_l. lia. }
  replace (a + k - a) with k in Hz by lia.
  rewrite Z.mod_small in Hz; lia.
Qed.

Lemma recorded_channel (ch : Channel) (now currentTime : Z) (bme : BmeData) (g : Globals) :
  channel_array ch (history (recorded now currentTime bme g)) =
  <[Z.to_nat (historyIndex (history g)) :=
      mkReading currentTime (channel_value ch bme)]> (channel_array ch (history g)).
Proof. destruct ch; reflexivity. Qed.

Lemma channel_length (ch : Channel) (h : History) :
  history_ok h -> Z.of_nat (length (channel_array ch h)) = HISTORY_SIZE.
Proof. intros (Ht & Hh & Hp & _). destruct ch; assumption. Qed.

Lemma recorded_index (now currentTime : Z) (bme : BmeData) (g : Globals) :
  history_ok (history g) ->
  historyIndex (history (recorded now currentTime bme g)) =
  (historyIndex (history g) + 1) mod HISTORY_SIZE.
Proof.
  intros (_ & _ & _ & Hi). unfold recorded. cbn. apply rem_nonneg; lia.
Qed.

(** After the samples are recorded, the slot [i] places after the old write
    cursor holds sample [i], every other slot is as before, and the cursor
    has advanced by the number of samples. *)
Lemma recordReadings_slots (ch : Channel) (samples : list Sample) :
  forall g : Globals,
    history_ok (history g) ->
    Z.of_nat (length samples) <= HISTORY_SIZE ->
    exists g' calls,
      recordReadings samples g = Done tt g' calls /\
      history_ok (history g') /\
      historyIndex (history g') =
        (historyIndex (history g) + Z.of_nat (length samples)) mod HISTORY_SIZE /\
      (forall (i : nat) sm,
         samples !! i = Some sm ->
         channel_array ch (history g')
           !! Z.to_nat ((historyIndex (history g) + Z.of_nat i) mod HISTORY_SIZE)
         = Some (sample_reading ch sm)) /\
      (forall p : Z,
         0 <= p < HISTORY_SIZE ->
         (forall i : nat, (i < length samples)%nat ->
            p <> (historyIndex (history g) + Z.of_nat i) mod HISTORY_SIZE) ->
         channel_array ch (history g') !! Z.to_nat p =
         channel_array ch (history g) !! Z.to_nat p).
Proof.
  induction samples as [|sm rest IH]; intros g Hok Hlen.
  - exists g, []. cbn. split; [reflexivity|]. split; [exact Hok|].
    destruct Hok as (_ & _ & _ & Hi).
    split; [rewrite Z.add_0_r, Z.mod_small by lia; reflexivity|].
    split; [intros i sm' Hl; destruct i; discriminate Hl|]. reflexivity.
  - cbn [length] in Hlen.
    pose (g1 := recorded (sample_now sm) (sample_time sm) (sample_bme sm) g).
    assert (Hok1 : history_ok (history g1)) by (apply history_ok_recorded; exact Hok).
    destruct (IH g1 Hok1 ltac:(lia)) as (g' & calls & Hrun & Hok' & Hidx & Hslots & Hframe).
    assert (Hi : 0 <= historyIndex (history g) < HISTORY_SIZE) by apply Hok.
    assert (Hi1 : historyIndex (history g1) = (historyIndex (history g) + 1) mod HISTORY_SIZE)
      by (apply recorded_index; exact Hok).
    assert (Hshift : forall k : Z,
              (historyIndex (history g1) + k) mod HISTORY_SIZE =
              (historyIndex (history g) + (1 + k)) mod HISTORY_SIZE).
    { intros k. rewrite Hi1, Zplus_mod_idemp_l. f_equal. lia. }
    exists g', (recorded_calls g ++ calls). split.
    { cbn [recordReadings]. cbv beta delta [mbind M_bind bind].
      rewrite recordReading_run by exact Hok. fold g1. rewrite Hrun. reflexivity. }
    split; [exact Hok'|]. split.
    { rewrite Hidx, Hshift. f_equal. cbn [length]. lia. }
    split.
    + intros i sm' Hl. destruct i as [|i].
      * injection Hl as <-. rewrite Z.add_0_r, Z.mod_small by lia.
        rewrite Hframe.
        -- unfold g1. rewrite recorded_channel. apply list_lookup_insert_eq.
           pose proof (channel_length ch (history g) Hok). lia.
        -- lia.
        -- intros k Hk. rewrite Hshift.
           rewrite <- (Z.mod_small (historyIndex (history g)) HISTORY_SIZE) at 1 by lia.
           intros Heq. symmetry in Heq. revert Heq. apply mod_shift_neq. lia.
      * cbn in Hl. specialize (Hslots i sm' Hl). rewrite Hshift in Hslots.
        replace (historyIndex (history g) + Z.of_nat (S i))
          with (historyIndex (history g) + (1 + Z.of_nat i)) by lia.
        exact Hslots.
    + intros p Hp Hfree. rewrite Hframe; [|exact Hp|].
      * unfold g1. rewrite recorded_channel. apply list_lookup_insert_ne.
        specialize (Hfree 0%nat ltac:(cbn; lia)).
        rewrite Z.add_0_r, Z.mod_small in Hfree by lia. lia.
      * intros k Hk. rewrite Hshift.
        specialize (Hfree (S k) ltac:(cbn; lia)).
        replace (historyIndex (history g) + Z.of_nat (S k))
          with (historyIndex (history g) + (1 + Z.of_nat k)) in Hfree by lia.
        exact Hfree.
Qed.

(** The slot [j] readings before the newest, in terms of the write cursor. *)
Lemma plotIndex_mod (g : Globals) (j : Z) :
  history_ok (history g) -> 0 <= j < HISTORY_SIZE ->
  plotIndex g j = (historyIndex (history g) - 1 - j) mod HISTORY_SIZE.
Proof.
  intros (_ & _ & _ & Hi) Hj. unfold plotIndex.
  rewrite rem_nonneg by lia.
  rewrite <- (Z_mod_plus_full (historyIndex (history g) - 1 - j) 1 HISTORY_SIZE).
  f_equal. lia.
Qed.

Lemma currentIndex_plotIndex (g : Globals) :
  history_ok (history g) -> currentIndex g = plotIndex g 0.
Proof.
  intros Hok. pose proof Hok as (_ & _ & _ & Hi).
  rewrite plotIndex_mod by first [exact Hok | lia]. unfold currentIndex.
  destruct (Z.eqb_spec (historyIndex (history g)) 0) as [He|Hne].
  - rewrite He. replace (0 - 1 - 0) with (-1) by lia.
    rewrite <- (Z_mod_plus_full (-1) 1 HISTORY_SIZE).
    rewrite Z.mod_small; lia.
  - rewrite Z.mod_small; lia.
Qed.

Lemma recordReadings_newest_and_first (ch : Channel) (g : Globals) (samples : list Sample) :
  history_ok (history g) ->
  samples <> [] ->
  Z.of_nat (length samples) <= HISTORY_SIZE ->
  exists g' calls,
    recordReadings samples g = Done tt g' calls /\
    currentIndex g' = plotIndex g' 0 /\
    channel_array ch (history g') !! Z.to_nat (plotIndex g' 0) =
      fmap (M := option) (sample_reading ch) (last samples) /\
    channel_array ch (history g')
      !! Z.to_nat (plotIndex g' (Z.of_nat (length samples) - 1)) =
      fmap (M := option) (sample_reading ch) (head samples).
Proof.
  intros Hok Hne Hlen.
  destruct (recordReadings_slots ch samples g Hok Hlen)
    as (g' & calls & Hrun & Hok' & Hidx & Hslots & _).
  exists g', calls. split; [exact Hrun|].
  split; [apply currentIndex_plotIndex; exact Hok'|].
  assert (HK : (0 < length samples)%nat) by (destruct samples; [congruence|cbn; lia]).
  assert (Hi : 0 <= historyIndex (history g) < HISTORY_SIZE) by apply Hok.
  assert (Hslot : forall j : Z, 0 <= j < Z.of_nat (length samples) ->
            plotIndex g' j =
            (historyIndex (history g) + (Z.of_nat (length samples) - 1 - j))
              mod HISTORY_SIZE).
  { intros j Hj. rewrite plotIndex_mod by first [exact Hok' | lia].
    rewrite Hidx.
    replace ((historyIndex (history g) + Z.of_nat (length samples)) mod HISTORY_SIZE - 1 - j)
      with ((historyIndex (history g) + Z.of_nat (length samples)) mod HISTORY_SIZE - (1 + j))
      by lia.
    rewrite Zminus_mod_idemp_l. f_equal. lia. }
  split.
  - rewrite Hslot by lia. rewrite last_lookup.
    destruct (samples !! pred (length samples)) as [sm|] eqn:Hl.
    + cbn. rewrite <- (Hslots _ _ Hl). do 3 f_equal. lia.
    + apply lookup_ge_None in Hl. lia.
  - rewrite Hslot by lia. rewrite head_lookup.
    destruct (samples !! 0%nat) as [sm|] eqn:Hl.
    + cbn. rewrite <- (Hslots _ _ Hl). do 3 f_equal. lia.
    + apply lookup_ge_None in Hl. lia.
Qed.

(** The invariants hold when [setup()] returns. *)
Lemma setup_globals_ok (now brightness r gr b : Z) :
  0 < HISTORY_SIZE ->
  history_ok (history (setup_globals now brightness r gr b)) /\
  sensor_ok (sensor (setup_globals now brightness r gr b)).
Proof.
  intros Hpos. unfold history_ok, sensor_ok, setup_globals. cbn.
  rewrite length_replicate, Z2Nat.id by lia.
  repeat split; lia || discriminate.
Qed.

(** ** One pass of the sensor logic *)

(** Case analysis of one pass of the sensor logic: the sensor state, what
    [endReading] delivers, the tests, and a finished read. *)
Ltac tick_cases g end_result Hok :=
  unfold handleSensorReadings;
  destruct g as [? [[] ? ? ? ? ?] ? ? ?];
  destruct end_result;
  run; repeat (split_test; run);
  try (rewrite recordReading_run by exact Hok; run).

Lemma handleSensorReadings_total (now begin_result : Z) (end_result : option BmeData)
    (currentTime : Z) (g : Globals) :
  history_ok (history g) ->
  exists g' calls,
    handleSensorReadings now begin_result end_result currentTime g = Done tt g' calls /\
    history_ok (history g') /\
    (sensor_ok (sensor g) -> sensor_ok (sensor g')).
Proof.
  intros Hok. tick_cases g end_result Hok.
  all: eexists _, _; (split; [reflexivity|]).
  all: cbn; split; [first [exact Hok | apply history_ok_recorded; exact Hok]|].
  all: unfold sensor_ok; cbn; intros Hs; try congruence; try lia; auto.
Qed.

(** Outside a gas measurement and within the gas-read interval, a pass
    neither arms the heater nor touches [lastGasReadTime]. *)
Lemma handleSensorReadings_quiet (now begin_result : Z) (end_result : option BmeData)
    (currentTime : Z) (g : Globals) :
  history_ok (history g) ->
  currentSensorState (sensor g) <> GAS_MEASUREMENT ->
  usub now (lastGasReadTime (sensor g)) <= GAS_READ_INTERVAL ->
  exists g' calls,
    handleSensorReadings now begin_result end_result currentTime g = Done tt g' calls /\
    history_ok (history g') /\
    currentSensorState (sensor g') <> GAS_MEASUREMENT /\
    lastGasReadTime (sensor g') = lastGasReadTime (sensor g) /\
    ~ In (bme_setGasHeater 320 150) calls.
Proof.
  intros Hok Hst Hel. tick_cases g end_result Hok; cbn in Hst, Hel; try congruence; try lia.
  all: eexists _, _; (split; [reflexivity|]).
  all: cbn; split; [first [exact Hok | apply history_ok_recorded; exact Hok]|].
  all: unfold recorded; cbn; repeat split; try congruence.
  all: try (intros [H'|H']; congruence); try (intros []).
Qed.

Lemma ticks_quiet (start : Z) (ts : list Tick) :
  forall g : Globals,
    history_ok (history g) ->
    currentSensorState (sensor g) <> GAS_MEASUREMENT ->
    lastGasReadTime (sensor g) = start ->
    Forall (fun t => usub (tick_now t) start <= GAS_READ_INTERVAL) ts ->
    exists g' calls,
      ticks ts g = Done tt g' calls /\
      currentSensorState (sensor g') <> GAS_MEASUREMENT /\
      lastGasReadTime (sensor g') = start /\
      ~ In (bme_setGasHeater 320 150) calls.
Proof.
  induction ts as [|t ts IH]; intros g Hok Hst Hlast Hall.
  - exists g, []. cbn. repeat split; auto.
  - inversion Hall as [|? ? Ht Hts]; subst.
    destruct (handleSensorReadings_quiet (tick_now t) (tick_begin t) (tick_end t)
                (tick_time t) g Hok Hst Ht)
      as (g1 & c1 & Hrun1 & Hok1 & Hst1 & Hlast1 & Hno1).
    destruct (IH g1 Hok1 Hst1 Hlast1 Hts) as (g2 & c2 & Hrun2 & Hst2 & Hlast2 & Hno2).
    exists g2, (c1 ++ c2). split.
    + cbn. unfold tick. cbv beta delta [mbind M_bind bind]. rewrite Hrun1, Hrun2.
      reflexivity.
    + repeat split; try assumption.
      intros Hin. apply in_app_or in Hin. tauto.
Qed.

(** A read that finishes during a gas measurement, in closed form. *)
Lemma finish_in_gas_measurement (now begin_result currentTime : Z) (bme : BmeData)
    (g : Globals) :
  history_ok (history g) ->
  currentSensorState (sensor g) = GAS_MEASUREMENT ->
  0 < sensorReadingEndTime (sensor g) <= now ->
  handleSensorReadings now begin_result (Some bme) currentTime g =
  Done tt
    (with_sensor
       (with_sensorReadingEndTime 0 (sensor (recorded now currentTime bme g)))
       (recorded now currentTime bme g))
    [bme_endReading; bme_setGasHeater 0 0].
Proof.
  intros Hok Hst Hdl. unfold handleSensorReadings.
  destruct g as [h [st dl lg cs gv gt] mn bt ec]. cbn in Hst, Hdl. subst st.
  run. repeat (split_test; run); try lia.
  rewrite recordReading_run by exact Hok. reflexivity.
Qed.

(** One pass after a gas read that finished at [start], within the gas-read
    interval: the timers stay, the heater is not armed, and the cool-down ends
    once its period has elapsed. *)
Lemma pass_after_gas_read (start now begin_result : Z) (end_result : option BmeData)
    (currentTime : Z) (g : Globals) :
  history_ok (history g) ->
  currentSensorState (sensor g) <> GAS_MEASUREMENT ->
  lastGasReadTime (sensor g) = start ->
  coolingStartTime (sensor g) = start ->
  usub now start <= GAS_READ_INTERVAL ->
  exists g' calls,
    handleSensorReadings now begin_result end_result currentTime g = Done tt g' calls /\
    history_ok (history g') /\
    currentSensorState (sensor g') <> GAS_MEASUREMENT /\
    lastGasReadTime (sensor g') = start /\
    coolingStartTime (sensor g') = start /\
    ~ In (bme_setGasHeater 320 150) calls /\
    (currentSensorState (sensor g) = NORMAL_READING \/ COOL_DOWN_PERIOD < usub now start ->
     currentSensorState (sensor g') = NORMAL_READING).
Proof.
  intros Hok Hst Hlast Hcool Hel.
  tick_cases g end_result Hok; cbn in Hst, Hlast, Hcool, Hel; subst;
    try congruence; try lia.
  all: eexists _, _; (split; [reflexivity|]).
  all: cbn; split; [first [exact Hok | apply history_ok_recorded; exact Hok]|].
  all: unfold recorded; cbn.
  all: split; [congruence|]. 
  all: split; [reflexivity|]. 
  all: split; [reflexivity|].
  all: split; [intros Hin; cbn in Hin;
               repeat match goal with
                 | H : _ \/ _ |- _ => destruct H
                 | H : False |- _ => destruct H
                 end; congruence|].
  all: intros [Hn|Hc]; congruence || lia || reflexivity.
Qed.

Lemma ticks_after_gas_read (start : Z) (ts : list Tick) :
  forall g : Globals,
    history_ok (history g) ->
    currentSensorState (sensor g) <> GAS_MEASUREMENT ->
    lastGasReadTime (sensor g) = start ->
    coolingStartTime (sensor g) = start ->
    Forall (fun t => usub (tick_now t) start <= GAS_READ_INTERVAL) ts ->
    exists g' calls,
      ticks ts g = Done tt g' calls /\
      history_ok (history g') /\
      currentSensorState (sensor g') <> GAS_MEASUREMENT /\
      lastGasReadTime (sensor g') = start /\
      coolingStartTime (sensor g') = start /\
      ~ In (bme_setGasHeater 320 150) calls /\
      (currentSensorState (sensor g) = NORMAL_READING \/
       Exists (fun t => COOL_DOWN_PERIOD < usub (tick_now t) start) ts ->
       currentSensorState (sensor g') = NORMAL_READING).
Proof.
  induction ts as [|t ts IH]; intros g Hok Hst Hlast Hcool Hall.
  - exists g, []. split; [reflexivity|]. split; [exact Hok|]. split; [exact Hst|].
    split; [exact Hlast|]. split; [exact Hcool|]. split; [intros []|].
    intros [Hn|Hex]; [exact Hn|inversion Hex].
  - inversion Hall as [|? ? Ht Hts]; subst.
    destruct (pass_after_gas_read (lastGasReadTime (sensor g)) (tick_now t) (tick_begin t)
                (tick_end t) (tick_time t) g Hok Hst eq_refl Hcool Ht)
      as (g1 & c1 & Hrun1 & Hok1 & Hst1 & Hlast1 & Hcool1 & Hno1 & Hnormal1).
    destruct (IH g1 Hok1 Hst1 Hlast1 Hcool1 Hts)
      as (g2 & c2 & Hrun2 & Hok2 & Hst2 & Hlast2 & Hcool2 & Hno2 & Hnormal2).
    exists g2, (c1 ++ c2). split.
    + cbn. unfold tick. cbv beta delta [mbind M_bind bind]. rewrite Hrun1, Hrun2.
      reflexivity.
    + split; [exact Hok2|]. split; [exact Hst2|]. split; [exact Hlast2|].
      split; [exact Hcool2|].
      split; [intros Hin; apply in_app_or in Hin; tauto|].
      intros [Hn|Hex]; apply Hnormal2.
      * left. apply Hnormal1. left. exact Hn.
      * inversion Hex as [? ? Hhd|? ? Htl]; subst;
          [left; apply Hnormal1; right; exact Hhd|right; exact Htl].
Qed.

(** The pass that starts a gas measurement, in closed form. *)
Lemma arm_in_normal (now begin_result currentTime : Z) (end_result : option BmeData)
    (g : Globals) :
  currentSensorState (sensor g) = NORMAL_READING ->
  GAS_READ_INTERVAL < usub now (lastGasReadTime (sensor g)) ->
  exists g',
    handleSensorReadings now begin_result end_result currentTime g =
      Done tt g' [bme_setGasHeater 320 150; bme_beginReading] /\
    currentSensorState (sensor g') = GAS_MEASUREMENT /\
    sensorReadingEndTime (sensor g') = begin_result /\
    lastGasReadTime (sensor g') = lastGasReadTime (sensor g) /\
    history g' = history g.
Proof.
  intros Hst Hel. unfold handleSensorReadings.
  destruct g as [h [st dl lg cs gv gt] mn bt ec]. cbn in Hst, Hel. subst st.
  run. repeat (split_test; run); try lia.
  all: eexists; (split; [reflexivity|]); repeat split.
Qed.

(** A cool-down found over only after the gas-read interval: the pass leaves
    [NORMAL_READING] and the timer of the gas read is untouched. *)
Lemma leave_cooling_late (start now begin_result : Z) (end_result : option BmeData)
    (currentTime : Z) (g : Globals) :
  history_ok (history g) ->
  currentSensorState (sensor g) = COOLING_DOWN ->
  lastGasReadTime (sensor g) = start ->
  coolingStartTime (sensor g) = start ->
  GAS_READ_INTERVAL < usub now start ->
  exists g' calls,
    handleSensorReadings now begin_result end_result currentTime g = Done tt g' calls /\
    history_ok (history g') /\
    currentSensorState (sensor g') = NORMAL_READING /\
    lastGasReadTime (sensor g') = start.
Proof.
  intros Hok Hst Hlast Hcool Hel.
  assert (Hc : COOL_DOWN_PERIOD < usub now start)
    by (unfold COOL_DOWN_PERIOD, GAS_READ_INTERVAL in *; lia).
  tick_cases g end_result Hok; cbn in Hst, Hlast, Hcool, Hel, Hc; subst;
    try congruence; try lia.
  all: eexists _, _; (split; [reflexivity|]).
  all: cbn; split; [first [exact Hok | apply history_ok_recorded; exact Hok]|].
  all: unfold recorded; cbn; split; reflexivity.
Qed.

(** After the interval the heater is armed by the second pass at the latest. *)
Lemma arm_within_two_passes (start : Z) (t1 t2 : Tick) (g : Globals) :
  history_ok (history g) ->
  currentSensorState (sensor g) <> GAS_MEASUREMENT ->
  lastGasReadTime (sensor g) = start ->
  coolingStartTime (sensor g) = start ->
  GAS_READ_INTERVAL < usub (tick_now t1) start ->
  GAS_READ_INTERVAL < usub (tick_now t2) start ->
  exists g' calls,
    ticks [t1; t2] g = Done tt g' calls /\
    In (bme_setGasHeater 320 150) calls.
Proof.
  intros Hok Hst Hlast Hcool H1 H2.
  destruct (currentSensorState (sensor g)) eqn:Hs; [| congruence |].
  - rewrite <- Hlast in H1.
    destruct (arm_in_normal (tick_now t1) (tick_begin t1) (tick_time t1) (tick_end t1) g
                Hs H1) as (g1 & Hrun1 & _ & _ & _ & Hh1).
    destruct (handleSensorReadings_total (tick_now t2) (tick_begin t2) (tick_end t2)
                (tick_time t2) g1) as (g2 & c2 & Hrun2 & _);
      [rewrite Hh1; exact Hok|].
    exists g2, ([bme_setGasHeater 320 150; bme_beginReading] ++ c2). split.
    + cbn [ticks]. unfold tick. cbv beta delta [mbind mret M_bind M_ret bind ret].
      rewrite Hrun1, Hrun2. rewrite app_nil_r. reflexivity.
    + left. reflexivity.
  - destruct (leave_cooling_late start (tick_now t1) (tick_begin t1) (tick_end t1)
                (tick_time t1) g Hok Hs Hlast Hcool H1)
      as (g1 & c1 & Hrun1 & Hok1 & Hst1 & Hlast1).
    rewrite <- Hlast1 in H2.
    destruct (arm_in_normal (tick_now t2) (tick_begin t2) (tick_time t2) (tick_end t2) g1
                Hst1 H2) as (g2 & Hrun2 & _).
    exists g2, (c1 ++ [bme_setGasHeater 320 150; bme_beginReading]). split.
    + cbn [ticks]. unfold tick. cbv beta delta [mbind mret M_bind M_ret bind ret].
      rewrite Hrun1, Hrun2. rewrite app_nil_r. reflexivity.
    + apply in_or_app. right. left. reflexivity.
Qed.

(** ** The gas-heater cycle *)

(** C2. The gas cycle, timed from the completion of the gas read.
    (a) In [GAS_MEASUREMENT], a read whose deadline has passed and which
    finishes with a positive gas resistance turns the heater off and leaves
    the sensor in [COOLING_DOWN] with [coolingStartTime] and
    [lastGasReadTime] equal to [now].  (b) In [COOLING_DOWN], a pass with
    [now - coolingStartTime > COOL_DOWN_PERIOD] (unsigned 32-bit subtraction,
    as in the sketch) leaves [NORMAL_READING].  (c) In [NORMAL_READING], a
    pass with [now - lastGasReadTime > GAS_READ_INTERVAL] arms the heater,
    drops the pending deadline without finishing that read, starts a fresh
    read and leaves [GAS_MEASUREMENT], with [lastGasReadTime] untouched.
    (d) The cycle: after a gas read has finished at [T], no sequence of
    passes at times within [GAS_READ_INTERVAL] of [T] arms the heater, enters
    [GAS_MEASUREMENT] or moves [lastGasReadTime], whatever reads those passes
    begin and finish and however long they take; once one of them has come
    later than [T + COOL_DOWN_PERIOD] the state is [NORMAL_READING], and then
    every pass later than [T + GAS_READ_INTERVAL] arms the heater and begins
    the next gas read, from which (a) and (d) apply again; in any case the
    heater is armed by the second pass later than [T + GAS_READ_INTERVAL].
    So the next cycle starts at the first pass more than one interval after
    the gas read finished; measured from one arming to the next, a cycle is
    that plus the time the gas read took. *)
Theorem gas_cycle_period :
  (forall (g : Globals) (now begin_result currentTime : Z) (bme : BmeData),
     history_ok (history g) ->
     currentSensorState (sensor g) = GAS_MEASUREMENT ->
     0 < sensorReadingEndTime (sensor g) <= now ->
     0 < gas_resistance bme ->
     exists g',
       handleSensorReadings now begin_result (Some bme) currentTime g =
         Done tt g' [bme_endReading; bme_setGasHeater 0 0] /\
       currentSensorState (sensor g') = COOLING_DOWN /\
       coolingStartTime (sensor g') = now /\
       lastGasReadTime (sensor g') = now /\
       sensorReadingEndTime (sensor g') = 0) /\
  (forall (g : Globals) (now begin_result currentTime : Z) (end_result : option BmeData),
     history_ok (history g) ->
     currentSensorState (sensor g) = COOLING_DOWN ->
     COOL_DOWN_PERIOD < usub now (coolingStartTime (sensor g)) ->
     exists g' calls,
       handleSensorReadings now begin_result end_result currentTime g =
         Done tt g' calls /\
       currentSensorState (sensor g') = NORMAL_READING) /\
  (forall (g : Globals) (now begin_result currentTime : Z) (end_result : option BmeData),
     currentSensorState (sensor g) = NORMAL_READING ->
     GAS_READ_INTERVAL < usub now (lastGasReadTime (sensor g)) ->
     exists g',
       handleSensorReadings now begin_result end_result currentTime g =
         Done tt g' [bme_setGasHeater 320 150; bme_beginReading] /\
       currentSensorState (sensor g') = GAS_MEASUREMENT /\
       sensorReadingEndTime (sensor g') = begin_result /\
       lastGasReadTime (sensor g') = lastGasReadTime (sensor g) /\
       history g' = history g) /\
  (forall (g : Globals) (T begin_result currentTime : Z) (bme : BmeData)
          (passes : list Tick),
     history_ok (history g) ->
     currentSensorState (sensor g) = GAS_MEASUREMENT ->
     0 < sensorReadingEndTime (sensor g) <= T ->
     0 < gas_resistance bme ->
     Forall (fun t => usub (tick_now t) T <= GAS_READ_INTERVAL) passes ->
     exists g1 calls,
       ticks (mkTick T begin_result (Some bme) currentTime :: passes) g =
         Done tt g1 calls /\
       lastGasReadTime (sensor g1) = T /\
       currentSensorState (sensor g1) <> GAS_MEASUREMENT /\
       ~ In (bme_setGasHeater 320 150) calls /\
       (Exists (fun t => COOL_DOWN_PERIOD < usub (tick_now t) T) passes ->
        currentSensorState (sensor g1) = NORMAL_READING /\
        forall t : Tick,
          GAS_READ_INTERVAL < usub (tick_now t) T ->
          exists g2,
            tick t g1 = Done tt g2 [bme_setGasHeater 320 150; bme_beginReading] /\
            history_ok (history g2) /\
            currentSensorState (sensor g2) = GAS_MEASUREMENT /\
            sensorReadingEndTime (sensor g2) = tick_begin t /\
            lastGasReadTime (sensor g2) = T) /\
       (forall t1 t2 : Tick,
          GAS_READ_INTERVAL < usub (tick_now t1) T ->
          GAS_READ_INTERVAL < usub (tick_now t2) T ->
          exists g2 calls2,
            ticks [t1; t2] g1 = Done tt g2 calls2 /\
            In (bme_setGasHeater 320 150) calls2)).
Proof.
  split; [|split; [|split]].
  - intros g now begin_result currentTime bme Hok Hst Hdl Hgas.
    eexists. split.
    { apply finish_in_gas_measurement; [exact Hok|exact Hst|exact Hdl]. }
    unfold recorded, recorded_sensor. rewrite Hst. cbn.
    repeat split.
  - intros g now begin_result currentTime end_result Hok Hst Hel.
    tick_cases g end_result Hok; cbn in Hst, Hel; try congruence; try lia.
    all: eexists _, _; (split; [reflexivity|]); reflexivity.
  - intros g now begin_result currentTime end_result. apply arm_in_normal.
  - intros g T begin_result currentTime bme passes Hok Hst Hdl Hgas Hquiet.
    pose proof (finish_in_gas_measurement T begin_result currentTime bme g Hok Hst Hdl)
      as Hrun0.
    set (g0 := with_sensor
                 (with_sensorReadingEndTime 0 (sensor (recorded T currentTime bme g)))
                 (recorded T currentTime bme g)) in Hrun0.
    assert (Hok0 : history_ok (history g0)) by (apply history_ok_recorded; exact Hok).
    assert (Hs0 : currentSensorState (sensor g0) = COOLING_DOWN /\
                  lastGasReadTime (sensor g0) = T /\ coolingStartTime (sensor g0) = T).
    { unfold g0, recorded, recorded_sensor. rewrite Hst. cbn. repeat split. }
    destruct Hs0 as (Hst0 & Hlast0 & Hcool0).
    destruct (ticks_after_gas_read T passes g0 Hok0 ltac:(congruence) Hlast0 Hcool0 Hquiet)
      as (g1 & c1 & Hrun1 & Hok1 & Hst1 & Hlast1 & Hcool1 & Hno1 & Hnormal1).
    exists g1, ([bme_endReading; bme_setGasHeater 0 0] ++ c1). split.
    { cbn [ticks]. unfold tick at 1. cbn [tick_now tick_begin tick_end tick_time].
      cbv beta delta [mbind M_bind bind]. rewrite Hrun0, Hrun1. reflexivity. }
    split; [exact Hlast1|]. split; [exact Hst1|].
    split.
    { intros Hin. apply in_app_or in Hin. destruct Hin as [Hin|Hin]; [|exact (Hno1 Hin)].
      cbn in Hin. destruct Hin as [Hin|[Hin|[]]]; discriminate Hin. }
    split; [|intros t1 t2; apply arm_within_two_passes; assumption].
    intros Hex. assert (Hn : currentSensorState (sensor g1) = NORMAL_READING)
      by (apply Hnormal1; right; exact Hex).
    split; [exact Hn|]. intros t Hlate. rewrite <- Hlast1 in Hlate.
    destruct (arm_in_normal (tick_now t) (tick_begin t) (tick_time t) (tick_end t) g1
                Hn Hlate) as (g2 & Hrun2 & Hst2 & Hdl2 & Hlast2 & Hh2).
    exists g2. split; [exact Hrun2|]. split; [rewrite Hh2; exact Hok1|].
    split; [exact Hst2|]. split; [exact Hdl2|]. congruence.
Qed.

(** C4. In [GAS_MEASUREMENT], a read that finishes with a gas resistance
    [<= 0] leaves [lastValidGasReading] and [lastGasReadTimestamp] as they
    were, turns the heater off and enters [COOLING_DOWN] with
    [coolingStartTime = now]; apart from the two cache variables the pass
    leaves the same globals and makes the same driver calls as it does for
    a positive gas resistance. *)
Theorem invalid_gas_keeps_cache_enters_cooldown
    (g : Globals) (now begin_result currentTime : Z) (bme : BmeData) :
  history_ok (history g) ->
  currentSensorState (sensor g) = GAS_MEASUREMENT ->
  0 < sensorReadingEndTime (sensor g) <= now ->
  gas_resistance bme <= 0 ->
  exists g',
    handleSensorReadings now begin_result (Some bme) currentTime g =
      Done tt g' [bme_endReading; bme_setGasHeater 0 0] /\
    lastValidGasReading (sensor g') = lastValidGasReading (sensor g) /\
    lastGasReadTimestamp (sensor g') = lastGasReadTimestamp (sensor g) /\
    currentSensorState (sensor g') = COOLING_DOWN /\
    coolingStartTime (sensor g') = now /\
    forall gas, 0 < gas ->
      exists g'',
        handleSensorReadings now begin_result
          (Some (mkBme (temperature bme) (humidity bme) (pressure bme) gas))
          currentTime g =
          Done tt g'' [bme_endReading; bme_setGasHeater 0 0] /\
        g' = with_sensor
               (with_lastGasReadTimestamp (lastGasReadTimestamp (sensor g))
                  (with_lastValidGasReading (lastValidGasReading (sensor g))
                     (sensor g''))) g''.
Proof.
  intros Hok Hst Hdl Hgas.
  eexists. split; [apply finish_in_gas_measurement; assumption|].
  assert (Hneg : (0 <? gas_resistance bme) = false) by (apply Z.ltb_ge; exact Hgas).
  unfold recorded, recorded_sensor. rewrite Hst. cbn. rewrite Hneg.
  repeat split.
  intros gas Hpos. eexists. split; [apply finish_in_gas_measurement; assumption|].
  unfold recorded, recorded_sensor. rewrite Hst. cbn. reflexivity.
Qed.

(** C8. In [GAS_MEASUREMENT], a read that finishes sets [lastGasReadTime] to
    [now] whatever gas resistance it delivers; through every later run of
    passes that all fall within [GAS_READ_INTERVAL] of that [now], the sensor
    stays out of [GAS_MEASUREMENT] and the heater is not armed. *)
Theorem gas_timer_restarts_whatever_the_gas_value
    (g : Globals) (now begin_result currentTime : Z) (bme : BmeData) :
  history_ok (history g) ->
  currentSensorState (sensor g) = GAS_MEASUREMENT ->
  0 < sensorReadingEndTime (sensor g) <= now ->
  exists g' calls,
    handleSensorReadings now begin_result (Some bme) currentTime g =
      Done tt g' calls /\
    lastGasReadTime (sensor g') = now /\
    currentSensorState (sensor g') = COOLING_DOWN /\
    forall ts : list Tick,
      Forall (fun t => usub (tick_now t) now <= GAS_READ_INTERVAL) ts ->
      exists g'' calls',
        ticks ts g' = Done tt g'' calls' /\
        currentSensorState (sensor g'') <> GAS_MEASUREMENT /\
        lastGasReadTime (sensor g'') = now /\
        ~ In (bme_setGasHeater 320 150) calls'.
Proof.
  intros Hok Hst Hdl.
  eexists _, _. split; [apply finish_in_gas_measurement; assumption|].
  assert (Hs : sensor (recorded now currentTime bme g) =
               recorded_sensor now currentTime bme (sensor g)) by reflexivity.
  assert (Hlast : lastGasReadTime (recorded_sensor now currentTime bme (sensor g)) = now)
    by (unfold recorded_sensor; rewrite Hst; reflexivity).
  assert (Hcool : currentSensorState (recorded_sensor now currentTime bme (sensor g))
                  = COOLING_DOWN)
    by (unfold recorded_sensor; rewrite Hst; reflexivity).
  split; [exact Hlast|]. split; [exact Hcool|].
  intros ts Hts. apply ticks_quiet.
  - apply (history_ok_recorded now currentTime bme g Hok).
  - change (currentSensorState (recorded_sensor now currentTime bme (sensor g))
            <> GAS_MEASUREMENT).
    rewrite Hcool. discriminate.
  - exact Hlast.
  - exact Hts.
Qed.

(** C5. When a pass calls [endReading] and it fails, that is the only driver
    call of the pass (no new read is begun in it), and the globals are as
    before except that [sensorReadingEndTime] is 0: the arrays,
    [historyIndex], the gas cache and the sensor state are untouched; the
    next pass, whatever it is given, begins a read.  The finish is attempted
    whenever the deadline has passed and the pass does not start a gas
    measurement. *)
Theorem failed_read_changes_nothing
    (g : Globals) (now begin_result currentTime : Z) :
  sensor_ok (sensor g) ->
  exists g' calls,
    handleSensorReadings now begin_result None currentTime g = Done tt g' calls /\
    (In bme_endReading calls ->
     calls = [bme_endReading] /\
     g' = with_sensor (with_sensorReadingEndTime 0 (sensor g)) g /\
     forall now' begin_result' end_result' currentTime',
       exists g'' calls'',
         handleSensorReadings now' begin_result' end_result' currentTime' g' =
           Done tt g'' calls'' /\
         In bme_beginReading calls'') /\
    (0 < sensorReadingEndTime (sensor g) <= now ->
     currentSensorState (sensor g) = GAS_MEASUREMENT \/
     (currentSensorState (sensor g) = NORMAL_READING /\
      usub now (lastGasReadTime (sensor g)) <= GAS_READ_INTERVAL) ->
     In bme_endReading calls).
Proof.
  intros Hs. unfold sensor_ok in Hs. unfold handleSensorReadings at 1.
  destruct g as [h [st dl lg cs gv gt] mn bt ec]. cbn in Hs.
  destruct st; run; repeat (split_test; run).
  all: eexists _, _; (split; [reflexivity|]).
  all: split;
    [ intros Hin; cbn in Hin;
      repeat match goal with H : _ \/ _ |- _ => destruct H end;
      try congruence; try contradiction; try (specialize (Hs eq_refl); lia)
    | intros Hdl Hstate; cbn;
      repeat match goal with H : _ \/ _ |- _ => destruct H end;
      repeat match goal with H : _ /\ _ |- _ => destruct H end;
      try congruence; try lia; auto ].
  all: (split; [reflexivity|]); (split; [reflexivity|]).
  all: intros now' begin_result' end_result' currentTime';
       unfold handleSensorReadings; run; repeat (split_test; run);
       eexists _, _; (split; [reflexivity|]); cbn; auto.
Qed.

(** ** Windowed history queries *)

Lemma while_negative_spec (fuel : nat) :
  forall start : Z,
    0 < HISTORY_SIZE ->
    0 <= Z.of_nat fuel * HISTORY_SIZE + start ->
    exists r,
      while_negative fuel start = Some r /\
      0 <= r /\
      r mod HISTORY_SIZE = start mod HISTORY_SIZE /\
      (0 <= start -> r = start) /\
      (start < 0 -> r < HISTORY_SIZE).
Proof.
  induction fuel as [|fuel IH]; intros start Hpos Hfuel; cbn [while_negative].
  - destruct (Z.ltb_spec start 0) as [Hneg|Hnn]; [lia|].
    exists start. repeat split; lia.
  - destruct (Z.ltb_spec start 0) as [Hneg|Hnn].
    + assert (Hfuel' : 0 <= Z.of_nat fuel * HISTORY_SIZE + (start + HISTORY_SIZE))
        by (rewrite Nat2Z.inj_succ in Hfuel; nia).
      destruct (IH (start + HISTORY_SIZE) Hpos Hfuel') as (r & Hr & H0 & Hmod & Hsame & Hlt).
      exists r. split; [exact Hr|]. split; [exact H0|]. split.
      * rewrite Hmod. rewrite <- (Z_mod_plus_full start 1 HISTORY_SIZE). f_equal. lia.
      * split; [lia|]. intros _.
        destruct (Z.lt_ge_cases (start + HISTORY_SIZE) 0) as [Hn|Hp]; [auto|].
        rewrite (Hsame Hp). lia.
    + exists start. repeat split; lia.
Qed.

Lemma handleData_offset_range (args : gmap string string) :
  0 < HISTORY_SIZE -> 0 <= requested_offset args <= HISTORY_SIZE - 1.
Proof. intros Hpos. unfold requested_offset. apply constrain_range. lia. Qed.

Lemma chunk_start_mod (fuel : nat) (g : Globals) (offset : Z) :
  history_ok (history g) ->
  CHUNK_SIZE <= HISTORY_SIZE ->
  (2 <= fuel)%nat ->
  0 <= offset <= HISTORY_SIZE - 1 ->
  chunk_start fuel g offset =
  Some ((historyIndex (history g) - CHUNK_SIZE - offset) mod HISTORY_SIZE).
Proof.
  intros (_ & _ & _ & Hi) Hchunk Hfuel Hoff. unfold chunk_start.
  assert (Hc : CHUNK_SIZE = 200) by reflexivity.
  destruct (while_negative_spec fuel (historyIndex (history g) - CHUNK_SIZE - offset))
    as (r & Hr & H0 & Hmod & Hsame & Hlt); [lia|nia|].
  rewrite Hr. cbn. f_equal.
  assert (Hr' : 0 <= r < HISTORY_SIZE).
  { destruct (Z.lt_ge_cases (historyIndex (history g) - CHUNK_SIZE - offset) 0) as [Hn|Hp].
    - specialize (Hlt Hn). lia.
    - rewrite (Hsame Hp). lia. }
  rewrite rem_nonneg by lia. exact Hmod.
Qed.

Lemma chunk_index_mod (start i : Z) :
  0 < HISTORY_SIZE -> 0 <= start -> 0 <= i ->
  chunk_index start i = (start + i) mod HISTORY_SIZE.
Proof. intros Hpos Hs Hi. unfold chunk_index. apply rem_nonneg; lia. Qed.

(** A loop over in-bounds slots returns their points and changes nothing. *)
Lemma for_each_chunk_point (start : Z) (l : list Z) (g : Globals) :
  history_ok (history g) ->
  Forall (fun i => 0 <= chunk_index start i < HISTORY_SIZE) l ->
  exists points,
    for_each (chunk_point start) l g = Done points g [] /\
    Forall2 (fun i pt => slot_point g (chunk_index start i) = Some pt) l points.
Proof.
  intros (Ht & Hh & Hp & _). induction 1 as [|i l Hi Hl (points & Hrun & Hpts)].
  - exists []. split; [reflexivity|constructor].
  - destruct (lookup_lt_is_Some_2 (tempHistory (history g)) (Z.to_nat (chunk_index start i)))
      as [t Hlt]; [lia|].
    destruct (lookup_lt_is_Some_2 (humiHistory (history g)) (Z.to_nat (chunk_index start i)))
      as [h Hlh]; [lia|].
    destruct (lookup_lt_is_Some_2 (presHistory (history g)) (Z.to_nat (chunk_index start i)))
      as [pr Hlp]; [lia|].
    assert (Hpoint : chunk_point start i g =
                     Done (json_point t, json_point h, json_point pr) g []).
    { unfold chunk_point, load. cbv beta iota zeta delta [mbind mret M_bind M_ret bind ret get].
      rewrite !in_bounds_ok by lia. rewrite Hlt, Hlh, Hlp. reflexivity. }
    exists ((json_point t, json_point h, json_point pr) :: points). split.
    + cbn [for_each]. cbv beta delta [mbind M_bind bind].
      rewrite Hpoint, Hrun. reflexivity.
    + constructor; [|exact Hpts].
      unfold slot_point. rewrite Hlt, Hlh, Hlp. reflexivity.
Qed.

Lemma chunk_indices_lookup (start : Z) (i : nat) (p : Z) :
  chunk_indices start !! i = Some p ->
  p = chunk_index start (Z.of_nat i) /\ Z.of_nat i < CHUNK_SIZE.
Proof.
  unfold chunk_indices. rewrite list_lookup_fmap.
  destruct (seqZ 0 CHUNK_SIZE !! i) as [k|] eqn:Hk; [|discriminate].
  apply lookup_seqZ in Hk. destruct Hk as [-> Hlt].
  cbn. intros [= <-]. split; [reflexivity|exact Hlt].
Qed.

(** C1, amended.  For every request and every state whose arrays hold
    [HISTORY_SIZE >= CHUNK_SIZE] slots, [handleData] clamps [offset] to
    [0 .. HISTORY_SIZE - 1], reads only slots inside the arrays, leaves the
    globals alone and answers with [CHUNK_SIZE] points per channel, point [i]
    being read from slot [(start + i) % HISTORY_SIZE]; and when
    [offset + CHUNK_SIZE <= HISTORY_SIZE], point [i] is the slot at logical
    offset [offset + CHUNK_SIZE - 1 - i], so the window starts at logical
    offset [offset + CHUNK_SIZE - 1 <= HISTORY_SIZE - 1] and never steps from
    the newest slot across the write cursor. *)
Theorem handleData_window_in_bounds
    (g : Globals) (args : gmap string string) (fuel : nat) :
  history_ok (history g) ->
  CHUNK_SIZE <= HISTORY_SIZE ->
  (2 <= fuel)%nat ->
  exists start points,
    0 <= requested_offset args <= HISTORY_SIZE - 1 /\
    chunk_start fuel g (requested_offset args) = Some start /\
    handleData fuel args g =
      Done tt g
        [server_send 200 "application/json"
           (DataJson ((fun pt => pt.1.1) <$> points)
                     ((fun pt => pt.1.2) <$> points)
                     ((fun pt => pt.2) <$> points))] /\
    Forall (fun p => 0 <= p < HISTORY_SIZE) (chunk_indices start) /\
    Forall2 (fun p pt => slot_point g p = Some pt) (chunk_indices start) points /\
    length points = Z.to_nat CHUNK_SIZE /\
    (requested_offset args + CHUNK_SIZE <= HISTORY_SIZE ->
     (forall i, 0 <= i < CHUNK_SIZE ->
        chunk_index start i =
        plotIndex g (requested_offset args + CHUNK_SIZE - 1 - i)) /\
     ~ crosses_head g (chunk_indices start)).
Proof.
  intros Hok Hchunk Hfuel.
  assert (Hc : CHUNK_SIZE = 200) by reflexivity.
  assert (Hpos : 0 < HISTORY_SIZE) by lia.
  pose proof (handleData_offset_range args Hpos) as Hoff.
  pose proof Hok as (Ht & Hh & Hp & Hi).
  set (offset := requested_offset args) in *.
  set (start := (historyIndex (history g) - CHUNK_SIZE - offset) mod HISTORY_SIZE).
  assert (Hstart : 0 <= start < HISTORY_SIZE) by (apply Z.mod_pos_bound; lia).
  assert (Hidx : forall i, 0 <= i ->
            chunk_index start i =
            (historyIndex (history g) - CHUNK_SIZE - offset + i) mod HISTORY_SIZE).
  { intros i Hi0. rewrite chunk_index_mod by lia. unfold start.
    apply Zplus_mod_idemp_l. }
  assert (Hin : Forall (fun i => 0 <= chunk_index start i < HISTORY_SIZE)
                  (seqZ 0 CHUNK_SIZE)).
  { apply Forall_forall. intros i Hel. apply elem_of_seqZ in Hel.
    rewrite chunk_index_mod by lia. apply Z.mod_pos_bound. lia. }
  destruct (for_each_chunk_point start (seqZ 0 CHUNK_SIZE) g Hok Hin)
    as (points & Hrun & Hpoints).
  exists start, points.
  split; [exact Hoff|].
  split; [apply chunk_start_mod; assumption|].
  split.
  { unfold handleData. cbv beta iota zeta delta [mbind M_bind bind get].
    fold offset. rewrite chunk_start_mod by assumption. fold start.
    cbv beta iota. rewrite Hrun. reflexivity. }
  split; [unfold chunk_indices; apply Forall_fmap; exact Hin|].
  split; [unfold chunk_indices; apply Forall2_fmap_l; exact Hpoints|].
  split.
  { rewrite <- (Forall2_length _ _ _ Hpoints). apply length_seqZ. }
  intros Hfit.
  assert (Hlog : forall i, 0 <= i < CHUNK_SIZE ->
            chunk_index start i = plotIndex g (offset + CHUNK_SIZE - 1 - i)).
  { intros i Hi0. rewrite Hidx by lia. rewrite plotIndex_mod by first [exact Hok | lia].
    f_equal. lia. }
  split; [exact Hlog|].
  intros (i & Hnew & Hold).
  apply chunk_indices_lookup in Hnew. destruct Hnew as [Hnew _].
  apply chunk_indices_lookup in Hold. destruct Hold as [_ Hlt].
  rewrite Hlog in Hnew by lia.
  rewrite currentIndex_plotIndex in Hnew by exact Hok.
  rewrite !plotIndex_mod in Hnew by first [exact Hok | lia].
  replace (historyIndex (history g) - 1 - 0)
    with (historyIndex (history g) - 1 - (offset + CHUNK_SIZE - 1 - Z.of_nat i)
          + (offset + CHUNK_SIZE - 1 - Z.of_nat i)) in Hnew by lia.
  apply mod_shift_neq in Hnew; [exact Hnew|lia].
Qed.

(** ** RGB over HTTP *)

Lemma handleRgbSet_run (g : Globals) (args : gmap string string) :
  handleRgbSet args g =
  match args !! "r", args !! "g", args !! "b" with
  | Some r, Some gr, Some b =>
      Done tt
        (with_menu
           (with_needsRedraw (currentPage (menu g) =? 6)
              (with_blueVal (to_uint8 (toInt b))
                 (with_greenVal (to_uint8 (toInt gr))
                    (with_redVal (to_uint8 (toInt r)) (menu g))))) g)
        [pixels_setPixelColor 0 (to_uint8 (toInt r)) (to_uint8 (toInt gr))
           (to_uint8 (toInt b));
         pixels_show;
         server_send 200 "text/plain" (Text "OK")]
  | _, _, _ => Done tt g [server_send 400 "text/plain" (Text "Bad Request")]
  end.
Proof.
  unfold handleRgbSet, hasArg, arg.
  destruct (args !! "r") as [r|] eqn:Hr; destruct (args !! "g") as [gr|] eqn:Hg;
    destruct (args !! "b") as [b|] eqn:Hb; cbn; reflexivity.
Qed.

(** C7. [GET /rgb/set]: with one of [r], [g], [b] missing the handler answers
    400 and touches neither the globals nor any driver; with all three present
    it answers 200 "OK", stores the (8-bit) values in [redVal], [greenVal],
    [blueVal], shows them on the LED, and makes no [preferences] call. *)
Theorem handleRgbSet_missing_or_applied (g : Globals) (args : gmap string string) :
  (args !! "r" = None \/ args !! "g" = None \/ args !! "b" = None ->
   handleRgbSet args g =
   Done tt g [server_send 400 "text/plain" (Text "Bad Request")]) /\
  (forall r gr b,
     args !! "r" = Some r -> args !! "g" = Some gr -> args !! "b" = Some b ->
     exists g',
       handleRgbSet args g =
       Done tt g'
         [pixels_setPixelColor 0 (to_uint8 (toInt r)) (to_uint8 (toInt gr))
            (to_uint8 (toInt b));
          pixels_show;
          server_send 200 "text/plain" (Text "OK")] /\
       redVal (menu g') = to_uint8 (toInt r) /\
       greenVal (menu g') = to_uint8 (toInt gr) /\
       blueVal (menu g') = to_uint8 (toInt b) /\
       g' = with_menu
              (with_needsRedraw (currentPage (menu g) =? 6)
                 (with_blueVal (to_uint8 (toInt b))
                    (with_greenVal (to_uint8 (toInt gr))
                       (with_redVal (to_uint8 (toInt r)) (menu g))))) g).
Proof.
  split.
  - intros Hmiss. rewrite handleRgbSet_run.
    destruct (args !! "r"), (args !! "g"), (args !! "b"); try reflexivity.
    destruct Hmiss as [H|[H|H]]; discriminate H.
  - intros r gr b Hr Hg Hb. rewrite handleRgbSet_run, Hr, Hg, Hb.
    eexists. split; [reflexivity|]. cbn. repeat split; reflexivity.
Qed.

(** C9. [GET /rgb/set] does no range check: with all three parameters present
    the request is answered 200 and the stored values are the parsed integers
    reduced modulo 256, so [r=300] stores 44. *)
Theorem handleRgbSet_stores_mod_256 (g : Globals) (args : gmap string string)
    (r gr b : string) :
  args !! "r" = Some r -> args !! "g" = Some gr -> args !! "b" = Some b ->
  exists g' calls,
    handleRgbSet args g = Done tt g' calls /\
    last calls = Some (server_send 200 "text/plain" (Text "OK")) /\
    redVal (menu g') = toInt r mod 256 /\
    greenVal (menu g') = toInt gr mod 256 /\
    blueVal (menu g') = toInt b mod 256 /\
    (toInt r = 300 -> redVal (menu g') = 44).
Proof.
  intros Hr Hg Hb. rewrite handleRgbSet_run, Hr, Hg, Hb.
  eexists _, _. split; [reflexivity|]. cbn. unfold to_uint8.
  repeat split; try reflexivity.
  intros ->. reflexivity.
Qed.

(** ** Remote page selection *)

Lemma select_digit (c : ascii) :
  char_code "0" <= char_code c < char_code "0" + NUM_PAGES ->
  (char_code "0" <=? char_code c) && (char_code c <? char_code "0" + NUM_PAGES) = true.
Proof.
  intros [H1 H2]. apply andb_true_intro; split; [apply Z.leb_le|apply Z.ltb_lt]; assumption.
Qed.

(** Both console handlers run the same page switch. *)
Lemma webSocketEvent_text_serial (c : ascii) (rest : string) (g : Globals) :
  webSocketEvent WStype_TEXT (String c rest) g = handleSerialInput (String c rest) g.
Proof. reflexivity. Qed.

Lemma handleSerialInput_digit (g : Globals) (c : ascii) (rest : string) :
  char_code "0" <= char_code c < char_code "0" + NUM_PAGES ->
  let newPage := char_code c - char_code "0" in
  handleSerialInput (String c rest) g =
  Done tt
    (if newPage =? currentPage (menu g) then g
     else with_menu
            (with_needsRedraw true
               (with_oldEncoderPosition newPage
                  (with_currentPage newPage (menu g))))
            (with_encoderCount (newPage * 4) g))
    [].
Proof.
  intros Hc newPage. unfold handleSerialInput.
  rewrite (select_digit c Hc). fold newPage. run.
  destruct (newPage =? currentPage (menu g)); reflexivity.
Qed.

(** ** Local navigation *)

Lemma debounce_run (g : Globals) (reading millis1 millis2 : Z) :
  exists bt,
    debounce reading millis1 millis2 g =
    Done (clicked g reading millis1 millis2) (with_button bt g) [].
Proof.
  unfold clicked, debounce. destruct g as [h sn mn [bs lbs ldt] ec]. run.
  repeat (split_test; run); eexists; reflexivity.
Qed.

Lemma navigate_spec (b : bool) (g : Globals) :
  exists g' calls,
    navigate b g = Done tt g' calls /\
    (currentPage (menu g') <> currentPage (menu g) ->
     brightnessEditMode (menu g') = false /\ rgbEditMode (menu g') = false) /\
    (existsb is_persist calls = true ->
     b = true /\
     ((currentPage (menu g') = 5 /\ brightnessEditMode (menu g) = true) \/
      (currentPage (menu g') = 6 /\ rgbEditMode (menu g) = true /\
       currentRgbSelectState (menu g) = SELECT_B))) /\
    history g' = history g /\ sensor g' = sensor g /\ button g' = button g.
Proof.
  destruct g as [h sn [page redraw oldpos bright bem r gr bl sel rem] bt ec].
  unfold navigate. destruct b, bem, rem, sel; run.
  all: repeat (split_test; run).
  all: eexists _, _; (split; [reflexivity|]); cbn.
  all: repeat split; intros; try congruence; try lia; auto.
Qed.

Lemma handleEncoder_spec (g : Globals) (reading millis1 millis2 : Z) :
  exists g' calls,
    handleEncoder reading millis1 millis2 g = Done tt g' calls /\
    (currentPage (menu g') <> currentPage (menu g) ->
     brightnessEditMode (menu g') = false /\ rgbEditMode (menu g') = false) /\
    (existsb is_persist calls = true ->
     clicked g reading millis1 millis2 = true /\
     ((currentPage (menu g') = 5 /\ brightnessEditMode (menu g) = true) \/
      (currentPage (menu g') = 6 /\ rgbEditMode (menu g) = true /\
       currentRgbSelectState (menu g) = SELECT_B))) /\
    history g' = history g /\ sensor g' = sensor g.
Proof.
  destruct (debounce_run g reading millis1 millis2) as [bt Hd].
  destruct (navigate_spec (clicked g reading millis1 millis2) (with_button bt g))
    as (g' & calls & Hn & Hpage & Hpersist & Hh & Hs & _).
  exists g', calls. split.
  - unfold handleEncoder. cbv beta delta [mbind M_bind bind]. rewrite Hd, Hn.
    reflexivity.
  - auto.
Qed.

(** C6. A poll of the encoder that changes [currentPage] leaves both edit
    modes off, and if that poll registers no click (a rotation event) it makes
    no [preferences] write; whatever the poll, a [preferences] write needs a
    registered click that leaves an edit mode: brightness edit on page 5, or
    the blue channel of RGB edit on page 6.  A poll that registers a click
    together with a turn can therefore change the page and write, when the
    edit flag of the page it arrives at was still set. *)
Theorem rotation_page_change_exits_edit_modes
    (g : Globals) (reading millis1 millis2 : Z) :
  exists g' calls,
    handleEncoder reading millis1 millis2 g = Done tt g' calls /\
    (currentPage (menu g') <> currentPage (menu g) ->
     brightnessEditMode (menu g') = false /\
     rgbEditMode (menu g') = false /\
     (clicked g reading millis1 millis2 = false ->
      existsb is_persist calls = false)) /\
    (existsb is_persist calls = true ->
     clicked g reading millis1 millis2 = true /\
     ((currentPage (menu g') = 5 /\ brightnessEditMode (menu g) = true) \/
      (currentPage (menu g') = 6 /\ rgbEditMode (menu g) = true /\
       currentRgbSelectState (menu g) = SELECT_B))).
Proof.
  destruct (handleEncoder_spec g reading millis1 millis2)
    as (g' & calls & Hrun & Hpage & Hpersist & _).
  exists g', calls. split; [exact Hrun|]. split; [|exact Hpersist].
  intros Hne. destruct (Hpage Hne) as [Hb Hr]. repeat split; try assumption.
  intros Hnoclick. destruct (existsb is_persist calls) eqn:He; [|reflexivity].
  destruct (Hpersist eq_refl) as [Hc _]. congruence.
Qed.

(** C10. A page digit ['0'..'6'] on the WebSocket console or on the serial
    line sets [currentPage], and when the page differs it rebases the encoder
    count and [oldEncoderPosition]; [brightnessEditMode] and [rgbEditMode]
    keep their values, whereas a poll of the encoder that changes the page
    clears both. *)
Theorem remote_page_select_keeps_edit_modes (g : Globals) (c : ascii) (rest : string) :
  char_code "0" <= char_code c < char_code "0" + NUM_PAGES ->
  exists g',
    webSocketEvent WStype_TEXT (String c rest) g = Done tt g' [] /\
    handleSerialInput (String c rest) g = Done tt g' [] /\
    currentPage (menu g') = char_code c - char_code "0" /\
    brightnessEditMode (menu g') = brightnessEditMode (menu g) /\
    rgbEditMode (menu g') = rgbEditMode (menu g) /\
    (currentPage (menu g) <> char_code c - char_code "0" ->
     encoderCount g' = (char_code c - char_code "0") * 4 /\
     oldEncoderPosition (menu g') = char_code c - char_code "0" /\
     needsRedraw (menu g') = true) /\
    (forall reading millis1 millis2 g'' calls,
       handleEncoder reading millis1 millis2 g = Done tt g'' calls ->
       currentPage (menu g'') <> currentPage (menu g) ->
       brightnessEditMode (menu g'') = false /\ rgbEditMode (menu g'') = false).
Proof.
  intros Hc.
  assert (Hlocal : forall reading millis1 millis2 g'' calls,
             handleEncoder reading millis1 millis2 g = Done tt g'' calls ->
             currentPage (menu g'') <> currentPage (menu g) ->
             brightnessEditMode (menu g'') = false /\ rgbEditMode (menu g'') = false).
  { intros reading millis1 millis2 g'' calls Hrun Hpage.
    destruct (handleEncoder_spec g reading millis1 millis2)
      as (g2 & calls2 & Hrun2 & Hpage2 & _).
    rewrite Hrun in Hrun2. injection Hrun2 as <- <-. auto. }
  eexists. split.
  { rewrite webSocketEvent_text_serial. apply (handleSerialInput_digit g c rest Hc). }
  split; [apply (handleSerialInput_digit g c rest Hc)|].
  cbv zeta.
  destruct (Z.eqb_spec (char_code c - char_code "0") (currentPage (menu g))) as [He|Hne].
  - split; [congruence|]. split; [reflexivity|]. split; [reflexivity|].
    split; [congruence|exact Hlocal].
  - cbn. split; [reflexivity|]. split; [reflexivity|]. split; [reflexivity|].
    split; [|exact Hlocal]. intros _. repeat split; reflexivity.
Qed.

End Properties.

(** * Further properties of the sketch *)

Section MoreProperties.
Context {cfg : Config} {core : ArduinoCore}.

(** ** The sensor logic between readings *)

(** X1.  During the cool-down, until [COOL_DOWN_PERIOD] has elapsed, a pass
    starts no read, makes no driver call and changes no global. *)
Theorem cooling_down_pass_is_idle
    (g : Globals) (now begin_result currentTime : Z) (end_result : option BmeData) :
  sensor_ok (sensor g) ->
  currentSensorState (sensor g) = COOLING_DOWN ->
  usub now (coolingStartTime (sensor g)) <= COOL_DOWN_PERIOD ->
  handleSensorReadings now begin_result end_result currentTime g = Done tt g [].
Proof.
  intros Hs Hst Hel. unfold sensor_ok in Hs. unfold handleSensorReadings.
  destruct g as [h [st dl lg cs gv gt] mn bt ec]. cbn in Hs, Hst, Hel. subst st.
  specialize (Hs eq_refl). subst dl.
  run. repeat (split_test; run); try lia; reflexivity.
Qed.

(** X2.  While a read is in flight and its deadline lies ahead, a pass that does
    not start a gas measurement makes no driver call and changes no global:
    the sensor is polled by the clock alone. *)
Theorem pending_read_pass_is_idle
    (g : Globals) (now begin_result currentTime : Z) (end_result : option BmeData) :
  now < sensorReadingEndTime (sensor g) ->
  0 < sensorReadingEndTime (sensor g) ->
  currentSensorState (sensor g) = GAS_MEASUREMENT \/
  (currentSensorState (sensor g) = NORMAL_READING /\
   usub now (lastGasReadTime (sensor g)) <= GAS_READ_INTERVAL) ->
  handleSensorReadings now begin_result end_result currentTime g = Done tt g [].
Proof.
  intros Hdl Hpos Hst. unfold handleSensorReadings.
  destruct g as [h [st dl lg cs gv gt] mn bt ec]. cbn in Hdl, Hpos, Hst.
  destruct Hst as [->|[-> Hel]]; run; repeat (split_test; run); try lia; reflexivity.
Qed.

(** Case analysis of one pass, as for the claims. *)
Ltac pass_cases g end_result Hok :=
  unfold handleSensorReadings;
  destruct g as [? [[] ? ? ? ? ?] ? ? ?];
  destruct end_result;
  run; repeat (split_test; run);
  try (rewrite recordReading_run by exact Hok; run).

(** X3.  A pass talks to the sensor at most once: it begins a read or finishes
    one, never both.  It finishes one only if a deadline was set and has
    passed, and then no read is in flight afterwards; when it begins one, the
    deadline is what [beginReading] returned and the history is untouched. *)
Theorem pass_begins_or_finishes
    (g : Globals) (now begin_result currentTime : Z) (end_result : option BmeData) :
  history_ok (history g) ->
  exists g' calls,
    handleSensorReadings now begin_result end_result currentTime g = Done tt g' calls /\
    (In bme_beginReading calls -> ~ In bme_endReading calls) /\
    (In bme_endReading calls ->
     0 < sensorReadingEndTime (sensor g) <= now /\
     sensorReadingEndTime (sensor g') = 0) /\
    (In bme_beginReading calls ->
     sensorReadingEndTime (sensor g') = begin_result /\
     history g' = history g) /\
    (~ In bme_endReading calls -> history g' = history g).
Proof.
  intros Hok. pass_cases g end_result Hok.
  all: eexists _, _; (split; [reflexivity|]); cbn.
  all: repeat split; intros;
       repeat match goal with
         | H : _ \/ _ |- _ => destruct H
         | H : False |- _ => destruct H
         end;
       try congruence; try lia; try reflexivity;
       try (intros [?|[?|?]]; congruence); try (intros [?|?]; congruence);
       try (exfalso; auto; fail).
Qed.

Lemma handleSensorReadings_frame
    (g : Globals) (now begin_result currentTime : Z) (end_result : option BmeData) :
  history_ok (history g) ->
  exists g' calls,
    handleSensorReadings now begin_result end_result currentTime g = Done tt g' calls /\
    button g' = button g /\
    encoderCount g' = encoderCount g /\
    (menu g' = menu g /\ history g' = history g \/
     menu g' = with_needsRedraw true (menu g) /\
     exists bme, end_result = Some bme /\
       history g' = history (recorded now currentTime bme g)).
Proof.
  intros Hok. pass_cases g end_result Hok.
  all: eexists _, _; (split; [reflexivity|]); cbn.
  all: split; [reflexivity|]; split; [reflexivity|].
  all: first [left; split; reflexivity
             | right; split; [reflexivity|]; eexists; split; reflexivity].
Qed.

(** X4.  The sensor logic never touches the button state, the encoder count or
    the menu, except for setting [needsRedraw] when it records a reading. *)
Theorem pass_leaves_navigation_alone
    (g : Globals) (now begin_result currentTime : Z) (end_result : option BmeData) :
  history_ok (history g) ->
  exists g' calls,
    handleSensorReadings now begin_result end_result currentTime g = Done tt g' calls /\
    button g' = button g /\
    encoderCount g' = encoderCount g /\
    (menu g' = menu g /\ history g' = history g \/
     menu g' = with_needsRedraw true (menu g) /\
     exists bme, end_result = Some bme /\
       history g' = history (recorded now currentTime bme g)).
Proof. apply handleSensorReadings_frame. Qed.

(** X5.  Both timers survive the wrap of [millis()]: if the true elapsed time [d]
    is above the period and below [2^32], the transition is taken even when
    [now] has wrapped below the start time. *)
Theorem timers_survive_millis_wrap
    (g : Globals) (d begin_result currentTime : Z) (end_result : option BmeData) :
  history_ok (history g) ->
  d < 2 ^ 32 ->
  (currentSensorState (sensor g) = COOLING_DOWN ->
   0 <= coolingStartTime (sensor g) < 2 ^ 32 ->
   COOL_DOWN_PERIOD < d ->
   exists g' calls,
     handleSensorReadings ((coolingStartTime (sensor g) + d) mod 2 ^ 32)
       begin_result end_result currentTime g = Done tt g' calls /\
     currentSensorState (sensor g') = NORMAL_READING) /\
  (currentSensorState (sensor g) = NORMAL_READING ->
   0 <= lastGasReadTime (sensor g) < 2 ^ 32 ->
   GAS_READ_INTERVAL < d ->
   exists g' calls,
     handleSensorReadings ((lastGasReadTime (sensor g) + d) mod 2 ^ 32)
       begin_result end_result currentTime g = Done tt g' calls /\
     currentSensorState (sensor g') = GAS_MEASUREMENT /\
     In (bme_setGasHeater 320 150) calls).
Proof.
  intros Hok Hd.
  assert (Hwrap : forall s, 0 <= s < 2 ^ 32 -> 0 <= d -> usub ((s + d) mod 2 ^ 32) s = d).
  { intros s Hs Hd0. unfold usub, to_uint32.
    rewrite Zminus_mod_idemp_l. replace (s + d - s) with d by lia.
    apply Z.mod_small. lia. }
  split.
  - intros Hst Hs Hper.
    assert (Hel : COOL_DOWN_PERIOD
                  < usub ((coolingStartTime (sensor g) + d) mod 2 ^ 32)
                      (coolingStartTime (sensor g))).
    { rewrite Hwrap; [exact Hper|exact Hs|unfold COOL_DOWN_PERIOD in Hper; lia]. }
    revert Hel. generalize ((coolingStartTime (sensor g) + d) mod 2 ^ 32). intros now Hel.
    pass_cases g end_result Hok; cbn in Hst, Hel; try congruence; try lia.
    all: eexists _, _; (split; [reflexivity|]); reflexivity.
  - intros Hst Hs Hper.
    assert (Hel : GAS_READ_INTERVAL
                  < usub ((lastGasReadTime (sensor g) + d) mod 2 ^ 32)
                      (lastGasReadTime (sensor g))).
    { rewrite Hwrap; [exact Hper|exact Hs|unfold GAS_READ_INTERVAL in Hper; lia]. }
    revert Hel. generalize ((lastGasReadTime (sensor g) + d) mod 2 ^ 32). intros now Hel.
    pass_cases g end_result Hok; cbn in Hst, Hel; try congruence; try lia.
    all: eexists _, _; (split; [reflexivity|]); cbn; auto.
Qed.

(** ** The ring buffer beyond its capacity *)

Lemma recordReadings_app (a b : list Sample) :
  forall g : Globals,
    recordReadings (a ++ b) g =
    match recordReadings a g with
    | Done _ g1 c1 =>
        match recordReadings b g1 with
        | Done _ g2 c2 => Done tt g2 (c1 ++ c2)
        | Fault => Fault
        | OutOfFuel => OutOfFuel
        end
    | Fault => Fault
    | OutOfFuel => OutOfFuel
    end.
Proof.
  induction a as [|sm a IH]; intros g.
  - cbn. destruct (recordReadings b g) as [| |[] g2 c2]; reflexivity.
  - cbn [app recordReadings]. cbv beta delta [mbind M_bind bind].
    destruct (recordReading (sample_now sm) (sample_time sm) (sample_bme sm) g)
      as [| |[] g1 c1]; try reflexivity.
    rewrite IH. destruct (recordReadings a g1) as [| |[] g2 c2]; try reflexivity.
    destruct (recordReadings b g2) as [| |[] g3 c3]; try reflexivity.
    rewrite app_assoc. reflexivity.
Qed.

Lemma recordReadings_total (samples : list Sample) :
  forall g : Globals,
    history_ok (history g) ->
    exists g' calls,
      recordReadings samples g = Done tt g' calls /\ history_ok (history g').
Proof.
  induction samples as [|sm rest IH]; intros g Hok.
  - exists g, []. split; [reflexivity|exact Hok].
  - destruct (IH (recorded (sample_now sm) (sample_time sm) (sample_bme sm) g))
      as (g' & calls & Hrun & Hok'); [apply history_ok_recorded; exact Hok|].
    exists g', (recorded_calls g ++ calls). split; [|exact Hok'].
    cbn [recordReadings]. cbv beta delta [mbind M_bind bind].
    rewrite recordReading_run by exact Hok. rewrite Hrun. reflexivity.
Qed.

(** Up to the capacity: the newest [K] logical offsets hold the samples,
    newest first, and the older readings have moved back by [K]. *)
Lemma recordReadings_shift_short (samples : list Sample) (g : Globals) :
  history_ok (history g) ->
  Z.of_nat (length samples) <= HISTORY_SIZE ->
  exists g' calls,
    recordReadings samples g = Done tt g' calls /\
    history_ok (history g') /\
    forall (ch : Channel) (j : nat),
      Z.of_nat j < HISTORY_SIZE ->
      channel_array ch (history g') !! Z.to_nat (plotIndex g' (Z.of_nat j)) =
      if decide (j < length samples)%nat
      then sample_reading ch <$> samples !! (length samples - 1 - j)%nat
      else channel_array ch (history g)
             !! Z.to_nat (plotIndex g (Z.of_nat (j - length samples))).
Proof.
  intros Hok Hlen.
  destruct (recordReadings_total samples g Hok) as (g' & calls & Hrun & Hok').
  exists g', calls. split; [exact Hrun|]. split; [exact Hok'|].
  intros ch j Hj.
  destruct (recordReadings_slots ch samples g Hok Hlen)
    as (g2 & calls2 & Hrun2 & _ & Hidx & Hslots & Hframe).
  rewrite Hrun in Hrun2. injection Hrun2 as <- <-.
  assert (Hi : 0 <= historyIndex (history g) < HISTORY_SIZE) by apply Hok.
  assert (Hslot : plotIndex g' (Z.of_nat j) =
            (historyIndex (history g) + (Z.of_nat (length samples) - 1 - Z.of_nat j))
              mod HISTORY_SIZE).
  { rewrite plotIndex_mod by first [exact Hok' | lia]. rewrite Hidx.
    replace ((historyIndex (history g) + Z.of_nat (length samples)) mod HISTORY_SIZE
             - 1 - Z.of_nat j)
      with ((historyIndex (history g) + Z.of_nat (length samples)) mod HISTORY_SIZE
            - (1 + Z.of_nat j)) by lia.
    rewrite Zminus_mod_idemp_l. f_equal. lia. }
  rewrite Hslot. destruct (decide (j < length samples)%nat) as [Hin|Hout].
  - destruct (samples !! (length samples - 1 - j)%nat) as [sm|] eqn:Hl.
    + cbn. rewrite <- (Hslots _ _ Hl). do 3 f_equal. lia.
    + apply lookup_ge_None in Hl. lia.
  - rewrite Hframe.
    + rewrite plotIndex_mod by first [exact Hok | lia]. do 3 f_equal. lia.
    + apply Z.mod_pos_bound. lia.
    + intros i Hik Heq.
      replace (historyIndex (history g) + Z.of_nat i)
        with (historyIndex (history g)
              + (Z.of_nat (length samples) - 1 - Z.of_nat j)
              + (Z.of_nat i + Z.of_nat j + 1 - Z.of_nat (length samples))) in Heq by lia.
      symmetry in Heq. apply mod_shift_neq in Heq; [exact Heq|lia].
Qed.

Lemma recordReadings_shift (samples : list Sample) (g : Globals) :
  history_ok (history g) ->
  exists g' calls,
    recordReadings samples g = Done tt g' calls /\
    history_ok (history g') /\
    forall (ch : Channel) (j : nat),
      Z.of_nat j < HISTORY_SIZE ->
      channel_array ch (history g') !! Z.to_nat (plotIndex g' (Z.of_nat j)) =
      if decide (j < length samples)%nat
      then sample_reading ch <$> samples !! (length samples - 1 - j)%nat
      else channel_array ch (history g)
             !! Z.to_nat (plotIndex g (Z.of_nat (j - length samples))).
Proof.
  intros Hok.
  assert (Hpos : 0 < HISTORY_SIZE) by (destruct Hok as (_ & _ & _ & Hi); lia).
  destruct (Z.le_gt_cases (Z.of_nat (length samples)) HISTORY_SIZE) as [Hshort|Hlong].
  { apply recordReadings_shift_short; assumption. }
  set (n := (length samples - Z.to_nat HISTORY_SIZE)%nat).
  assert (Hdrop : length (drop n samples) = Z.to_nat HISTORY_SIZE)
    by (rewrite length_drop; unfold n; lia).
  destruct (recordReadings_total (take n samples) g Hok) as (g1 & c1 & Hrun1 & Hok1).
  destruct (recordReadings_shift_short (drop n samples) g1 Hok1)
    as (g' & c2 & Hrun2 & Hok' & Hat); [lia|].
  exists g', (c1 ++ c2). split.
  { rewrite <- (take_drop n samples) at 1.
    rewrite recordReadings_app, Hrun1, Hrun2. reflexivity. }
  split; [exact Hok'|].
  intros ch j Hj. rewrite (Hat ch j Hj).
  rewrite !decide_True by lia.
  rewrite lookup_drop.
  replace (n + (length (drop n samples) - 1 - j))%nat
    with (length samples - 1 - j)%nat by (rewrite Hdrop; unfold n; lia).
  reflexivity.
Qed.

(** X6.  The ring buffer as a shift register.  After any number [K] of readings is
    recorded, from any state, every logical offset [j] below the capacity
    holds, in each channel, the [j]-th newest of them while [j < K], and
    beyond that the reading that was at offset [j - K] before: a reading is
    kept until it is pushed past offset [HISTORY_SIZE - 1], and then it is
    gone. *)
Theorem ring_buffer_shifts (samples : list Sample) (g : Globals) :
  history_ok (history g) ->
  exists g' calls,
    recordReadings samples g = Done tt g' calls /\
    history_ok (history g') /\
    forall (ch : Channel) (j : nat),
      Z.of_nat j < HISTORY_SIZE ->
      channel_array ch (history g') !! Z.to_nat (plotIndex g' (Z.of_nat j)) =
      if decide (j < length samples)%nat
      then sample_reading ch <$> samples !! (length samples - 1 - j)%nat
      else channel_array ch (history g)
             !! Z.to_nat (plotIndex g (Z.of_nat (j - length samples))).
Proof. apply recordReadings_shift. Qed.

(** ** What the readers see *)

Lemma load_ok {A} (arr : list A) (i : Z) (v : A) (g : Globals) :
  0 <= i -> arr !! Z.to_nat i = Some v -> load arr i g = Done v g [].
Proof.
  intros Hi Hl. unfold load. rewrite in_bounds_ok, Hl; [reflexivity|].
  apply lookup_lt_Some in Hl. lia.
Qed.

Lemma plotIndex_range (g : Globals) (j : Z) :
  history_ok (history g) -> 0 <= j < HISTORY_SIZE ->
  0 <= plotIndex g j < HISTORY_SIZE.
Proof.
  intros Hok Hj. rewrite plotIndex_mod by assumption.
  apply Z.mod_pos_bound. lia.
Qed.

Lemma for_each_load {A} (arr : list A) (index : Z -> Z) (l : list Z) (g : Globals) :
  Forall (fun i => 0 <= index i < Z.of_nat (length arr)) l ->
  exists vs,
    for_each (fun i => load arr (index i)) l g = Done vs g [] /\
    Forall2 (fun i v => arr !! Z.to_nat (index i) = Some v) l vs.
Proof.
  induction 1 as [|i l Hi Hl (vs & Hrun & Hvs)].
  - exists []. split; [reflexivity|constructor].
  - destruct (lookup_lt_is_Some_2 arr (Z.to_nat (index i))) as [v Hv]; [lia|].
    exists (v :: vs). split.
    + cbn [for_each]. cbv beta delta [mbind M_bind bind].
      rewrite (load_ok arr (index i) v g) by (lia || exact Hv). rewrite Hrun. reflexivity.
    + constructor; assumption.
Qed.

(** The slot [handleLatestData] and the page functions read as newest is the
    one the last recorded reading went to. *)
Lemma latest_after_recorded (now currentTime : Z) (bme : BmeData) (g g2 : Globals) :
  history_ok (history g) ->
  history g2 = history (recorded now currentTime bme g) ->
  forall ch : Channel,
    channel_array ch (history g2) !! Z.to_nat (currentIndex g2) =
    Some (mkReading currentTime (channel_value ch bme)) /\
    0 <= currentIndex g2.
Proof.
  intros Hok Hh ch. pose proof Hok as (_ & _ & _ & Hi).
  assert (Hcur : currentIndex g2 = historyIndex (history g)).
  { unfold currentIndex. rewrite Hh. unfold recorded. cbn.
    rewrite rem_nonneg by lia.
    destruct (Z.eq_dec (historyIndex (history g) + 1) HISTORY_SIZE) as [He|Hne].
    - rewrite He, Z_mod_same_full. cbn. lia.
    - rewrite Z.mod_small by lia.
      destruct (Z.eqb_spec (historyIndex (history g) + 1) 0); lia. }
  rewrite Hcur, Hh, recorded_channel. split; [|lia].
  apply list_lookup_insert_eq.
  pose proof (channel_length ch (history g) Hok). lia.
Qed.

(** X7.  A pass that finishes a read successfully makes [GET /data/latest] serve
    that reading: its temperature, humidity and pressure in hPa, with the
    gas cache as the pass left it; and when the pass ended a gas measurement
    with a positive resistance, the cache is that resistance in kOhm,
    stamped with the time of the reading. *)
Theorem latest_serves_the_reading_just_taken
    (g : Globals) (now begin_result currentTime : Z) (bme : BmeData) :
  history_ok (history g) ->
  exists g' calls,
    handleSensorReadings now begin_result (Some bme) currentTime g = Done tt g' calls /\
    (In bme_endReading calls ->
     handleLatestData g' =
       Done tt g'
         [server_send 200 "application/json"
            (LatestJson (temperature bme) (humidity bme) (div_100f (pressure bme))
               (lastValidGasReading (sensor g')) (lastGasReadTimestamp (sensor g')))] /\
     (currentSensorState (sensor g) = GAS_MEASUREMENT ->
      0 < gas_resistance bme ->
      lastValidGasReading (sensor g') = div_1000f (gas_resistance bme) /\
      lastGasReadTimestamp (sensor g') = currentTime)).
Proof.
  intros Hok.
  assert (Hlatest : forall g2 : Globals,
            history g2 = history (recorded now currentTime bme g) ->
            handleLatestData g2 =
            Done tt g2
              [server_send 200 "application/json"
                 (LatestJson (temperature bme) (humidity bme) (div_100f (pressure bme))
                    (lastValidGasReading (sensor g2)) (lastGasReadTimestamp (sensor g2)))]).
  { intros g2 Hh.
    destruct (latest_after_recorded now currentTime bme g g2 Hok Hh Temp) as [Ht H0].
    destruct (latest_after_recorded now currentTime bme g g2 Hok Hh Humi) as [Hhu _].
    destruct (latest_after_recorded now currentTime bme g g2 Hok Hh Pres) as [Hp _].
    cbn [channel_array channel_value] in Ht, Hhu, Hp.
    unfold handleLatestData. cbv beta iota delta [mbind M_bind bind get].
    rewrite (load_ok _ _ _ g2 H0 Ht), (load_ok _ _ _ g2 H0 Hhu), (load_ok _ _ _ g2 H0 Hp).
    reflexivity. }
  unfold handleSensorReadings.
  destruct g as [h [st dl lg cs gv gt] mn bt ec].
  destruct st; run; repeat (split_test; run);
    try (rewrite recordReading_run by exact Hok; run).
  all: eexists _, _; (split; [reflexivity|]).
  all: intros Hin; cbn in Hin;
       repeat match goal with
         | H : _ \/ _ |- _ => destruct H
         | H : False |- _ => destruct H
         end; try congruence.
  all: split; [rewrite Hlatest by reflexivity; reflexivity|].
  all: cbn; intros Hst Hgas; try congruence.
  all: unfold recorded, recorded_sensor; cbn.
  all: assert (Hp : (0 <? gas_resistance bme) = true) by (apply Z.ltb_lt; exact Hgas).
  all: rewrite Hp; split; reflexivity.
Qed.

(** [handleData] for a window that fits in the buffer, point by point. *)
Lemma handleData_points (g : Globals) (args : gmap string string) (fuel : nat) :
  history_ok (history g) ->
  CHUNK_SIZE <= HISTORY_SIZE ->
  (2 <= fuel)%nat ->
  requested_offset args + CHUNK_SIZE <= HISTORY_SIZE ->
  exists points,
    handleData fuel args g =
      Done tt g
        [server_send 200 "application/json"
           (DataJson ((fun pt => pt.1.1) <$> points)
                     ((fun pt => pt.1.2) <$> points)
                     ((fun pt => pt.2) <$> points))] /\
    forall i : nat,
      Z.of_nat i < CHUNK_SIZE ->
      points !! i =
      slot_point g (plotIndex g (requested_offset args + CHUNK_SIZE - 1 - Z.of_nat i)).
Proof.
  intros Hok Hchunk Hfuel Hfit.
  assert (Hc : CHUNK_SIZE = 200) by reflexivity.
  assert (Hpos : 0 < HISTORY_SIZE) by lia.
  pose proof (handleData_offset_range args Hpos) as Hoff.
  pose proof Hok as (Ht & Hh & Hp & Hi).
  set (offset := requested_offset args) in *.
  set (start := (historyIndex (history g) - CHUNK_SIZE - offset) mod HISTORY_SIZE).
  assert (Hstart : 0 <= start < HISTORY_SIZE) by (apply Z.mod_pos_bound; lia).
  assert (Hlog : forall i, 0 <= i < CHUNK_SIZE ->
            chunk_index start i = plotIndex g (offset + CHUNK_SIZE - 1 - i)).
  { intros i Hi0. rewrite chunk_index_mod by lia. unfold start.
    rewrite Zplus_mod_idemp_l. rewrite plotIndex_mod by first [exact Hok | lia].
    f_equal. lia. }
  assert (Hin : Forall (fun i => 0 <= chunk_index start i < HISTORY_SIZE)
                  (seqZ 0 CHUNK_SIZE)).
  { apply Forall_forall. intros i Hel. apply elem_of_seqZ in Hel.
    rewrite chunk_index_mod by lia. apply Z.mod_pos_bound. lia. }
  destruct (for_each_chunk_point start (seqZ 0 CHUNK_SIZE) g Hok Hin)
    as (points & Hrun & Hpoints).
  exists points. split.
  { unfold handleData. cbv beta iota zeta delta [mbind M_bind bind get].
    fold offset. rewrite chunk_start_mod by assumption. fold start.
    cbv beta iota. rewrite Hrun. reflexivity. }
  intros i Hi0.
  destruct (Forall2_lookup_l _ _ _ i (0 + Z.of_nat i) Hpoints) as (pt & Hpt & Hslot).
  { apply lookup_seqZ_lt. exact Hi0. }
  rewrite Hpt, <- Hslot. f_equal. rewrite Z.add_0_l. apply Hlog. lia.
Qed.

(** The three points of a sample. *)
Lemma slot_point_of_lookups (g : Globals) (p : Z) (o : option Sample) :
  (forall ch, channel_array ch (history g) !! Z.to_nat p = sample_reading ch <$> o) ->
  slot_point g p =
  (fun sm => (json_point (sample_reading Temp sm),
              json_point (sample_reading Humi sm),
              json_point (sample_reading Pres sm))) <$> o.
Proof.
  intros Hch. unfold slot_point.
  pose proof (Hch Temp) as Ht. pose proof (Hch Humi) as Hh. pose proof (Hch Pres) as Hp.
  cbn [channel_array] in Ht, Hh, Hp. rewrite Ht, Hh, Hp.
  destruct o; reflexivity.
Qed.

(** X8.  [GET /data] after readings were recorded: when the window asked for lies
    within the readings ([offset + 200 <= K]) and within the buffer, its 200
    points are those readings in the order they were taken, the last point
    being the reading [offset] places before the newest; [x] is the time of
    the reading in milliseconds. *)
Theorem data_window_is_chronological
    (samples : list Sample) (g : Globals) (args : gmap string string) (fuel : nat) :
  history_ok (history g) ->
  CHUNK_SIZE <= HISTORY_SIZE ->
  (2 <= fuel)%nat ->
  requested_offset args + CHUNK_SIZE <= HISTORY_SIZE ->
  requested_offset args + CHUNK_SIZE <= Z.of_nat (length samples) ->
  exists g' calls points,
    recordReadings samples g = Done tt g' calls /\
    handleData fuel args g' =
      Done tt g'
        [server_send 200 "application/json"
           (DataJson ((fun pt => pt.1.1) <$> points)
                     ((fun pt => pt.1.2) <$> points)
                     ((fun pt => pt.2) <$> points))] /\
    forall i : nat,
      Z.of_nat i < CHUNK_SIZE ->
      points !! i =
      (fun sm => (json_point (sample_reading Temp sm),
                  json_point (sample_reading Humi sm),
                  json_point (sample_reading Pres sm)))
        <$> samples !! (length samples
                        - Z.to_nat (requested_offset args + CHUNK_SIZE) + i)%nat.
Proof.
  intros Hok Hchunk Hfuel Hfit Hmany.
  assert (Hc : CHUNK_SIZE = 200) by reflexivity.
  assert (Hpos : 0 < HISTORY_SIZE) by lia.
  pose proof (handleData_offset_range args Hpos) as Hoff.
  destruct (recordReadings_shift samples g Hok) as (g' & calls & Hrun & Hok' & Hat).
  destruct (handleData_points g' args fuel Hok' Hchunk Hfuel Hfit) as (points & Hdata & Hpts).
  exists g', calls, points. split; [exact Hrun|]. split; [exact Hdata|].
  intros i Hi. rewrite (Hpts i Hi).
  set (j := Z.to_nat (requested_offset args + CHUNK_SIZE - 1 - Z.of_nat i)).
  replace (requested_offset args + CHUNK_SIZE - 1 - Z.of_nat i) with (Z.of_nat j)
    by (unfold j; lia).
  apply slot_point_of_lookups. intros ch.
  rewrite (Hat ch j) by (unfold j; lia).
  rewrite decide_True by (unfold j; lia).
  do 2 f_equal. unfold j. lia.
Qed.

(** [drawPlotPage] when the buffer has at least 82 slots: no read leaves the
    array, and column [x = k + 1] shows logical offset [81 - k]. *)
Lemma drawPlotPage_reads_run (ch : Channel) (g : Globals) :
  history_ok (history g) ->
  82 <= HISTORY_SIZE ->
  exists newest scanned plotted,
    drawPlotPage_reads (channel_array ch (history g)) g =
      Done (newest, scanned, plotted) g [] /\
    channel_array ch (history g) !! Z.to_nat (plotIndex g 0) = Some newest /\
    length plotted = 82%nat /\
    forall k : nat,
      (k < 82)%nat ->
      plotted !! k =
      channel_array ch (history g) !! Z.to_nat (plotIndex g (81 - Z.of_nat k)).
Proof.
  intros Hok Hbig.
  pose proof (channel_length ch (history g) Hok) as Hlen.
  assert (Hrange : forall j, 0 <= j < 82 ->
            0 <= plotIndex g j < Z.of_nat (length (channel_array ch (history g)))).
  { intros j Hj. rewrite Hlen. apply plotIndex_range; [exact Hok|lia]. }
  destruct (lookup_lt_is_Some_2 (channel_array ch (history g)) (Z.to_nat (plotIndex g 0)))
    as [newest Hnew]; [specialize (Hrange 0); lia|].
  destruct (for_each_load (channel_array ch (history g)) (plotIndex g) (seqZ 0 82) g)
    as (scanned & Hscan & _).
  { apply Forall_forall. intros i Hel. apply elem_of_seqZ in Hel. apply Hrange. lia. }
  destruct (for_each_load (channel_array ch (history g)) (fun x => plotIndex g (82 - x))
              (seqZ 1 82) g) as (plotted & Hplot & Hplotted).
  { apply Forall_forall. intros i Hel. apply elem_of_seqZ in Hel. apply Hrange. lia. }
  exists newest, scanned, plotted. split.
  { unfold drawPlotPage_reads. cbv beta iota delta [mbind mret M_bind M_ret bind ret get].
    rewrite (load_ok _ (currentIndex g) newest g).
    - rewrite Hscan, Hplot. reflexivity.
    - rewrite currentIndex_plotIndex by exact Hok. specialize (Hrange 0). lia.
    - rewrite currentIndex_plotIndex by exact Hok. exact Hnew. }
  split; [exact Hnew|]. split.
  { rewrite <- (Forall2_length _ _ _ Hplotted). apply length_seqZ. }
  intros k Hk.
  destruct (Forall2_lookup_l _ _ _ k (1 + Z.of_nat k) Hplotted) as (v & Hv & Hslot).
  { apply lookup_seqZ_lt. lia. }
  rewrite Hv, <- Hslot. do 3 f_equal. lia.
Qed.

(** X9.  The plot pages after readings were recorded: with at least 82 slots and
    at least 82 readings, [drawPlotPage] reads no slot outside the array, its
    title shows the newest reading, and its 82 columns show the last 82
    readings in the order they were taken, the newest rightmost. *)
Theorem plot_shows_the_last_82_readings
    (ch : Channel) (samples : list Sample) (g : Globals) :
  history_ok (history g) ->
  82 <= HISTORY_SIZE ->
  (82 <= length samples)%nat ->
  exists g' calls newest scanned plotted,
    recordReadings samples g = Done tt g' calls /\
    drawPlotPage_reads (channel_array ch (history g')) g' =
      Done (newest, scanned, plotted) g' [] /\
    Some newest = sample_reading ch <$> last samples /\
    length plotted = 82%nat /\
    forall k : nat,
      (k < 82)%nat ->
      plotted !! k = sample_reading ch <$> samples !! (length samples - 82 + k)%nat.
Proof.
  intros Hok Hbig Hmany.
  destruct (recordReadings_shift samples g Hok) as (g' & calls & Hrun & Hok' & Hat).
  destruct (drawPlotPage_reads_run ch g' Hok' Hbig)
    as (newest & scanned & plotted & Hdraw & Hnew & Hlen & Hcols).
  exists g', calls, newest, scanned, plotted.
  split; [exact Hrun|]. split; [exact Hdraw|]. split.
  { rewrite <- Hnew. pose proof (Hat ch 0%nat ltac:(lia)) as H0.
    change (Z.of_nat 0) with 0 in H0. rewrite H0.
    rewrite decide_True by lia. rewrite last_lookup. do 2 f_equal. lia. }
  split; [exact Hlen|].
  intros k Hk. rewrite (Hcols k Hk).
  replace (81 - Z.of_nat k) with (Z.of_nat (81 - k)) by lia.
  rewrite (Hat ch (81 - k)%nat) by lia.
  rewrite decide_True by lia. do 2 f_equal. lia.
Qed.

(** ** Settings across a restart *)

Lemma loadSettings_run (nvs : gmap string Z) (g : Globals) :
  loadSettings nvs g =
  Done tt
    (with_menu
       (with_blueVal (to_uint8 (default 10 (nvs !! "led_b")))
          (with_greenVal (to_uint8 (default 0 (nvs !! "led_g")))
             (with_redVal (to_uint8 (default 10 (nvs !! "led_r")))
                (with_lcdBrightness (to_int32 (default 128 (nvs !! "brightness")))
                   (menu g))))) g)
    [preferences_begin "weather-stn" true; preferences_end].
Proof. reflexivity. Qed.

Lemma to_uint8_small (z : Z) : 0 <= z <= 255 -> to_uint8 z = z.
Proof. intros Hz. unfold to_uint8. apply Z.mod_small. lia. Qed.

Lemma to_int32_small (z : Z) : - 2 ^ 31 <= z < 2 ^ 31 -> to_int32 z = z.
Proof. intros Hz. unfold to_int32. rewrite Z.mod_small by lia. lia. Qed.

(** X10.  The colour saved with [GET /rgb/save] is the colour [loadSettings] finds
    at the next start, the stored brightness is untouched by the save, and a
    colour set with [GET /rgb/set] alone leaves the store as it was: after a
    restart the settings are those before the request. *)
Theorem saved_colour_survives_restart (g g0 : Globals) (nvs : gmap string Z) :
  0 <= redVal (menu g) <= 255 ->
  0 <= greenVal (menu g) <= 255 ->
  0 <= blueVal (menu g) <= 255 ->
  (exists g1,
     loadSettings (nvs_after (calls_of handleRgbSave g) nvs) g0 =
       Done tt g1 [preferences_begin "weather-stn" true; preferences_end] /\
     redVal (menu g1) = redVal (menu g) /\
     greenVal (menu g1) = greenVal (menu g) /\
     blueVal (menu g1) = blueVal (menu g) /\
     lcdBrightness (menu g1) = to_int32 (default 128 (nvs !! "brightness"))) /\
  (forall args,
     loadSettings (nvs_after (calls_of (handleRgbSet args) g) nvs) g0 =
     loadSettings nvs g0).
Proof.
  intros Hr Hg Hb. split.
  - eexists. split; [apply loadSettings_run|].
    unfold calls_of, nvs_after, handleRgbSave. run.
    rewrite lookup_insert_eq.
    rewrite (lookup_insert_ne _ "led_b" "led_g") by discriminate.
    rewrite lookup_insert_eq.
    rewrite (lookup_insert_ne _ "led_b" "led_r") by discriminate.
    rewrite (lookup_insert_ne _ "led_g" "led_r") by discriminate.
    rewrite lookup_insert_eq.
    rewrite !lookup_insert_ne by discriminate.
    cbn. rewrite !to_uint8_small by assumption. repeat split; reflexivity.
  - intros args. unfold calls_of. rewrite handleRgbSet_run.
    destruct (args !! "r"), (args !! "g"), (args !! "b"); reflexivity.
Qed.

(** ** Edit modes *)

(** X11.  A registered click that leaves an edit mode stores exactly the value
    being shown, and leaves that value and the page as they are: on the
    settings page the brightness goes to the key "brightness"; on the RGB
    page, with the blue channel selected, the three channels go to "led_r",
    "led_g" and "led_b".  A turn of the knob registered in the same poll is
    not applied. *)
Theorem click_exit_stores_the_value_shown
    (g : Globals) (reading millis1 millis2 : Z) (nvs : gmap string Z) :
  clicked g reading millis1 millis2 = true ->
  (currentPage (menu g) = 5 ->
   brightnessEditMode (menu g) = true ->
   exists g' calls,
     handleEncoder reading millis1 millis2 g = Done tt g' calls /\
     brightnessEditMode (menu g') = false /\
     currentPage (menu g') = 5 /\
     lcdBrightness (menu g') = lcdBrightness (menu g) /\
     nvs_after calls nvs = <["brightness" := lcdBrightness (menu g)]> nvs) /\
  (currentPage (menu g) = 6 ->
   rgbEditMode (menu g) = true ->
   currentRgbSelectState (menu g) = SELECT_B ->
   exists g' calls,
     handleEncoder reading millis1 millis2 g = Done tt g' calls /\
     rgbEditMode (menu g') = false /\
     currentPage (menu g') = 6 /\
     redVal (menu g') = redVal (menu g) /\
     greenVal (menu g') = greenVal (menu g) /\
     blueVal (menu g') = blueVal (menu g) /\
     nvs_after calls nvs =
       <["led_b" := blueVal (menu g)]>
         (<["led_g" := greenVal (menu g)]> (<["led_r" := redVal (menu g)]> nvs))).
Proof.
  intros Hclick.
  destruct (debounce_run g reading millis1 millis2) as [bt Hd].
  rewrite Hclick in Hd.
  assert (Hrun : handleEncoder reading millis1 millis2 g = navigate true (with_button bt g)).
  { unfold handleEncoder. cbv beta delta [mbind M_bind bind]. rewrite Hd.
    destruct (navigate true (with_button bt g)); reflexivity. }
  rewrite Hrun. clear Hrun Hd Hclick.
  destruct g as [h sn [page redraw oldpos bright bem r gr bl sel rem] btn ec].
  split.
  - cbn. intros -> ->. unfold navigate. run.
    repeat (split_test; run); try lia.
    all: eexists _, _; (split; [reflexivity|]); cbn; repeat split; reflexivity.
  - cbn. intros -> -> ->. unfold navigate. destruct bem; run.
    all: repeat (split_test; run); try lia.
    all: eexists _, _; (split; [reflexivity|]); cbn; repeat split; reflexivity.
Qed.

(** ** The push button *)



(** ** The knob *)

Lemma to_uint32_duty (v : Z) : 0 <= v <= 255 -> to_uint32 (256 - v) = 256 - v.
Proof. intros Hv. unfold to_uint32. apply Z.mod_small. lia. Qed.

Ltac bound_bytes :=
  repeat match goal with
    | |- context [to_uint8 ?z] =>
        let H := fresh "Hbyte" in
        pose proof (to_uint8_range z) as H;
        generalize dependent (to_uint8 z); intros
    end.

(** [navigate] keeps the menu in range, makes calls in range only, and
    keeps the readings, the sensor state and a pending redraw. *)
Lemma navigate_range (b : bool) (g : Globals) :
  menu_ok (menu g) ->
  exists g' calls,
    navigate b g = Done tt g' calls /\
    menu_ok (menu g') /\ Forall call_in_range calls /\
    history g' = history g /\ sensor g' = sensor g /\
    (needsRedraw (menu g) = true -> needsRedraw (menu g') = true).
Proof.
  destruct g as [h sn [page redraw oldpos bright bem r gr bl sel rem] bt ec].
  unfold menu_ok, NUM_PAGES. cbn. intros (Hp & Hb & Hr & Hg & Hbl).
  unfold navigate. cbv zeta. change (NUM_PAGES - 1) with 6.
  pose proof (constrain_range (to_int32 (ec `quot` 4)) 0 255 ltac:(lia)) as Hv.
  pose proof (constrain_range
                (to_int32 (page + (to_int32 (ec `quot` 4) - oldpos))) 0 6 ltac:(lia)) as Hq.
  destruct b, bem, rem, sel; run.
  all: repeat (split_test; run).
  all: eexists _, _; (split; [reflexivity|]); cbn.
  all: rewrite ?to_uint32_duty by lia.
  all: bound_bytes.
  all: split; [lia|].
  all: split; [repeat constructor; cbn; lia|auto].
Qed.

(** X13.  Whatever a poll of the knob registers, the page stays in [0, 6],
    brightness and colour stay in [0, 255], and the calls to the backlight,
    the pixel and the store carry values in range: the duty in [1, 256],
    every colour component and every stored value in [0, 255]. *)
Theorem knob_keeps_settings_in_range (g : Globals) (reading millis1 millis2 : Z) :
  menu_ok (menu g) ->
  exists g' calls,
    handleEncoder reading millis1 millis2 g = Done tt g' calls /\
    menu_ok (menu g') /\ Forall call_in_range calls.
Proof.
  intros Hok.
  destruct (debounce_run g reading millis1 millis2) as [bt Hd].
  destruct (navigate_range (clicked g reading millis1 millis2) (with_button bt g) Hok)
    as (g' & calls & Hn & Hm & Hc & _).
  exists g', calls. split; [|auto].
  unfold handleEncoder. cbv beta delta [mbind M_bind bind]. rewrite Hd, Hn. reflexivity.
Qed.

Lemma handleEncoder_navigate (g : Globals) (reading millis1 millis2 : Z) :
  exists bt,
    handleEncoder reading millis1 millis2 g =
    navigate (clicked g reading millis1 millis2) (with_button bt g).
Proof.
  destruct (debounce_run g reading millis1 millis2) as [bt Hd]. exists bt.
  unfold handleEncoder. cbv beta delta [mbind M_bind bind]. rewrite Hd.
  destruct (navigate _ (with_button bt g)); reflexivity.
Qed.

Lemma navigate_edit (g : Globals) :
  ~ at_rest g ->
  (currentPage (menu g) = 5 /\ brightnessEditMode (menu g) = true) \/
  (currentPage (menu g) = 6 /\ rgbEditMode (menu g) = true) ->
  navigate false g =
  Done tt (with_menu (turned g) g)
    (if currentPage (menu g) =? 5 then
       [ledc_set_duty (256 - lcdBrightness (turned g)); ledc_update_duty]
     else
       [pixels_setPixelColor 0 (redVal (turned g)) (greenVal (turned g))
          (blueVal (turned g));
        pixels_show]).
Proof.
  destruct g as [h sn [page redraw oldpos bright bem r gr bl sel rem] bt ec].
  unfold at_rest, turned. cbn. intros Hrot Hmode.
  pose proof (constrain_range (to_int32 (ec `quot` 4)) 0 255 ltac:(lia)) as Hv.
  unfold navigate.
  destruct Hmode as [[-> ->]|[-> ->]]; [destruct rem, sel|destruct bem, sel]; run.
  all: repeat (split_test; run); try lia; try congruence.
  all: rewrite ?to_uint32_duty by lia; rewrite ?to_uint8_small by lia; reflexivity.
Qed.

(** X14.  In an edit mode a registered turn without a click sets the selected
    value, and nothing else, to the knob position clamped to [0, 255]: the
    brightness on the settings page, with the backlight duty [256 - value];
    the selected colour channel on the RGB page, with the pixel updated.  The
    page and both edit modes stay, and nothing is written to the store. *)
Theorem turn_in_edit_mode_sets_the_selected_value
    (g : Globals) (reading millis1 millis2 : Z) :
  clicked g reading millis1 millis2 = false ->
  ~ at_rest g ->
  (currentPage (menu g) = 5 /\ brightnessEditMode (menu g) = true) \/
  (currentPage (menu g) = 6 /\ rgbEditMode (menu g) = true) ->
  exists bt calls,
    handleEncoder reading millis1 millis2 g =
      Done tt (with_menu (turned g) (with_button bt g)) calls /\
    calls =
      (if currentPage (menu g) =? 5 then
         [ledc_set_duty (256 - lcdBrightness (turned g)); ledc_update_duty]
       else
         [pixels_setPixelColor 0 (redVal (turned g)) (greenVal (turned g))
            (blueVal (turned g));
          pixels_show]) /\
    existsb is_persist calls = false /\
    currentPage (turned g) = currentPage (menu g) /\
    brightnessEditMode (turned g) = brightnessEditMode (menu g) /\
    rgbEditMode (turned g) = rgbEditMode (menu g) /\
    currentRgbSelectState (turned g) = currentRgbSelectState (menu g).
Proof.
  intros Hclick Hrot Hmode.
  destruct (handleEncoder_navigate g reading millis1 millis2) as [bt Hrun].
  rewrite Hclick in Hrun.
  rewrite (navigate_edit (with_button bt g) Hrot Hmode) in Hrun.
  exists bt. eexists. split; [exact Hrun|]. split; [reflexivity|].
  split; [cbn; destruct (currentPage (menu g) =? 5); reflexivity|].
  clear. destruct g as [h sn [page redraw oldpos bright bem r gr bl sel rem] btn ec].
  unfold turned. cbn.
  destruct (bem && (page =? 5)), sel; repeat split; reflexivity.
Qed.

Lemma quot_detents (b : Z) : Z.quot (b * 4) 4 = b.
Proof. apply Z.quot_mul. lia. Qed.

(** X15.  Entering an edit mode with a click, the knob at rest: the value being
    edited keeps its value, nothing is written to the store, and the encoder
    count is set to four times the value, so that the knob position is the
    value.  On the settings page this starts the brightness edit; on the RGB
    page it starts the edit at the red channel, then moves to green, then to
    blue. *)
Theorem click_enters_edit_at_the_current_value
    (g : Globals) (reading millis1 millis2 : Z) :
  menu_ok (menu g) ->
  at_rest g ->
  clicked g reading millis1 millis2 = true ->
  exists g1 calls,
    handleEncoder reading millis1 millis2 g = Done tt g1 calls /\
    lcdBrightness (menu g1) = lcdBrightness (menu g) /\
    redVal (menu g1) = redVal (menu g) /\
    greenVal (menu g1) = greenVal (menu g) /\
    blueVal (menu g1) = blueVal (menu g) /\
    currentPage (menu g1) = currentPage (menu g) /\
    (currentPage (menu g) = 5 -> brightnessEditMode (menu g) = false ->
     calls = [] /\
     brightnessEditMode (menu g1) = true /\
     to_int32 (Z.quot (encoderCount g1) 4) = lcdBrightness (menu g)) /\
    (currentPage (menu g) = 6 -> rgbEditMode (menu g) = false ->
     calls = [] /\
     rgbEditMode (menu g1) = true /\
     currentRgbSelectState (menu g1) = SELECT_R /\
     to_int32 (Z.quot (encoderCount g1) 4) = redVal (menu g)) /\
    (currentPage (menu g) = 6 -> rgbEditMode (menu g) = true ->
     currentRgbSelectState (menu g) = SELECT_R ->
     calls = [] /\
     rgbEditMode (menu g1) = true /\
     currentRgbSelectState (menu g1) = SELECT_G /\
     to_int32 (Z.quot (encoderCount g1) 4) = greenVal (menu g)) /\
    (currentPage (menu g) = 6 -> rgbEditMode (menu g) = true ->
     currentRgbSelectState (menu g) = SELECT_G ->
     calls = [] /\
     rgbEditMode (menu g1) = true /\
     currentRgbSelectState (menu g1) = SELECT_B /\
     to_int32 (Z.quot (encoderCount g1) 4) = blueVal (menu g)).
Proof.
  intros Hok Hrest Hclick.
  destruct (handleEncoder_navigate g reading millis1 millis2) as [bt Hrun].
  rewrite Hclick in Hrun. rewrite Hrun. clear Hrun Hclick.
  destruct g as [h sn [page redraw oldpos bright bem r gr bl sel rem] btn ec].
  unfold menu_ok, at_rest in *. cbn in Hok, Hrest. destruct Hok as (Hp & Hb & Hr & Hg & Hbl).
  subst oldpos. unfold navigate.
  assert (Hpos : forall v, 0 <= v <= 255 -> to_int32 (Z.quot (v * 4) 4) = v).
  { intros v Hv. rewrite quot_detents. apply to_int32_small. lia. }
  assert (Hpos' : forall v, 0 <= v <= 255 -> to_int32 (Z.quot (to_int32 (v * 4)) 4) = v).
  { intros v Hv. rewrite (to_int32_small (v * 4)) by lia. apply Hpos, Hv. }
  destruct bem, rem, sel; run.
  all: repeat (split_test; run); try lia.
  all: eexists _, _; (split; [reflexivity|]); cbn.
  all: repeat split; intros; try congruence; try lia; auto.
Qed.

(** X16.  After an edit mode is entered the knob position is the selected value
    but [oldEncoderPosition] is still the position before the click, so the
    next poll may register a turn that was not made.  With the value in range
    that poll changes no setting and writes nothing to the store, and it
    leaves the knob at rest. *)
Theorem poll_after_edit_entry_changes_no_value
    (g : Globals) (reading millis1 millis2 : Z) :
  menu_ok (menu g) ->
  clicked g reading millis1 millis2 = false ->
  (currentPage (menu g) = 5 /\ brightnessEditMode (menu g) = true) \/
  (currentPage (menu g) = 6 /\ rgbEditMode (menu g) = true) ->
  to_int32 (Z.quot (encoderCount g) 4) = selected_value (menu g) ->
  exists g' calls,
    handleEncoder reading millis1 millis2 g = Done tt g' calls /\
    lcdBrightness (menu g') = lcdBrightness (menu g) /\
    redVal (menu g') = redVal (menu g) /\
    greenVal (menu g') = greenVal (menu g) /\
    blueVal (menu g') = blueVal (menu g) /\
    currentPage (menu g') = currentPage (menu g) /\
    existsb is_persist calls = false /\
    at_rest g'.
Proof.
  intros Hok Hclick Hmode Hpos.
  destruct (handleEncoder_navigate g reading millis1 millis2) as [bt Hrun].
  rewrite Hclick in Hrun. rewrite Hrun. clear Hrun Hclick.
  destruct g as [h sn [page redraw oldpos bright bem r gr bl sel rem] btn ec].
  unfold menu_ok, at_rest, selected_value in *. cbn in Hok, Hpos, Hmode |- *.
  destruct Hok as (Hp & Hb & Hr & Hg & Hbl).
  assert (Hc : forall v, 0 <= v <= 255 -> constrain v 0 255 = v).
  { intros v Hv. unfold constrain.
    destruct (Z.ltb_spec v 0); [lia|]. destruct (Z.ltb_spec 255 v); [lia|reflexivity]. }
  unfold navigate.
  destruct Hmode as [[-> ->]|[-> ->]]; [destruct rem, sel|destruct bem, sel];
    cbn in Hpos; run; rewrite ?Hpos.
  all: repeat (split_test; run); try lia.
  all: eexists _, _; (split; [reflexivity|]); cbn.
  all: rewrite ?Hc by lia; rewrite ?to_uint8_small by lia.
  all: repeat split; try reflexivity; try lia; try exact Hpos.
Qed.

(** ** The remote console *)

(** X17.  A page digit that changes the page leaves the knob at rest on the new
    page: the next poll without a click changes neither page nor settings
    and calls no driver, so the display stays on the page asked for. *)
Theorem remote_select_leaves_the_knob_at_rest
    (g : Globals) (c : ascii) (rest : string) (reading millis1 millis2 : Z) :
  char_code "0" <= char_code c < char_code "0" + NUM_PAGES ->
  currentPage (menu g) <> char_code c - char_code "0" ->
  exists g1,
    handleSerialInput (String c rest) g = Done tt g1 [] /\
    webSocketEvent WStype_TEXT (String c rest) g = Done tt g1 [] /\
    at_rest g1 /\
    (clicked g1 reading millis1 millis2 = false ->
     exists bt, handleEncoder reading millis1 millis2 g1 = Done tt (with_button bt g1) []).
Proof.
  intros Hc Hne.
  pose proof (handleSerialInput_digit g c rest Hc) as Hrun. cbv zeta in Hrun.
  destruct (Z.eqb_spec (char_code c - char_code "0") (currentPage (menu g))) as [He|_];
    [congruence|].
  eexists. split; [exact Hrun|]. split; [exact Hrun|].
  assert (Hrest : to_int32 (Z.quot ((char_code c - char_code "0") * 4) 4)
                  = char_code c - char_code "0").
  { rewrite quot_detents. apply to_int32_small. unfold NUM_PAGES in Hc. lia. }
  split; [exact Hrest|].
  intros Hclick.
  match goal with |- context [handleEncoder _ _ _ ?g1] =>
    destruct (handleEncoder_navigate g1 reading millis1 millis2) as [bt Hnav] end.
  rewrite Hclick in Hnav. exists bt. rewrite Hnav.
  unfold navigate. cbv beta iota zeta delta [mbind M_bind bind get]. cbn.
  rewrite Hrest, Z.eqb_refl. reflexivity.
Qed.


(** ** One pass of [loop()] *)

Section Loop.
Hypothesis Hchunk : CHUNK_SIZE <= HISTORY_SIZE.

Lemma safe_ret {A} (a : A) : safe (mret a).
Proof.
  intros g Hg. exists a, g, []. split; [reflexivity|]. split; [exact Hg|].
  split; [constructor|auto].
Qed.

Lemma safe_bind {A B} (m : M A) (k : A -> M B) :
  safe m -> (forall a, safe (k a)) -> safe (m ≫= k).
Proof.
  intros Hm Hk g Hg.
  destruct (Hm g Hg) as (a & g1 & c1 & Hrun1 & Hg1 & Hc1 & Hh1 & Hs1 & Hr1).
  destruct (Hk a g1 Hg1) as (b & g2 & c2 & Hrun2 & Hg2 & Hc2 & Hh2 & Hs2 & Hr2).
  exists b, g2, (c1 ++ c2). split.
  - cbv beta delta [mbind M_bind bind]. rewrite Hrun1, Hrun2. reflexivity.
  - split; [exact Hg2|]. split; [apply Forall_app; split; assumption|].
    split; [congruence|]. split; [congruence|auto].
Qed.

Lemma safe_set_encoderCount (v : Z) : safe (set_encoderCount v).
Proof.
  intros g Hg. exists tt, (with_encoderCount v g), []. split; [reflexivity|].
  split; [exact Hg|]. split; [constructor|auto].
Qed.

Lemma handleData_total (fuel : nat) (args : gmap string string) (g : Globals) :
  history_ok (history g) ->
  (2 <= fuel)%nat ->
  exists body, handleData fuel args g = Done tt g [server_send 200 "application/json" body].
Proof.
  intros Hok Hfuel.
  assert (Hc : CHUNK_SIZE = 200) by reflexivity.
  assert (Hpos : 0 < HISTORY_SIZE) by lia.
  pose proof (handleData_offset_range args Hpos) as Hoff.
  pose proof Hok as (Ht & Hh & Hp & Hi).
  set (offset := requested_offset args) in *.
  set (start := (historyIndex (history g) - CHUNK_SIZE - offset) mod HISTORY_SIZE).
  assert (Hstart : 0 <= start < HISTORY_SIZE) by (apply Z.mod_pos_bound; lia).
  assert (Hin : Forall (fun i => 0 <= chunk_index start i < HISTORY_SIZE)
                  (seqZ 0 CHUNK_SIZE)).
  { apply Forall_forall. intros i Hel. apply elem_of_seqZ in Hel.
    rewrite chunk_index_mod by lia. apply Z.mod_pos_bound. lia. }
  destruct (for_each_chunk_point start (seqZ 0 CHUNK_SIZE) g Hok Hin)
    as (points & Hrun & _).
  eexists. unfold handleData. cbv beta iota zeta delta [mbind M_bind bind get].
  fold offset. rewrite chunk_start_mod by assumption. fold start.
  cbv beta iota. rewrite Hrun. reflexivity.
Qed.

Lemma currentIndex_range (g : Globals) :
  history_ok (history g) -> 0 < HISTORY_SIZE -> 0 <= currentIndex g < HISTORY_SIZE.
Proof.
  intros (_ & _ & _ & Hi) Hpos. unfold currentIndex.
  destruct (Z.eqb_spec (historyIndex (history g)) 0); lia.
Qed.

Lemma drawMainPage_reads_run (g : Globals) :
  history_ok (history g) ->
  exists t h p,
    drawMainPage_reads g = Done (t, h, p) g [] /\
    tempHistory (history g) !! Z.to_nat (currentIndex g) = Some t /\
    humiHistory (history g) !! Z.to_nat (currentIndex g) = Some h /\
    presHistory (history g) !! Z.to_nat (currentIndex g) = Some p.
Proof.
  intros Hok. pose proof Hok as (Ht & Hh & Hp & Hi).
  assert (Hc : CHUNK_SIZE = 200) by reflexivity.
  pose proof (currentIndex_range g Hok ltac:(lia)) as Hcur.
  destruct (lookup_lt_is_Some_2 (tempHistory (history g)) (Z.to_nat (currentIndex g)))
    as [t Hlt]; [lia|].
  destruct (lookup_lt_is_Some_2 (humiHistory (history g)) (Z.to_nat (currentIndex g)))
    as [h Hlh]; [lia|].
  destruct (lookup_lt_is_Some_2 (presHistory (history g)) (Z.to_nat (currentIndex g)))
    as [p Hlp]; [lia|].
  exists t, h, p. split; [|auto].
  unfold drawMainPage_reads. cbv beta iota delta [mbind M_bind bind get].
  rewrite (load_ok _ _ _ g (proj1 Hcur) Hlt), (load_ok _ _ _ g (proj1 Hcur) Hlh),
    (load_ok _ _ _ g (proj1 Hcur) Hlp).
  reflexivity.
Qed.

Lemma handleLatestData_total (g : Globals) :
  history_ok (history g) ->
  exists body, handleLatestData g = Done tt g [server_send 200 "application/json" body].
Proof.
  intros Hok. destruct (drawMainPage_reads_run g Hok) as (t & h & p & _ & Hlt & Hlh & Hlp).
  assert (Hc : CHUNK_SIZE = 200) by reflexivity.
  pose proof (currentIndex_range g Hok ltac:(lia)) as Hcur.
  eexists. unfold handleLatestData. cbv beta iota delta [mbind M_bind bind get].
  rewrite (load_ok _ _ _ g (proj1 Hcur) Hlt), (load_ok _ _ _ g (proj1 Hcur) Hlh),
    (load_ok _ _ _ g (proj1 Hcur) Hlp).
  reflexivity.
Qed.

Lemma safe_handleSerialInput (rx : string) : safe (handleSerialInput rx).
Proof.
  intros g Hg. destruct rx as [|c rest]; [exact (safe_ret tt g Hg)|].
  unfold handleSerialInput.
  destruct (Z.leb_spec (char_code "0") (char_code c)) as [Hlo|Hlo];
    [|exact (safe_ret tt g Hg)].
  destruct (Z.ltb_spec (char_code c) (char_code "0" + NUM_PAGES)) as [Hhi|Hhi];
    [|exact (safe_ret tt g Hg)].
  run.
  destruct (Z.eqb_spec (char_code c - char_code "0") (currentPage (menu g))) as [He|Hne];
    [exact (safe_ret tt g Hg)|].
  eexists tt, _, []. split; [reflexivity|].
  destruct Hg as (Hh & Hs & (Hp & Hrest)).
  split; [|split; [constructor|auto]].
  split; [exact Hh|]. split; [exact Hs|]. unfold menu_ok, NUM_PAGES in *. cbn.
  split; [lia|exact Hrest].
Qed.

Lemma safe_webSocketEvent (type : WStype_t) (payload : string) :
  safe (webSocketEvent type payload).
Proof.
  destruct type; try exact (safe_ret tt).
  destruct payload as [|c rest]; [exact (safe_ret tt)|].
  intros g Hg. rewrite webSocketEvent_text_serial. apply safe_handleSerialInput, Hg.
Qed.

Lemma safe_webSocket_loop (events : list (WStype_t * string)) :
  safe (webSocket_loop events).
Proof.
  induction events as [|[type payload] events IH]; [exact (safe_ret tt)|].
  cbn [webSocket_loop]. apply safe_bind; [apply safe_webSocketEvent|intros _; exact IH].
Qed.

Lemma safe_handleEncoder (reading millis1 millis2 : Z) :
  safe (handleEncoder reading millis1 millis2).
Proof.
  intros g (Hh & Hs & Hm).
  destruct (handleEncoder_navigate g reading millis1 millis2) as [bt Hrun].
  destruct (navigate_range (clicked g reading millis1 millis2) (with_button bt g) Hm)
    as (g' & calls & Hn & Hm' & Hc & Hh' & Hs' & Hr').
  exists tt, g', calls. rewrite Hrun. split; [exact Hn|].
  split; [|auto]. cbn in Hh', Hs'. split; [rewrite Hh'; exact Hh|].
  split; [rewrite Hs'; exact Hs|exact Hm'].
Qed.

(** The requests: everything of [safe] but the pending redraw, which
    [handleRgbSet] overwrites. *)
Lemma serve_run (r : Request) (g : Globals) :
  match r with GetData fuel _ => (2 <= fuel)%nat | _ => True end ->
  globals_ok g ->
  exists g' calls,
    serve r g = Done tt g' calls /\ globals_ok g' /\ Forall call_in_range calls /\
    history g' = history g /\ sensor g' = sensor g.
Proof.
  intros Hr Hg. pose proof Hg as (Hh & Hs & Hm).
  destruct r as [fuel args| |args|]; cbn [serve].
  - destruct (handleData_total fuel args g Hh Hr) as [body Hrun].
    eexists g, _. split; [exact Hrun|]. split; [exact Hg|].
    split; [repeat constructor|auto].
  - destruct (handleLatestData_total g Hh) as [body Hrun].
    eexists g, _. split; [exact Hrun|]. split; [exact Hg|].
    split; [repeat constructor|auto].
  - rewrite handleRgbSet_run.
    destruct (args !! "r") as [r|], (args !! "g") as [gr|], (args !! "b") as [b|].
    all: eexists _, _; (split; [reflexivity|]).
    all: try (split; [exact Hg|split; [repeat constructor|auto]]).
    pose proof (to_uint8_range (toInt r)). pose proof (to_uint8_range (toInt gr)).
    pose proof (to_uint8_range (toInt b)).
    destruct Hm as (Hp & Hb & _).
    split; [|split; [repeat constructor; cbn; lia|auto]].
    split; [exact Hh|]. split; [exact Hs|]. unfold menu_ok. cbn. lia.
  - destruct Hm as (Hp & Hb & Hr' & Hg' & Hbl).
    eexists g, _. split; [reflexivity|]. split; [exact Hg|].
    split; [repeat constructor; cbn; lia|auto].
Qed.

Lemma tick_run (t : Tick) (g : Globals) :
  globals_ok g ->
  exists g' calls,
    tick t g = Done tt g' calls /\ globals_ok g' /\ Forall call_in_range calls /\
    (history g' = history g \/
     needsRedraw (menu g') = true /\
     exists bme, tick_end t = Some bme /\
       history g' = history (recorded (tick_now t) (tick_time t) bme g)).
Proof.
  intros (Hh & Hs & Hm). unfold tick.
  destruct (handleSensorReadings_total (tick_now t) (tick_begin t) (tick_end t)
              (tick_time t) g Hh) as (g1 & calls & Hrun & Hh1 & Hs1).
  destruct (handleSensorReadings_frame g (tick_now t) (tick_begin t) (tick_time t)
              (tick_end t) Hh) as (g2 & calls2 & Hrun2 & _ & _ & Hmenu).
  rewrite Hrun in Hrun2. injection Hrun2 as <- <-.
  exists g1, calls. split; [exact Hrun|]. split; [|split].
  - split; [exact Hh1|]. split; [exact (Hs1 Hs)|].
    destruct Hmenu as [[-> _]|[-> _]]; exact Hm.
  - clear -Hrun Hh. revert Hrun. pass_cases g (tick_end t) Hh.
    all: intros Hrun; injection Hrun as <- <-; repeat constructor.
  - destruct Hmenu as [[_ Hsame]|[Hmn Hrec]]; [left; exact Hsame|right].
    split; [rewrite Hmn; reflexivity|exact Hrec].
Qed.

Lemma redraw_run (g : Globals) :
  history_ok (history g) ->
  exists shown g',
    redraw g = Done shown g' [] /\
    history g' = history g /\ sensor g' = sensor g /\
    menu g' = with_needsRedraw false (menu g) /\
    (needsRedraw (menu g) = true ->
     exists d, shown = Some d /\
       forall t h p, d = MainPage t h p ->
         tempHistory (history g) !! Z.to_nat (currentIndex g) = Some t /\
         humiHistory (history g) !! Z.to_nat (currentIndex g) = Some h /\
         presHistory (history g) !! Z.to_nat (currentIndex g) = Some p).
Proof.
  intros Hok.
  assert (Hbig : 82 <= HISTORY_SIZE) by (assert (CHUNK_SIZE = 200) by reflexivity; lia).
  destruct (drawMainPage_reads_run g Hok) as (t & h & p & Hmain & Hlt & Hlh & Hlp).
  destruct (drawPlotPage_reads_run Temp g Hok Hbig) as (n1 & s1 & p1 & Hplot1 & _).
  destruct (drawPlotPage_reads_run Humi g Hok Hbig) as (n2 & s2 & p2 & Hplot2 & _).
  destruct (drawPlotPage_reads_run Pres g Hok Hbig) as (n3 & s3 & p3 & Hplot3 & _).
  cbn [channel_array] in Hplot1, Hplot2, Hplot3.
  unfold redraw. cbv beta iota delta [mbind M_bind bind get].
  destruct g as [hs sn [page [|] oldpos bright bem r gr bl sel rem] bt ec];
    cbn [menu needsRedraw currentPage history] in *.
  2:{ eexists _, _. split; [reflexivity|]. cbn. repeat split; congruence. }
  destruct (Z.eqb_spec page 0);
    [|destruct (Z.eqb_spec page 1);
      [|destruct (Z.eqb_spec page 2); [|destruct (Z.eqb_spec page 3)]]].
  - rewrite Hmain. eexists _, _. split; [reflexivity|]. cbn.
    repeat split; try reflexivity. intros _. eexists. split; [reflexivity|].
    intros t' h' p' Heq. injection Heq as <- <- <-. auto.
  - rewrite Hplot1. eexists _, _. split; [reflexivity|]. cbn.
    repeat split; try reflexivity. intros _. eexists. split; [reflexivity|].
    intros t' h' p' Heq. discriminate Heq.
  - rewrite Hplot2. eexists _, _. split; [reflexivity|]. cbn.
    repeat split; try reflexivity. intros _. eexists. split; [reflexivity|].
    intros t' h' p' Heq. discriminate Heq.
  - rewrite Hplot3. eexists _, _. split; [reflexivity|]. cbn.
    repeat split; try reflexivity. intros _. eexists. split; [reflexivity|].
    intros t' h' p' Heq. discriminate Heq.
  - eexists _, _. split; [reflexivity|]. cbn.
    repeat split; try reflexivity. intros _. eexists. split; [reflexivity|].
    intros t' h' p' Heq. discriminate Heq.
Qed.

Lemma recorded_history (now currentTime : Z) (bme : BmeData) (g1 g2 : Globals) :
  history g1 = history g2 ->
  history (recorded now currentTime bme g1) = history (recorded now currentTime bme g2).
Proof. intros Hh. unfold recorded. cbn. rewrite Hh. reflexivity. Qed.

Lemma loop_run (i : Inputs) (g : Globals) :
  globals_ok g ->
  inputs_ok i ->
  exists shown g' calls,
    loop i g = Done shown g' calls /\
    globals_ok g' /\ Forall call_in_range calls /\
    needsRedraw (menu g') = false /\
    (history g' = history g \/
     exists bme d,
       tick_end (in_tick i) = Some bme /\
       history g' =
         history (recorded (tick_now (in_tick i)) (tick_time (in_tick i)) bme g) /\
       shown = Some d /\
       forall t h p, d = MainPage t h p ->
         t = mkReading (tick_time (in_tick i)) (temperature bme) /\
         h = mkReading (tick_time (in_tick i)) (humidity bme) /\
         p = mkReading (tick_time (in_tick i)) (div_100f (pressure bme))).
Proof.
  intros Hg Hi.
  assert (Hserve : exists g1 c1,
            match in_request i with Some r => serve r | None => mret tt end g
              = Done tt g1 c1 /\
            globals_ok g1 /\ Forall call_in_range c1 /\ history g1 = history g).
  { unfold inputs_ok in Hi. destruct (in_request i) as [r|].
    - destruct (serve_run r g) as (g1 & c1 & Hrun & Hg1 & Hc1 & Hh1 & _);
        [destruct r; auto|exact Hg|].
      exists g1, c1. auto.
    - exists g, []. split; [reflexivity|]. split; [exact Hg|].
      split; [constructor|reflexivity]. }
  destruct Hserve as (g1 & c1 & Hrun1 & Hg1 & Hc1 & Hh1).
  destruct (safe_webSocket_loop (in_ws i) g1 Hg1)
    as ([] & g2 & c2 & Hrun2 & Hg2 & Hc2 & Hh2 & _).
  destruct (tick_run (in_tick i) g2 Hg2) as (g3' & c3 & Hrun3 & Hg3' & Hc3 & Hrec).
  set (g3 := with_encoderCount (encoderCount g3' + in_counts i) g3').
  assert (Hg3 : globals_ok g3) by exact Hg3'.
  destruct (safe_handleEncoder (in_reading i) (in_millis1 i) (in_millis2 i) g3 Hg3)
    as ([] & g4 & c4 & Hrun4 & Hg4 & Hc4 & Hh4 & Hs4 & Hr4).
  destruct (safe_handleSerialInput (in_rx i) g4 Hg4)
    as ([] & g5 & c5 & Hrun5 & Hg5 & Hc5 & Hh5 & Hs5 & Hr5).
  destruct (redraw_run g5 (proj1 Hg5)) as (shown & g6 & Hrun6 & Hh6 & Hs6 & Hm6 & Hshown).
  exists shown, g6, (c1 ++ c2 ++ c3 ++ c4 ++ c5).
  split.
  { unfold loop.
    cbv beta iota delta [mbind M_bind bind get set_encoderCount modify].
    rewrite Hrun1, Hrun2, Hrun3. cbv beta iota. fold g3.
    rewrite Hrun4, Hrun5, Hrun6.
    rewrite !app_nil_r, !app_nil_l. reflexivity. }
  split.
  { destruct Hg5 as (H1 & H2 & H3). split; [rewrite Hh6; exact H1|].
    split; [rewrite Hs6; exact H2|]. rewrite Hm6. exact H3. }
  split; [repeat (apply Forall_app; split); assumption|].
  split; [rewrite Hm6; reflexivity|].
  assert (Hh3 : history g3 = history g3') by reflexivity.
  assert (Hh65 : history g6 = history g3') by congruence.
  destruct Hrec as [Hsame|(Hredraw & bme & Hend & Hrec)]; [left; congruence|right].
  assert (Hh2g : history g2 = history g) by congruence.
  destruct (Hshown (Hr5 (Hr4 Hredraw))) as (d & -> & Hmain).
  exists bme, d. split; [exact Hend|].
  split; [rewrite Hh65, Hrec; apply recorded_history, Hh2g|].
  split; [reflexivity|].
  intros t h p Hd. destruct (Hmain t h p Hd) as (Ht & Hhu & Hp).
  assert (Hnew : history g5 =
                history (recorded (tick_now (in_tick i)) (tick_time (in_tick i)) bme g2))
    by congruence.
  destruct (latest_after_recorded _ _ bme g2 g5 (proj1 Hg2) Hnew Temp) as [Ht' _].
  destruct (latest_after_recorded _ _ bme g2 g5 (proj1 Hg2) Hnew Humi) as [Hhu' _].
  destruct (latest_after_recorded _ _ bme g2 g5 (proj1 Hg2) Hnew Pres) as [Hp' _].
  cbn [channel_array channel_value] in Ht', Hhu', Hp'.
  repeat split; congruence.
Qed.

Lemma loops_run (inputs : list Inputs) (g : Globals) :
  globals_ok g ->
  Forall inputs_ok inputs ->
  exists g' calls,
    loops inputs g = Done tt g' calls /\
    globals_ok g' /\ Forall call_in_range calls /\
    (inputs <> [] -> needsRedraw (menu g') = false).
Proof.
  intros Hg Hin. revert g Hg.
  induction Hin as [|i inputs Hi Hin IH]; intros g Hg.
  - exists g, []. split; [reflexivity|]. split; [exact Hg|]. split; [constructor|congruence].
  - destruct (loop_run i g Hg Hi) as (shown & g1 & c1 & Hrun1 & Hg1 & Hc1 & Hr1 & _).
    destruct (IH g1 Hg1) as (g2 & c2 & Hrun2 & Hg2 & Hc2 & Hr2).
    exists g2, (c1 ++ c2). split.
    { cbn [loops]. cbv beta delta [mbind M_bind bind]. rewrite Hrun1, Hrun2. reflexivity. }
    split; [exact Hg2|]. split; [apply Forall_app; split; assumption|].
    intros _. destruct inputs as [|i' inputs']; [|apply Hr2; congruence].
    cbn in Hrun2. injection Hrun2 as <- _. exact Hr1.
Qed.

(** X19.  However many passes [loop()] makes, and whatever requests, console
    input, sensor results, button readings and knob counts they see, no
    pass indexes outside the history arrays; the arrays keep their size and
    the cursor, the page, the brightness and the colour their ranges; every
    call to the backlight, the pixel and the store carries values in range;
    and each pass ends with no redraw pending. *)
Theorem loop_never_faults (inputs : list Inputs) (g : Globals) :
  globals_ok g ->
  Forall inputs_ok inputs ->
  exists g' calls,
    loops inputs g = Done tt g' calls /\
    globals_ok g' /\ Forall call_in_range calls /\
    (inputs <> [] -> needsRedraw (menu g') = false).
Proof. apply loops_run. Qed.

(** X20.  A pass of [loop()] either leaves the history as it was, or it records
    the reading that [endReading] returned and redraws the display in the
    same pass; when the page drawn is the main page, it shows that reading. *)
Theorem pass_that_records_redraws_with_the_reading (i : Inputs) (g : Globals) :
  globals_ok g ->
  inputs_ok i ->
  exists shown g' calls,
    loop i g = Done shown g' calls /\
    (history g' = history g \/
     exists bme d,
       tick_end (in_tick i) = Some bme /\
       history g' =
         history (recorded (tick_now (in_tick i)) (tick_time (in_tick i)) bme g) /\
       shown = Some d /\
       forall t h p, d = MainPage t h p ->
         t = mkReading (tick_time (in_tick i)) (temperature bme) /\
         h = mkReading (tick_time (in_tick i)) (humidity bme) /\
         p = mkReading (tick_time (in_tick i)) (div_100f (pressure bme))).
Proof.
  intros Hg Hi.
  destruct (loop_run i g Hg Hi) as (shown & g' & calls & Hrun & _ & _ & _ & Hrec).
  exists shown, g', calls. auto.
Qed.

Lemma nvs_after_ok (calls : list Call) :
  Forall call_in_range calls ->
  forall nvs, nvs_ok nvs -> nvs_ok (nvs_after calls nvs).
Proof.
  unfold nvs_after. induction 1 as [|c calls Hc _ IH]; intros nvs Hnvs; [exact Hnvs|].
  cbn [foldl]. apply IH.
  destruct c; try exact Hnvs; cbn in Hc |- *.
  all: intros k w Hk; destruct (decide (key = k)) as [->|Hne];
    [rewrite lookup_insert_eq in Hk; injection Hk as <-; exact Hc
    |rewrite lookup_insert_ne in Hk by exact Hne; exact (Hnvs k w Hk)].
Qed.

(** X21.  Started on a store whose values are in range, the sketch reads settings
    in range: [setup()] leaves well-formed globals, any number of passes of
    [loop()] runs without a fault, and the store they leave is in range
    again, so the same holds after the next restart. *)
Theorem sketch_runs_from_its_own_store
    (now : Z) (nvs : gmap string Z) (inputs : list Inputs) :
  nvs_ok nvs ->
  Forall inputs_ok inputs ->
  exists g0 g' calls,
    loadSettings nvs (setup_globals now 128 10 0 10) =
      Done tt g0 [preferences_begin "weather-stn" true; preferences_end] /\
    globals_ok g0 /\
    loops inputs g0 = Done tt g' calls /\
    globals_ok g' /\
    nvs_ok (nvs_after calls nvs).
Proof.
  intros Hnvs Hin.
  assert (Hc : CHUNK_SIZE = 200) by reflexivity.
  assert (Hbyte : forall key d, 0 <= d <= 255 -> 0 <= default d (nvs !! key) <= 255).
  { intros key d Hd. destruct (nvs !! key) as [v|] eqn:Hk; [exact (Hnvs key v Hk)|exact Hd]. }
  assert (Hg0 : globals_ok
            (with_menu
               (with_blueVal (to_uint8 (default 10 (nvs !! "led_b")))
                  (with_greenVal (to_uint8 (default 0 (nvs !! "led_g")))
                     (with_redVal (to_uint8 (default 10 (nvs !! "led_r")))
                        (with_lcdBrightness
                           (to_int32 (default 128 (nvs !! "brightness")))
                           (menu (setup_globals now 128 10 0 10))))))
               (setup_globals now 128 10 0 10))).
  { assert (Hpos : 0 < HISTORY_SIZE) by lia.
    destruct (setup_globals_ok now 128 10 0 10 Hpos) as [Hh Hs].
    split; [exact Hh|]. split; [exact Hs|].
    pose proof (Hbyte "brightness" 128 ltac:(lia)) as Hb.
    rewrite (to_int32_small (default 128 (nvs !! "brightness"))) by lia.
    pose proof (to_uint8_range (default 10 (nvs !! "led_r"))).
    pose proof (to_uint8_range (default 0 (nvs !! "led_g"))).
    pose proof (to_uint8_range (default 10 (nvs !! "led_b"))).
    generalize dependent (default 128 (nvs !! "brightness")).
    generalize dependent (to_uint8 (default 10 (nvs !! "led_r"))).
    generalize dependent (to_uint8 (default 0 (nvs !! "led_g"))).
    generalize dependent (to_uint8 (default 10 (nvs !! "led_b"))).
    intros. unfold menu_ok, NUM_PAGES. cbn. lia. }
  destruct (loops_run inputs _ Hg0 Hin) as (g' & calls & Hrun & Hg' & Hcalls & _).
  eexists _, g', calls. split; [apply loadSettings_run|].
  split; [exact Hg0|]. split; [exact Hrun|]. split; [exact Hg'|].
  apply nvs_after_ok; assumption.
Qed.

End Loop.

End MoreProperties.

(** * The claims that span configurations, and evaluations *)

(** C3. For each channel and each run of [K] recorded readings, [1 <= K <=
    HISTORY_SIZE], started at any position of the write cursor: afterwards the
    slot at logical offset 0, which is also the slot [currentIndex] used for
    the latest value, holds the last reading recorded, and the slot at logical
    offset [K - 1] holds the first.  With capacity 5 and temperatures 10 to 16
    recorded in order, the latest value served is 16, offset 0 holds 16 and
    offset 4 holds 12. *)
Theorem ring_buffer_newest_and_first :
  (forall (cfg : Config) (ch : Channel) (g : Globals) (samples : list Sample),
     history_ok (history g) ->
     samples <> [] ->
     Z.of_nat (length samples) <= HISTORY_SIZE ->
     exists g' calls,
       recordReadings samples g = Done tt g' calls /\
       currentIndex g' = plotIndex g' 0 /\
       channel_array ch (history g') !! Z.to_nat (plotIndex g' 0) =
         fmap (M := option) (sample_reading ch) (last samples) /\
       channel_array ch (history g')
         !! Z.to_nat (plotIndex g' (Z.of_nat (length samples) - 1)) =
         fmap (M := option) (sample_reading ch) (head samples)) /\
  (recordReadings scenario_samples scenario_start =
     Done tt scenario_end [bme_setGasHeater 0 0] /\
   handleLatestData scenario_end =
     Done tt scenario_end
       [server_send 200 "application/json"
          (LatestJson (cfg := sketch 5) 16%Q 0%Q (0 # 100)%Q 0%Q 0)] /\
   fmap (M := option) (value (cfg := sketch 5))
     (tempHistory (history scenario_end) !! Z.to_nat (currentIndex scenario_end))
     = Some 16%Q /\
   fmap (M := option) (value (cfg := sketch 5))
     (tempHistory (history scenario_end) !! Z.to_nat (plotIndex scenario_end 0))
     = Some 16%Q /\
   fmap (M := option) (value (cfg := sketch 5))
     (tempHistory (history scenario_end) !! Z.to_nat (plotIndex scenario_end 4))
     = Some 12%Q).
Proof.
  split.
  - intros cfg ch g samples. apply recordReadings_newest_and_first.
  - split; [vm_compute; reflexivity|].
    split; [vm_compute; reflexivity|].
    split; [vm_compute; reflexivity|].
    split; vm_compute; reflexivity.
Qed.

(** ** Evaluations on concrete states *)

#[local] Existing Instance firmware.
#[local] Existing Instance newlib.

Ltac evaluate := vm_compute; first [reflexivity | discriminate | intros H; discriminate H].

Lemma history_ok_boot : history_ok (history boot).
Proof. split; [|split; [|split; [|split]]]; evaluate. Qed.

Lemma history_ok_full : history_ok (history full_globals).
Proof. split; [|split; [|split; [|split]]]; evaluate. Qed.

(** C1, counterexample.  With the arrays full and [offset=1999],
    [handleData] starts at slot 1801, which is logical offset 198, whereas
    logical offset [min (1999 + 199) 1999] is slot 0; the walk reaches the
    newest slot at point 198 and then steps across the write cursor: the
    last point served is the oldest reading (time 1), after the newest
    (time 2000). *)
Lemma handleData_window_crosses_head_at_1999 :
  requested_offset args_offset_1999 = 1999 /\
  chunk_start 2 full_globals 1999 = Some 1801 /\
  plotIndex full_globals 198 = 1801 /\
  plotIndex full_globals (Z.min (1999 + CHUNK_SIZE - 1) (HISTORY_SIZE - 1)) = 0 /\
  crosses_head full_globals (chunk_indices 1801) /\
  sent_temp (handleData 2 args_offset_1999 full_globals) !! 198%nat
    = Some (mkPoint 2000000 2000%Q) /\
  sent_temp (handleData 2 args_offset_1999 full_globals) !! 199%nat
    = Some (mkPoint 1000 1%Q).
Proof.
  split; [evaluate|]. split; [evaluate|]. split; [evaluate|]. split; [evaluate|].
  split; [exists 198%nat; split; evaluate|].
  split; evaluate.
Qed.

Lemma handleData_window_in_bounds_witness :
  history_ok (history full_globals) /\
  CHUNK_SIZE <= HISTORY_SIZE /\
  (2 <= 2)%nat /\
  exists start,
    chunk_start 2 full_globals (requested_offset args_offset_400) = Some start /\
    Forall (fun p => 0 <= p < HISTORY_SIZE) (chunk_indices start) /\
    ~ crosses_head full_globals (chunk_indices start).
Proof.
  split; [exact history_ok_full|]. split; [evaluate|]. split; [lia|].
  destruct (handleData_window_in_bounds full_globals args_offset_400 2
              history_ok_full ltac:(evaluate) ltac:(lia))
    as (start & points & _ & Hstart & _ & Hin & _ & _ & Hfit).
  exists start. split; [exact Hstart|]. split; [exact Hin|].
  apply Hfit. evaluate.
Defined.

(** C2, counterexample.  The two runs differ only in how long the gas read
    takes: in the first it finishes at 3600351, in the second, after one
    failed [endReading], at 3600502.  At the poll at 7200352 the first run
    arms the heater for the next cycle and the second does not: the length of
    the cycle follows the latency of the gas read. *)
Lemma gas_cycle_length_follows_read_latency :
  lastGasReadTime (sensor normal) = 200 /\
  lastGasReadTime (sensor (after (ticks prompt_read) normal)) = 3600351 /\
  lastGasReadTime (sensor (after (ticks delayed_read) normal)) = 3600502 /\
  currentSensorState (sensor (after (ticks prompt_read) normal)) = NORMAL_READING /\
  currentSensorState (sensor (after (ticks delayed_read) normal)) = NORMAL_READING /\
  calls_of (tick late_poll) (after (ticks prompt_read) normal) =
    [bme_setGasHeater 320 150; bme_beginReading] /\
  calls_of (tick late_poll) (after (ticks delayed_read) normal) = [bme_endReading] /\
  currentSensorState (sensor (after (tick late_poll) (after (ticks prompt_read) normal)))
    = GAS_MEASUREMENT /\
  currentSensorState (sensor (after (tick late_poll) (after (ticks delayed_read) normal)))
    = NORMAL_READING.
Proof.
  split; [evaluate|]. split; [evaluate|]. split; [evaluate|]. split; [evaluate|].
  split; [evaluate|]. split; [evaluate|]. split; [evaluate|]. split; evaluate.
Qed.

Lemma gas_cycle_period_witness :
  (exists g',
     handleSensorReadings 200 0 (Some bme_valid) 1700000000 reading_in_flight =
       Done tt g' [bme_endReading; bme_setGasHeater 0 0] /\
     currentSensorState (sensor g') = COOLING_DOWN /\
     coolingStartTime (sensor g') = 200 /\
     lastGasReadTime (sensor g') = 200) /\
  (exists g' calls,
     handleSensorReadings 300300 300450 None 1700000300 cooling = Done tt g' calls /\
     currentSensorState (sensor g') = NORMAL_READING) /\
  (exists g',
     handleSensorReadings 3600300 3600450 None 1700003600 normal =
       Done tt g' [bme_setGasHeater 320 150; bme_beginReading] /\
     currentSensorState (sensor g') = GAS_MEASUREMENT /\
     sensorReadingEndTime (sensor g') = 3600450) /\
  (exists g1 calls g2,
     ticks [mkTick 200 0 (Some bme_valid) 1700000000;
            mkTick 300100 300250 None 1700000300;
            mkTick 300300 0 (Some bme_valid) 1700000300;
            mkTick 3600200 3600350 None 1700003600] reading_in_flight =
       Done tt g1 calls /\
     lastGasReadTime (sensor g1) = 200 /\
     ~ In (bme_setGasHeater 320 150) calls /\
     currentSensorState (sensor g1) = NORMAL_READING /\
     tick (mkTick 3600201 3600351 None 1700003600) g1 =
       Done tt g2 [bme_setGasHeater 320 150; bme_beginReading] /\
     currentSensorState (sensor g2) = GAS_MEASUREMENT /\
     sensorReadingEndTime (sensor g2) = 3600351).
Proof.
  destruct (gas_cycle_period (cfg := firmware)) as (Ha & Hb & Hc & Hd).
  split; [|split; [|split]].
  - destruct (Ha reading_in_flight 200 0 1700000000 bme_valid)
      as (g' & Hrun & Hst & Hcool & Hlast & _);
      [exact history_ok_boot|reflexivity|split; evaluate|evaluate|].
    exists g'. auto.
  - apply (Hb cooling 300300 300450 1700000300 None); evaluate
      || (split; [|split; [|split; [|split]]]; evaluate).
  - destruct (Hc normal 3600300 3600450 1700003600 None)
      as (g' & Hrun & Hst & Hdl & _); [evaluate|evaluate|].
    exists g'. auto.
  - destruct (Hd reading_in_flight 200 0 1700000000 bme_valid
                [mkTick 300100 300250 None 1700000300;
                 mkTick 300300 0 (Some bme_valid) 1700000300;
                 mkTick 3600200 3600350 None 1700003600])
      as (g1 & calls & Hrun & Hlast & _ & Hno & Hlater & _);
      [exact history_ok_boot|reflexivity|split; evaluate|evaluate
      |repeat constructor; evaluate|].
    destruct Hlater as [Hn Harm];
      [apply Exists_cons_tl, Exists_cons_hd; evaluate|].
    destruct (Harm (mkTick 3600201 3600351 None 1700003600) ltac:(evaluate))
      as (g2 & Hrun2 & _ & Hst2 & Hdl2 & _).
    exists g1, calls, g2. auto 10.
Defined.

Lemma invalid_gas_keeps_cache_enters_cooldown_witness :
  history_ok (history reading_in_flight) /\
  currentSensorState (sensor reading_in_flight) = GAS_MEASUREMENT /\
  0 < sensorReadingEndTime (sensor reading_in_flight) <= 200 /\
  gas_resistance bme_invalid <= 0 /\
  exists g',
    handleSensorReadings 200 0 (Some bme_invalid) 1700000000 reading_in_flight =
      Done tt g' [bme_endReading; bme_setGasHeater 0 0] /\
    lastValidGasReading (sensor g') = lastValidGasReading (sensor reading_in_flight) /\
    lastGasReadTimestamp (sensor g') = lastGasReadTimestamp (sensor reading_in_flight) /\
    currentSensorState (sensor g') = COOLING_DOWN /\
    coolingStartTime (sensor g') = 200.
Proof.
  assert (Hdl : 0 < sensorReadingEndTime (sensor reading_in_flight) <= 200)
    by (split; evaluate).
  assert (Hgas : gas_resistance bme_invalid <= 0) by evaluate.
  split; [exact history_ok_boot|]. split; [reflexivity|]. split; [exact Hdl|].
  split; [exact Hgas|].
  destruct (invalid_gas_keeps_cache_enters_cooldown reading_in_flight 200 0 1700000000
              bme_invalid history_ok_boot eq_refl Hdl Hgas)
    as (g' & Hrun & Hv & Ht & Hst & Hcool & _).
  exists g'. auto.
Defined.

Lemma failed_read_changes_nothing_witness :
  sensor_ok (sensor normal) /\
  handleSensorReadings 300500 0 None 1700000301 normal =
    Done tt (with_sensor (with_sensorReadingEndTime 0 (sensor normal)) normal)
      [bme_endReading].
Proof.
  assert (Hs : sensor_ok (sensor normal)) by (intros H; vm_compute in H; discriminate H).
  split; [exact Hs|].
  destruct (failed_read_changes_nothing normal 300500 0 1700000301 Hs)
    as (g' & calls & Hrun & Hfail & Hattempt).
  destruct Hfail as (-> & -> & _).
  - apply Hattempt; [split; evaluate|].
    right. split; evaluate.
  - exact Hrun.
Defined.

(** C6, counterexample.  Brightness was being edited when the console
    selected page 4, which left [brightnessEditMode] set.  The poll at
    [millis() = 1060] registers both the click (the button LOW since 1000) and
    a turn of one detent: the page changes from 4 to 5, the click then clears
    the flag on page 5, and [saveBrightness] writes to the store. *)
Lemma page_change_with_click_persists :
  currentPage (menu stale_edit_pressed) = 4 /\
  brightnessEditMode (menu stale_edit_pressed) = true /\
  to_int32 (Z.quot (encoderCount stale_edit_pressed) 4) = 5 /\
  oldEncoderPosition (menu stale_edit_pressed) = 4 /\
  clicked stale_edit_pressed LOW 1060 1060 = true /\
  currentPage (menu (after (handleEncoder LOW 1060 1060) stale_edit_pressed)) = 5 /\
  brightnessEditMode (menu (after (handleEncoder LOW 1060 1060) stale_edit_pressed))
    = false /\
  calls_of (handleEncoder LOW 1060 1060) stale_edit_pressed =
    [preferences_begin "weather-stn" false;
     preferences_putInt "brightness" 128;
     preferences_end].
Proof.
  split; [evaluate|]. split; [evaluate|]. split; [evaluate|]. split; [evaluate|].
  split; [evaluate|]. split; [evaluate|]. split; evaluate.
Qed.

Lemma rotation_page_change_exits_edit_modes_witness :
  brightnessEditMode (menu knob_turned) = true /\
  clicked knob_turned HIGH 1000 1000 = false /\
  exists g' calls,
    handleEncoder HIGH 1000 1000 knob_turned = Done tt g' calls /\
    currentPage (menu knob_turned) = 4 /\
    currentPage (menu g') = 5 /\
    brightnessEditMode (menu g') = false /\
    rgbEditMode (menu g') = false /\
    existsb is_persist calls = false.
Proof.
  assert (Hclick : clicked knob_turned HIGH 1000 1000 = false) by evaluate.
  split; [evaluate|]. split; [exact Hclick|].
  destruct (rotation_page_change_exits_edit_modes knob_turned HIGH 1000 1000)
    as (g' & calls & Hrun & Hpage & _).
  assert (Hafter : after (handleEncoder HIGH 1000 1000) knob_turned = g')
    by (unfold after; rewrite Hrun; reflexivity).
  assert (H5 : currentPage (menu g') = 5) by (rewrite <- Hafter; evaluate).
  assert (H4 : currentPage (menu knob_turned) = 4) by evaluate.
  destruct Hpage as (Hb & Hr & Hp); [rewrite H5, H4; discriminate|].
  exists g', calls. auto 10.
Defined.

Lemma handleRgbSet_missing_or_applied_witness :
  args_rgb_no_b !! "b" = None /\
  handleRgbSet args_rgb_no_b boot =
    Done tt boot [server_send 400 "text/plain" (Text "Bad Request")] /\
  exists g',
    handleRgbSet args_rgb_300 boot =
      Done tt g'
        [pixels_setPixelColor 0 44 0 255; pixels_show;
         server_send 200 "text/plain" (Text "OK")] /\
    redVal (menu g') = 44 /\ greenVal (menu g') = 0 /\ blueVal (menu g') = 255.
Proof.
  assert (Hb : args_rgb_no_b !! "b" = None) by evaluate.
  destruct (handleRgbSet_missing_or_applied boot args_rgb_no_b) as [Hmiss _].
  destruct (handleRgbSet_missing_or_applied boot args_rgb_300) as [_ Hall].
  split; [exact Hb|]. split.
  - apply Hmiss. right. right. exact Hb.
  - destruct (Hall "300"%string "0"%string "-1"%string)
      as (g' & Hrun & Hr & Hg & Hbl & _); [evaluate|evaluate|evaluate|].
    exists g'. split; [exact Hrun|]. rewrite Hr, Hg, Hbl. split; [|split]; evaluate.
Defined.

Lemma gas_timer_restarts_whatever_the_gas_value_witness :
  history_ok (history reading_in_flight) /\
  currentSensorState (sensor reading_in_flight) = GAS_MEASUREMENT /\
  0 < sensorReadingEndTime (sensor reading_in_flight) <= 200 /\
  exists g' calls g'' calls',
    handleSensorReadings 200 0 (Some bme_invalid) 1700000000 reading_in_flight =
      Done tt g' calls /\
    lastGasReadTime (sensor g') = 200 /\
    ticks [mkTick 300300 300450 None 1700000300;
           mkTick 300500 0 (Some bme_valid) 1700000301;
           mkTick 3600200 3600350 None 1700003600] g' = Done tt g'' calls' /\
    currentSensorState (sensor g'') <> GAS_MEASUREMENT /\
    ~ In (bme_setGasHeater 320 150) calls'.
Proof.
  assert (Hdl : 0 < sensorReadingEndTime (sensor reading_in_flight) <= 200)
    by (split; evaluate).
  split; [exact history_ok_boot|]. split; [reflexivity|]. split; [exact Hdl|].
  destruct (gas_timer_restarts_whatever_the_gas_value reading_in_flight 200 0 1700000000
              bme_invalid history_ok_boot eq_refl Hdl)
    as (g' & calls & Hrun & Hlast & _ & Hlater).
  destruct (Hlater [mkTick 300300 300450 None 1700000300;
                    mkTick 300500 0 (Some bme_valid) 1700000301;
                    mkTick 3600200 3600350 None 1700003600])
    as (g'' & calls' & Hticks & Hst & _ & Hno).
  { constructor; [evaluate|]. constructor; [evaluate|].
    constructor; [evaluate|]. constructor. }
  exists g', calls, g'', calls'. auto.
Defined.

Lemma handleRgbSet_stores_mod_256_witness :
  args_rgb_300 !! "r" = Some "300"%string /\
  toInt "300" = 300 /\
  exists g' calls,
    handleRgbSet args_rgb_300 boot = Done tt g' calls /\
    last calls = Some (server_send 200 "text/plain" (Text "OK")) /\
    redVal (menu g') = 44 /\ blueVal (menu g') = 255.
Proof.
  assert (H300 : toInt "300" = 300) by evaluate.
  split; [evaluate|]. split; [exact H300|].
  destruct (handleRgbSet_stores_mod_256 boot args_rgb_300 "300" "0" "-1")
    as (g' & calls & Hrun & Hresp & Hr & _ & Hb & Hex); [evaluate|evaluate|evaluate|].
  exists g', calls. split; [exact Hrun|]. split; [exact Hresp|].
  split; [exact (Hex H300)|]. rewrite Hb. evaluate.
Defined.

Lemma remote_page_select_keeps_edit_modes_witness :
  char_code "0" <= char_code "4" < char_code "0" + NUM_PAGES /\
  brightnessEditMode (menu editing_brightness) = true /\
  exists g',
    webSocketEvent WStype_TEXT "4" editing_brightness = Done tt g' [] /\
    handleSerialInput "4" editing_brightness = Done tt g' [] /\
    currentPage (menu g') = 4 /\
    brightnessEditMode (menu g') = true /\
    encoderCount g' = 16.
Proof.
  assert (Hc : char_code "0" <= char_code "4" < char_code "0" + NUM_PAGES)
    by (split; evaluate).
  split; [exact Hc|]. split; [reflexivity|].
  destruct (remote_page_select_keeps_edit_modes editing_brightness "4" "" Hc)
    as (g' & Hws & Hserial & Hpage & Hb & _ & Hrebase & _).
  destruct Hrebase as (Hcount & _); [evaluate|].
  exists g'. split; [exact Hws|]. split; [exact Hserial|].
  split; [rewrite Hpage; evaluate|]. split; [rewrite Hb; reflexivity|].
  rewrite Hcount. evaluate.
Defined.

Lemma ring_buffer_newest_and_first_witness :
  history_ok (history scenario_start) /\
  take 3 scenario_samples <> [] /\
  Z.of_nat (length (take 3 scenario_samples)) <= HISTORY_SIZE (Config := sketch 5) /\
  exists g' calls,
    recordReadings (take 3 scenario_samples) scenario_start = Done tt g' calls /\
    tempHistory (history g') !! Z.to_nat (plotIndex g' 0) =
      Some (mkReading (cfg := sketch 5) 12 12%Q) /\
    tempHistory (history g') !! Z.to_nat (plotIndex g' 2) =
      Some (mkReading (cfg := sketch 5) 10 10%Q).
Proof.
  assert (Hok : history_ok (history scenario_start))
    by (split; [|split; [|split; [|split]]]; evaluate).
  assert (Hne : take 3 scenario_samples <> []) by evaluate.
  assert (Hlen : Z.of_nat (length (take 3 scenario_samples))
                 <= HISTORY_SIZE (Config := sketch 5)) by evaluate.
  split; [exact Hok|]. split; [exact Hne|]. split; [exact Hlen|].
  destruct (proj1 ring_buffer_newest_and_first (sketch 5) Temp scenario_start
              (take 3 scenario_samples) Hok Hne Hlen)
    as (g' & calls & Hrun & _ & Hnew & Hfirst).
  exists g', calls. split; [exact Hrun|]. split; [exact Hnew|exact Hfirst].
Defined.

(** ** Evaluations of the further properties *)

Ltac in_range := split; evaluate.

Lemma menu_ok_boot : menu_ok (menu boot).
Proof. split; [in_range|split; [in_range|split; [in_range|split; in_range]]]. Qed.

Lemma sensor_ok_boot : sensor_ok (sensor boot).
Proof. intros H. vm_compute in H. discriminate H. Qed.

Lemma globals_ok_boot : globals_ok boot.
Proof. split; [exact history_ok_boot|split; [exact sensor_ok_boot|exact menu_ok_boot]]. Qed.

Lemma chunk_fits : CHUNK_SIZE <= HISTORY_SIZE.
Proof. evaluate. Qed.

Lemma cooling_down_pass_is_idle_witness :
  sensor_ok (sensor cooling) /\
  currentSensorState (sensor cooling) = COOLING_DOWN /\
  usub 1000 (coolingStartTime (sensor cooling)) <= COOL_DOWN_PERIOD /\
  handleSensorReadings 1000 0 None 1700000001 cooling = Done tt cooling [].
Proof.
  assert (Hs : sensor_ok (sensor cooling)) by (intros _; evaluate).
  assert (Hst : currentSensorState (sensor cooling) = COOLING_DOWN) by evaluate.
  assert (Hd : usub 1000 (coolingStartTime (sensor cooling)) <= COOL_DOWN_PERIOD)
    by evaluate.
  split; [exact Hs|]. split; [exact Hst|]. split; [exact Hd|].
  exact (cooling_down_pass_is_idle cooling 1000 0 1700000001 None Hs Hst Hd).
Defined.

Lemma pending_read_pass_is_idle_witness :
  100 < sensorReadingEndTime (sensor reading_in_flight) /\
  0 < sensorReadingEndTime (sensor reading_in_flight) /\
  currentSensorState (sensor reading_in_flight) = GAS_MEASUREMENT /\
  handleSensorReadings 100 0 (Some bme_valid) 1700000000 reading_in_flight =
    Done tt reading_in_flight [].
Proof.
  assert (Hnow : 100 < sensorReadingEndTime (sensor reading_in_flight)) by evaluate.
  assert (Hdl : 0 < sensorReadingEndTime (sensor reading_in_flight)) by evaluate.
  assert (Hst : currentSensorState (sensor reading_in_flight) = GAS_MEASUREMENT)
    by evaluate.
  split; [exact Hnow|]. split; [exact Hdl|]. split; [exact Hst|].
  exact (pending_read_pass_is_idle reading_in_flight 100 0 1700000000 (Some bme_valid)
           Hnow Hdl (or_introl Hst)).
Defined.

Lemma pass_begins_or_finishes_witness :
  history_ok (history reading_in_flight) /\
  exists g' calls,
    handleSensorReadings 200 0 (Some bme_valid) 1700000000 reading_in_flight =
      Done tt g' calls /\
    (In bme_beginReading calls -> ~ In bme_endReading calls) /\
    (In bme_endReading calls ->
     0 < sensorReadingEndTime (sensor reading_in_flight) <= 200 /\
     sensorReadingEndTime (sensor g') = 0).
Proof.
  split; [exact history_ok_boot|].
  destruct (pass_begins_or_finishes reading_in_flight 200 0 1700000000 (Some bme_valid)
              history_ok_boot) as (g' & calls & Hrun & Hone & Hend & _).
  exists g', calls. split; [exact Hrun|]. split; [exact Hone|exact Hend].
Defined.

Lemma pass_leaves_navigation_alone_witness :
  history_ok (history reading_in_flight) /\
  exists g' calls,
    handleSensorReadings 200 0 (Some bme_valid) 1700000000 reading_in_flight =
      Done tt g' calls /\
    button g' = button reading_in_flight /\
    encoderCount g' = encoderCount reading_in_flight.
Proof.
  split; [exact history_ok_boot|].
  destruct (pass_leaves_navigation_alone reading_in_flight 200 0 1700000000
              (Some bme_valid) history_ok_boot) as (g' & calls & Hrun & Hb & He & _).
  exists g', calls. split; [exact Hrun|]. split; [exact Hb|exact He].
Defined.

Lemma timers_survive_millis_wrap_witness :
  history_ok (history cooling_near_wrap) /\
  300001 < 2 ^ 32 /\
  currentSensorState (sensor cooling_near_wrap) = COOLING_DOWN /\
  0 <= coolingStartTime (sensor cooling_near_wrap) < 2 ^ 32 /\
  COOL_DOWN_PERIOD < 300001 /\
  (coolingStartTime (sensor cooling_near_wrap) + 300001) mod 2 ^ 32 = 299705 /\
  exists g' calls,
    handleSensorReadings
      ((coolingStartTime (sensor cooling_near_wrap) + 300001) mod 2 ^ 32)
      0 None 1700000300 cooling_near_wrap = Done tt g' calls /\
    currentSensorState (sensor g') = NORMAL_READING.
Proof.
  assert (Hok : history_ok (history cooling_near_wrap))
    by (split; [|split; [|split; [|split]]]; evaluate).
  assert (Hd : 300001 < 2 ^ 32) by evaluate.
  assert (Hst : currentSensorState (sensor cooling_near_wrap) = COOLING_DOWN) by evaluate.
  assert (Hcs : 0 <= coolingStartTime (sensor cooling_near_wrap) < 2 ^ 32) by in_range.
  assert (Hlong : COOL_DOWN_PERIOD < 300001) by evaluate.
  split; [exact Hok|]. split; [exact Hd|]. split; [exact Hst|]. split; [exact Hcs|].
  split; [exact Hlong|]. split; [evaluate|].
  exact (proj1 (timers_survive_millis_wrap cooling_near_wrap 300001 0 1700000300 None
                  Hok Hd) Hst Hcs Hlong).
Defined.

Lemma ring_buffer_shifts_witness :
  history_ok (history scenario_start) /\
  exists g' calls,
    recordReadings scenario_samples scenario_start = Done tt g' calls /\
    history_ok (history g') /\
    tempHistory (history g') !! Z.to_nat (plotIndex g' 4) =
      Some (mkReading (cfg := sketch 5) 12 12%Q).
Proof.
  assert (Hok : history_ok (history scenario_start))
    by (split; [|split; [|split; [|split]]]; evaluate).
  split; [exact Hok|].
  destruct (ring_buffer_shifts (cfg := sketch 5) scenario_samples scenario_start Hok)
    as (g' & calls & Hrun & Hok' & Hat).
  exists g', calls. split; [exact Hrun|]. split; [exact Hok'|].
  exact (Hat Temp 4%nat ltac:(evaluate)).
Defined.

Lemma latest_serves_the_reading_just_taken_witness :
  history_ok (history reading_in_flight) /\
  exists g' calls,
    handleSensorReadings 200 0 (Some bme_valid) 1700000000 reading_in_flight =
      Done tt g' calls /\
    (In bme_endReading calls ->
     handleLatestData g' =
       Done tt g'
         [server_send 200 "application/json"
            (LatestJson (temperature bme_valid) (humidity bme_valid)
               (div_100f (pressure bme_valid))
               (lastValidGasReading (sensor g')) (lastGasReadTimestamp (sensor g')))]).
Proof.
  split; [exact history_ok_boot|].
  destruct (latest_serves_the_reading_just_taken reading_in_flight 200 0 1700000000
              bme_valid history_ok_boot) as (g' & calls & Hrun & Hlatest).
  exists g', calls. split; [exact Hrun|]. intros Hin. exact (proj1 (Hlatest Hin)).
Defined.

Lemma data_window_is_chronological_witness :
  history_ok (history boot) /\
  CHUNK_SIZE <= HISTORY_SIZE /\
  (2 <= 2)%nat /\
  requested_offset args_offset_400 + CHUNK_SIZE <= HISTORY_SIZE /\
  requested_offset args_offset_400 + CHUNK_SIZE <= Z.of_nat (length full_samples) /\
  exists g' calls points,
    recordReadings full_samples boot = Done tt g' calls /\
    handleData 2 args_offset_400 g' =
      Done tt g'
        [server_send 200 "application/json"
           (DataJson ((fun pt => pt.1.1) <$> points)
                     ((fun pt => pt.1.2) <$> points)
                     ((fun pt => pt.2) <$> points))] /\
    points !! 0%nat =
      (fun sm => (json_point (sample_reading Temp sm),
                  json_point (sample_reading Humi sm),
                  json_point (sample_reading Pres sm)))
        <$> full_samples !! (length full_samples
                             - Z.to_nat (requested_offset args_offset_400 + CHUNK_SIZE)
                             + 0)%nat.
Proof.
  assert (Hfit : requested_offset args_offset_400 + CHUNK_SIZE <= HISTORY_SIZE)
    by evaluate.
  assert (Hlen : requested_offset args_offset_400 + CHUNK_SIZE
                 <= Z.of_nat (length full_samples)) by evaluate.
  split; [exact history_ok_boot|]. split; [exact chunk_fits|]. split; [lia|].
  split; [exact Hfit|]. split; [exact Hlen|].
  destruct (data_window_is_chronological full_samples boot args_offset_400 2
              history_ok_boot chunk_fits ltac:(lia) Hfit Hlen)
    as (g' & calls & points & Hrun & Hdata & Hpts).
  exists g', calls, points. split; [exact Hrun|]. split; [exact Hdata|].
  exact (Hpts 0%nat ltac:(evaluate)).
Defined.

Lemma plot_shows_the_last_82_readings_witness :
  history_ok (history boot) /\
  82 <= HISTORY_SIZE /\
  (82 <= length full_samples)%nat /\
  exists g' calls newest scanned plotted,
    recordReadings full_samples boot = Done tt g' calls /\
    drawPlotPage_reads (tempHistory (history g')) g' =
      Done (newest, scanned, plotted) g' [] /\
    Some newest = sample_reading Temp <$> last full_samples /\
    length plotted = 82%nat.
Proof.
  assert (Hbig : 82 <= HISTORY_SIZE) by evaluate.
  assert (Hlen : (82 <= length full_samples)%nat)
    by (apply Nat.leb_le; vm_compute; reflexivity).
  split; [exact history_ok_boot|]. split; [exact Hbig|]. split; [exact Hlen|].
  destruct (plot_shows_the_last_82_readings Temp full_samples boot
              history_ok_boot Hbig Hlen)
    as (g' & calls & newest & scanned & plotted & Hrun & Hplot & Hnew & Hcount & _).
  exists g', calls, newest, scanned, plotted. auto.
Defined.

Lemma saved_colour_survives_restart_witness :
  0 <= redVal (menu boot) <= 255 /\
  0 <= greenVal (menu boot) <= 255 /\
  0 <= blueVal (menu boot) <= 255 /\
  exists g1,
    loadSettings (nvs_after (calls_of handleRgbSave boot) ∅) boot =
      Done tt g1 [preferences_begin "weather-stn" true; preferences_end] /\
    redVal (menu g1) = redVal (menu boot) /\
    lcdBrightness (menu g1) = to_int32 (default 128 ((∅ : gmap string Z) !! "brightness")).
Proof.
  assert (Hr : 0 <= redVal (menu boot) <= 255) by in_range.
  assert (Hg : 0 <= greenVal (menu boot) <= 255) by in_range.
  assert (Hb : 0 <= blueVal (menu boot) <= 255) by in_range.
  split; [exact Hr|]. split; [exact Hg|]. split; [exact Hb|].
  destruct (proj1 (saved_colour_survives_restart boot boot ∅ Hr Hg Hb))
    as (g1 & Hrun & Hred & _ & _ & Hbright).
  exists g1. split; [exact Hrun|]. split; [exact Hred|exact Hbright].
Defined.

Lemma click_exit_stores_the_value_shown_witness :
  clicked exit_brightness LOW 1060 1060 = true /\
  currentPage (menu exit_brightness) = 5 /\
  brightnessEditMode (menu exit_brightness) = true /\
  exists g' calls,
    handleEncoder LOW 1060 1060 exit_brightness = Done tt g' calls /\
    brightnessEditMode (menu g') = false /\
    nvs_after calls ∅ = <["brightness" := lcdBrightness (menu exit_brightness)]> ∅.
Proof.
  assert (Hclick : clicked exit_brightness LOW 1060 1060 = true) by evaluate.
  assert (Hpage : currentPage (menu exit_brightness) = 5) by evaluate.
  assert (Hmode : brightnessEditMode (menu exit_brightness) = true) by evaluate.
  split; [exact Hclick|]. split; [exact Hpage|]. split; [exact Hmode|].
  destruct (proj1 (click_exit_stores_the_value_shown exit_brightness LOW 1060 1060 ∅ Hclick)
              Hpage Hmode) as (g' & calls & Hrun & Hoff & _ & _ & Hnvs).
  exists g', calls. split; [exact Hrun|]. split; [exact Hoff|exact Hnvs].
Defined.

Lemma knob_keeps_settings_in_range_witness :
  menu_ok (menu brightness_turned) /\
  exists g' calls,
    handleEncoder HIGH 1000 1000 brightness_turned = Done tt g' calls /\
    menu_ok (menu g') /\ Forall call_in_range calls.
Proof.
  assert (Hok : menu_ok (menu brightness_turned))
    by (split; [in_range|split; [in_range|split; [in_range|split; in_range]]]).
  split; [exact Hok|].
  exact (knob_keeps_settings_in_range brightness_turned HIGH 1000 1000 Hok).
Defined.

Lemma turn_in_edit_mode_sets_the_selected_value_witness :
  clicked brightness_turned HIGH 1000 1000 = false /\
  ~ at_rest brightness_turned /\
  currentPage (menu brightness_turned) = 5 /\
  brightnessEditMode (menu brightness_turned) = true /\
  lcdBrightness (turned brightness_turned) = 130 /\
  exists bt,
    handleEncoder HIGH 1000 1000 brightness_turned =
      Done tt (with_menu (turned brightness_turned) (with_button bt brightness_turned))
        [ledc_set_duty (256 - lcdBrightness (turned brightness_turned));
         ledc_update_duty].
Proof.
  assert (Hclick : clicked brightness_turned HIGH 1000 1000 = false) by evaluate.
  assert (Hrot : ~ at_rest brightness_turned) by (unfold at_rest; evaluate).
  assert (Hpage : currentPage (menu brightness_turned) = 5) by evaluate.
  assert (Hmode : brightnessEditMode (menu brightness_turned) = true) by evaluate.
  split; [exact Hclick|]. split; [exact Hrot|]. split; [exact Hpage|].
  split; [exact Hmode|]. split; [evaluate|].
  destruct (turn_in_edit_mode_sets_the_selected_value brightness_turned HIGH 1000 1000
              Hclick Hrot (or_introl (conj Hpage Hmode)))
    as (bt & calls & Hrun & Hcalls & _).
  exists bt. rewrite Hrun, Hcalls, Hpage. reflexivity.
Defined.

Lemma click_enters_edit_at_the_current_value_witness :
  menu_ok (menu settings_page) /\
  at_rest settings_page /\
  clicked settings_page LOW 1060 1060 = true /\
  currentPage (menu settings_page) = 5 /\
  brightnessEditMode (menu settings_page) = false /\
  exists g1 calls,
    handleEncoder LOW 1060 1060 settings_page = Done tt g1 calls /\
    calls = [] /\
    brightnessEditMode (menu g1) = true /\
    lcdBrightness (menu g1) = lcdBrightness (menu settings_page) /\
    to_int32 (Z.quot (encoderCount g1) 4) = lcdBrightness (menu settings_page).
Proof.
  assert (Hok : menu_ok (menu settings_page))
    by (split; [in_range|split; [in_range|split; [in_range|split; in_range]]]).
  assert (Hrest : at_rest settings_page) by (unfold at_rest; evaluate).
  assert (Hclick : clicked settings_page LOW 1060 1060 = true) by evaluate.
  assert (Hpage : currentPage (menu settings_page) = 5) by evaluate.
  assert (Hmode : brightnessEditMode (menu settings_page) = false) by evaluate.
  split; [exact Hok|]. split; [exact Hrest|]. split; [exact Hclick|].
  split; [exact Hpage|]. split; [exact Hmode|].
  destruct (click_enters_edit_at_the_current_value settings_page LOW 1060 1060
              Hok Hrest Hclick)
    as (g1 & calls & Hrun & Hbright & _ & _ & _ & _ & Henter & _).
  destruct (Henter Hpage Hmode) as (Hcalls & Hon & Hpos).
  exists g1, calls. auto.
Defined.

Lemma poll_after_edit_entry_changes_no_value_witness :
  menu_ok (menu edit_entered) /\
  clicked edit_entered LOW 1070 1070 = false /\
  currentPage (menu edit_entered) = 5 /\
  brightnessEditMode (menu edit_entered) = true /\
  to_int32 (Z.quot (encoderCount edit_entered) 4) = selected_value (menu edit_entered) /\
  ~ at_rest edit_entered /\
  exists g' calls,
    handleEncoder LOW 1070 1070 edit_entered = Done tt g' calls /\
    lcdBrightness (menu g') = lcdBrightness (menu edit_entered) /\
    existsb is_persist calls = false /\
    at_rest g'.
Proof.
  assert (Hok : menu_ok (menu edit_entered))
    by (split; [in_range|split; [in_range|split; [in_range|split; in_range]]]).
  assert (Hclick : clicked edit_entered LOW 1070 1070 = false) by evaluate.
  assert (Hpage : currentPage (menu edit_entered) = 5) by evaluate.
  assert (Hmode : brightnessEditMode (menu edit_entered) = true) by evaluate.
  assert (Hpos : to_int32 (Z.quot (encoderCount edit_entered) 4)
                 = selected_value (menu edit_entered)) by evaluate.
  split; [exact Hok|]. split; [exact Hclick|]. split; [exact Hpage|].
  split; [exact Hmode|]. split; [exact Hpos|].
  split; [unfold at_rest; evaluate|].
  destruct (poll_after_edit_entry_changes_no_value edit_entered LOW 1070 1070
              Hok Hclick (or_introl (conj Hpage Hmode)) Hpos)
    as (g' & calls & Hrun & Hbright & _ & _ & _ & _ & Hquiet & Hrest).
  exists g', calls. auto.
Defined.

Lemma remote_select_leaves_the_knob_at_rest_witness :
  char_code "0" <= char_code "4" < char_code "0" + NUM_PAGES /\
  currentPage (menu boot) <> char_code "4" - char_code "0" /\
  clicked (after (handleSerialInput "4") boot) HIGH 1000 1000 = false /\
  exists g1 bt,
    handleSerialInput "4" boot = Done tt g1 [] /\
    at_rest g1 /\
    handleEncoder HIGH 1000 1000 g1 = Done tt (with_button bt g1) [].
Proof.
  assert (Hc : char_code "0" <= char_code "4" < char_code "0" + NUM_PAGES) by in_range.
  assert (Hne : currentPage (menu boot) <> char_code "4" - char_code "0") by evaluate.
  assert (Hclick : clicked (after (handleSerialInput "4") boot) HIGH 1000 1000 = false)
    by evaluate.
  split; [exact Hc|]. split; [exact Hne|]. split; [exact Hclick|].
  destruct (remote_select_leaves_the_knob_at_rest boot "4" "" HIGH 1000 1000 Hc Hne)
    as (g1 & Hrun & _ & Hrest & Hidle).
  assert (Hafter : after (handleSerialInput "4") boot = g1)
    by (unfold after; rewrite Hrun; reflexivity).
  rewrite Hafter in Hclick. destruct (Hidle Hclick) as [bt Hpoll].
  exists g1, bt. auto.
Defined.

Lemma loop_never_faults_witness :
  CHUNK_SIZE <= HISTORY_SIZE /\
  globals_ok boot /\
  Forall inputs_ok [first_pass; second_pass] /\
  exists g' calls,
    loops [first_pass; second_pass] boot = Done tt g' calls /\
    globals_ok g' /\ Forall call_in_range calls /\
    needsRedraw (menu g') = false.
Proof.
  assert (Hin : Forall inputs_ok [first_pass; second_pass])
    by (repeat constructor; cbn; lia).
  split; [exact chunk_fits|]. split; [exact globals_ok_boot|]. split; [exact Hin|].
  destruct (loop_never_faults chunk_fits [first_pass; second_pass] boot
              globals_ok_boot Hin) as (g' & calls & Hrun & Hok & Hcalls & Hdrawn).
  exists g', calls. split; [exact Hrun|]. split; [exact Hok|]. split; [exact Hcalls|].
  apply Hdrawn. discriminate.
Defined.

Lemma pass_that_records_redraws_with_the_reading_witness :
  CHUNK_SIZE <= HISTORY_SIZE /\
  globals_ok reading_in_flight /\
  inputs_ok second_pass /\
  exists shown g' calls,
    loop second_pass reading_in_flight = Done shown g' calls /\
    (history g' = history reading_in_flight \/
     exists d,
       history g' = history (recorded 200 1700000000 bme_valid reading_in_flight) /\
       shown = Some d).
Proof.
  assert (Hg : globals_ok reading_in_flight)
    by (split; [exact history_ok_boot
               |split; [intros H; vm_compute in H; discriminate H|exact menu_ok_boot]]).
  assert (Hi : inputs_ok second_pass) by exact I.
  split; [exact chunk_fits|]. split; [exact Hg|]. split; [exact Hi|].
  destruct (pass_that_records_redraws_with_the_reading chunk_fits second_pass
              reading_in_flight Hg Hi) as (shown & g' & calls & Hrun & Hrec).
  exists shown, g', calls. split; [exact Hrun|].
  destruct Hrec as [Hsame|(bme & d & Hend & Hh & Hd & _)]; [left; exact Hsame|right].
  injection Hend as <-. exists d. split; [exact Hh|exact Hd].
Defined.

Lemma sketch_runs_from_its_own_store_witness :
  CHUNK_SIZE <= HISTORY_SIZE /\
  nvs_ok nvs_brightness_200 /\
  Forall inputs_ok [first_pass; second_pass] /\
  exists g0 g' calls,
    loadSettings nvs_brightness_200 (setup_globals 0 128 10 0 10) =
      Done tt g0 [preferences_begin "weather-stn" true; preferences_end] /\
    globals_ok g0 /\
    loops [first_pass; second_pass] g0 = Done tt g' calls /\
    globals_ok g' /\
    nvs_ok (nvs_after calls nvs_brightness_200).
Proof.
  assert (Hnvs : nvs_ok nvs_brightness_200).
  { intros key v Hk. unfold nvs_brightness_200 in Hk.
    apply lookup_singleton_Some in Hk as [_ <-]. lia. }
  assert (Hin : Forall inputs_ok [first_pass; second_pass])
    by (repeat constructor; cbn; lia).
  split; [exact chunk_fits|]. split; [exact Hnvs|]. split; [exact Hin|].
  exact (sketch_runs_from_its_own_store chunk_fits 0 nvs_brightness_200
           [first_pass; second_pass] Hnvs Hin).
Defined.
